(** * Valve: the per-datapath forwarding controller of faucet

    A shallow embedding of [faucet/valve.py] (class [Valve]) and the
    verification of its stack-link, LACP, packet-in, port-status and
    configuration-reload behaviour.

    Conventions of the embedding.
    - Python [int] is [Z]; epoch times ([now], a Python float) are exact
      rationals [Q], compared with [Qeq_bool]/[Qle_bool].
    - [dict]s keyed by port number or VID are [gmap Z _]; Python [set]s of
      port numbers are [gset Z].
    - A method that mutates [self] is a computation in the monad [M]:
      it takes the Valve and returns either a value with the new Valve,
      or the Python exception it raises.
    - Objects of modules that are not part of [valve.py] (the managers,
      [valve_packet], [valve_of], methods of [DP], [Port] and [VLAN]) are
      fields of the interface [External]; their private state is the
      abstract type [MgrState] threaded through every call. *)

From Stdlib Require Import ZArith QArith Lqa Bool List.
From stdpp Require Import base option list gmap strings.
Import ListNotations.

Local Open Scope Z_scope.

(** ** Python exceptions and results *)

Inductive Exn : Type :=
| KeyError
| TypeError
| AttributeError
| IndexError
| ZeroDivisionError.

Inductive Res (A : Type) : Type :=
| Ret (a : A)
| Raise (e : Exn).

Arguments Ret {A} a.
Arguments Raise {A} e.

(** ** Python truthiness and rational comparisons *)

Definition truthyZ (z : Z) : bool := negb (z =? 0).

Definition truthy_obool (o : option bool) : bool :=
  match o with Some b => b | None => false end.

Definition truthyQ (q : Q) : bool := negb (Qeq_bool q 0).

Definition truthy_oQ (o : option Q) : bool :=
  match o with Some q => truthyQ q | None => false end.

Definition Qlt_bool (x y : Q) : bool := negb (Qle_bool y x).

(** ** Tables, matches, instructions and messages ([valve_table], [valve_of]) *)

Definition MAC := Z.

Inductive Table : Type :=
| wildcard_table
| T_port_acl | T_vlan | T_copro | T_vlan_acl
| T_eth_src | T_ipv4_fib | T_ipv6_fib | T_vip
| T_eth_dst | T_eth_dst_hairpin | T_flood | T_egress_acl.

Global Instance Table_eq_dec : EqDecision Table.
Proof. solve_decision. Defined.

(** The VLAN of a match: [NullVLAN()] means "no tag". *)
Inductive VlanMatch : Type :=
| NullVLAN
| OFVLAN (vid : Z).

Global Instance VlanMatch_eq_dec : EqDecision VlanMatch.
Proof. solve_decision. Defined.

Record Match : Type := mkMatch {
  m_in_port : option Z;
  m_vlan : option VlanMatch;
  m_eth_type : option Z;
  m_eth_dst : option MAC;
  m_eth_dst_mask : option MAC
}.

Global Instance Match_eq_dec : EqDecision Match.
Proof. solve_decision. Defined.

Definition match_any : Match := mkMatch None None None None None.
Definition match_in_port (n : Z) : Match := mkMatch (Some n) None None None None.
Definition match_in_port_vlan (n : Z) (v : VlanMatch) : Match :=
  mkMatch (Some n) (Some v) None None None.
Definition match_vlan (v : VlanMatch) : Match := mkMatch None (Some v) None None None.

Inductive Action : Type :=
| push_vlan_act (vid : Z)
| pop_vlan
| output_port (n : Z)
| set_no_external_forwarding_requested
| set_external_forwarding_requested
| mirror_act (n : Z).

Global Instance Action_eq_dec : EqDecision Action.
Proof. solve_decision. Defined.

Inductive Inst : Type :=
| apply_actions (acts : list Action)
| goto (t : Table)
| ext_inst (tag : Z).

Global Instance Inst_eq_dec : EqDecision Inst.
Proof. solve_decision. Defined.

(** The parsed LACP PDU, with the fields [valve.py] reads. *)
Record LacpPkt : Type := mkLacpPkt {
  actor_system : MAC;
  actor_key : Z;
  actor_port : Z;
  actor_system_priority : Z;
  actor_port_priority : Z;
  actor_state_defaulted : Z;
  actor_state_expired : Z;
  actor_state_timeout : Z;
  actor_state_collecting : Z;
  actor_state_distributing : Z;
  actor_state_aggregation : Z;
  actor_state_synchronization : Z;
  actor_state_activity : Z
}.

Global Instance LacpPkt_eq_dec : EqDecision LacpPkt.
Proof. solve_decision. Defined.

(** Payload of a packet-out: the arguments [valve.py] passes to
    [valve_packet.lacp_reqreply], or an opaque payload. *)
Inductive Payload : Type :=
| lacp_reqreply (eth_src actor_sys : MAC) (key port_no : Z)
    (sync activity : Z) (collecting distributing : bool)
    (partner : option LacpPkt)
| ext_payload (tag : Z).

Global Instance Payload_eq_dec : EqDecision Payload.
Proof. solve_decision. Defined.

Inductive OfMsg : Type :=
| flowmod (t : Table) (m : Match) (priority : Z) (inst : list Inst)
| flowdrop (t : Table) (m : Match) (priority : Z)
| flowcontroller (t : Table) (m : Match) (priority : Z) (max_len : Z)
| flowdel (t : Table) (m : Match) (priority : option Z) (strict : bool)
| packetout (port_no : Z) (data : Payload)
| ext_msg (tag : Z).

Global Instance OfMsg_eq_dec : EqDecision OfMsg.
Proof. solve_decision. Defined.

Definition is_packetout (m : OfMsg) : bool :=
  match m with packetout _ _ => true | _ => false end.

(** ** Configuration objects: VLAN, Port, DP *)

Record VLAN : Type := mkVLAN {
  vid : Z;
  acls_in : bool;
  faucet_mac : MAC
}.

Global Instance VLAN_eq_dec : EqDecision VLAN.
Proof. solve_decision. Defined.

(** Modelled from the spec: the class [Port] is not part of [valve.py].
    A stack port is in one of the states INIT, UP, DOWN, or is
    administratively down (sections 3 and 4.7). *)
Inductive StackState : Type :=
| STACK_STATE_ADMIN_DOWN
| STACK_STATE_INIT
| STACK_STATE_DOWN
| STACK_STATE_UP.

Global Instance StackState_eq_dec : EqDecision StackState.
Proof. solve_decision. Defined.

(** [port.dyn_stack_probe_info]: a dict read with [.get(key, None)];
    only these two keys are read by the code embedded here. *)
Record ProbeInfo : Type := mkProbeInfo {
  last_seen_lldp_time : option Q;
  stack_correct : option bool
}.

(** [port.stack]: the peer of a stack port.  Of the remote DP only
    [lldp_beacon.get('send_interval', DEFAULT_LLDP_SEND_INTERVAL)] is read. *)
Record StackPeer : Type := mkStackPeer {
  remote_dp_name : Z;
  remote_port_no : Z;
  remote_lldp_send_interval : option Z;
  remote_DEFAULT_LLDP_SEND_INTERVAL : Z
}.

Record Port : Type := mkPort {
  number : Z;
  opstatus_reconf : bool;
  output_only : bool;
  coprocessor : option Z;          (* Some vlan_vid_base when a coprocessor port *)
  dot1x : bool;
  receive_lldp : bool;
  lacp : Z;                        (* LAG number, 0 when not an LACP port *)
  lacp_active : bool;
  lacp_passthrough : list Z;
  lacp_resp_interval : Z;
  stack : option StackPeer;
  max_lldp_lost : Z;
  tagged_vlans : list VLAN;
  native_vlan : option VLAN;
  loop_protect_external : bool;
  (* dynamic state *)
  dyn_phys_up : bool;
  dyn_lacp_up : Z;
  dyn_last_lacp_pkt : option LacpPkt;
  dyn_lacp_updated_time : option Q;
  dyn_lacp_last_resp_time : option Q;
  dyn_stack_current_state : StackState;
  dyn_stack_probe_info : ProbeInfo;
  dyn_dot1x_native_vlan : option VLAN
}.

Record DP : Type := mkDP {
  dp_id : Z;
  ports : gmap Z Port;
  vlans : gmap Z VLAN;
  dp_stack : bool;                 (* dp.stack is set *)
  dp_dot1x : option Z;             (* Some nfv_sw_port when dot1x is configured *)
  dp_acls : bool;
  has_acls : bool;
  has_externals : bool;
  meters : bool;
  group_table : bool;
  idle_dst : bool;
  fib_tables : list Z;             (* the IP versions with an ipvN_fib table *)
  global_vlan : Z;
  cookie : Z;
  strict_packet_in_cookie : bool;
  ignore_learn_ins : Z;
  lacp_timeout : Z;
  lowest_priority : Z;
  low_priority : Z;
  high_priority : Z;
  highest_priority : Z;
  faucet_dp_mac : MAC;
  (* dynamic state *)
  dyn_running : bool;
  dyn_up_port_nos : gset Z;
  dyn_last_coldstart_time : option Q
}.

(** ** Messages from the datapath and parsed packets *)

(** An OpenFlow packet-in as [parse_pkt_meta] reads it.  [msg_match] is
    a dict from field name to value; [msg_data] is the raw frame. *)
Record PacketIn : Type := mkPacketIn {
  msg_cookie : Z;
  msg_reason : Z;
  msg_match : option (gmap string Z);
  msg_data : option (list Byte.byte);
  msg_total_len : Z
}.

Record EthPkt : Type := mkEthPkt {
  src : MAC;
  dst : MAC
}.

(** The tuple returned by [valve_packet.parse_packet_in_pkt]. *)
Record Parsed : Type := mkParsed {
  p_pkt : option Z;
  p_eth_pkt : option EthPkt;
  p_eth_type : option Z;
  p_vlan_pkt : option Z;
  p_vlan_vid : option Z
}.

Record PacketMeta : Type := mkPacketMeta {
  pm_data : list Byte.byte;
  pm_orig_len : Z;
  pm_pkt : Z;
  pm_eth_pkt : EthPkt;
  pm_vlan_pkt : option Z;
  pm_port : Z;                       (* the Port object dp.ports[pm_port] *)
  pm_vlan : option VLAN;
  pm_eth_src : MAC;
  pm_eth_dst : MAC;
  pm_eth_type : option Z
}.

(** ** Notifications and metrics *)

Inductive PortStatusReason : Type := ADD | DELETE | MODIFY | UNKNOWN.

Inductive RestartType : Type := cold | warm.

Inductive Event : Type :=
| DP_CHANGE_cold_start
| DP_CHANGE_disconnect
| PORT_CHANGE (port_no : Z) (reason : PortStatusReason) (state : Z) (status : bool)
| CONFIG_CHANGE (restart_type : option RestartType)
| L2_EXPIRE (port_no : Z) (vid : Z) (eth_src : MAC).

(** An entry of a VLAN's host cache, as [state_expire] reads it. *)
Record HostEntry : Type := mkHostEntry {
  entry_eth_src : MAC;
  entry_port_no : Z
}.

Inductive Metric : Type :=
| inc_var (var : string)
| set_var (var : string) (port_label : option Z) (val : Z).

(** The configuration diff computed by [DP.get_config_changes]; the
    Python sets are given in an enumeration order. *)
Record Changes : Type := mkChanges {
  deleted_ports : list Z;
  changed_ports : list Z;
  changed_acl_ports : list Z;
  deleted_vids : list Z;
  changed_vids : list Z;
  all_ports_changed : bool
}.

(** The managers returned by [_get_managers], in its order. *)
Inductive Manager : Type :=
| pipeline
| host_manager
| route_manager (ipv : Z)
| flood_manager
| acl_manager.

(** ** The collaborators of [valve.py] *)

Section Interface.

Context {MgrState : Type}.

Record External : Type := mkExternal {
  (* valve_of / ryu constants *)
  OFPR_ACTION : Z;
  OFPPR_ADD : Z;
  OFPPR_DELETE : Z;
  OFPPR_MODIFY : Z;
  ETH_TYPE_SLOW : Z;
  ETH_TYPE_LLDP : Z;
  MAX_PACKET_IN_BYTES : nat;
  port_status_from_state : Z -> bool;
  (* valve_packet *)
  SLOW_PROTOCOL_MULTICAST : MAC;
  LLDP_MAC_NEAREST_BRIDGE : MAC;
  BRIDGE_GROUP_MASK : MAC;
  LACP_SIZE : nat;
  ETH_VLAN_HEADER_SIZE : Z;
  parse_packet_in_pkt : list Byte.byte -> Z -> Parsed;
  parse_lacp_pkt : list Byte.byte -> option LacpPkt;
  lacp_actor_up : LacpPkt -> Z;
  mac_addr_is_unicast : MAC -> bool;
  mac_addr_all_zeros : MAC -> bool;
  int_from_mac : MAC -> Z;
  (* methods of Port *)
  running : Port -> bool;
  port_vlans : Port -> list VLAN;
  mirror_actions : Port -> list Action;
  (* methods of DP *)
  port_no_valid : DP -> Z -> bool;
  classification_table : DP -> Table;
  in_port_tables : DP -> list Table;
  lacp_forwarding : DP -> Port -> bool;
  get_config_changes : DP -> DP -> Changes;
  load_tables : DP -> list string;
  (* the managers built by dp_init and their methods *)
  mgr_init : DP -> MgrState;
  accept_to_classification : DP -> list Inst;
  add_port : Manager -> MgrState -> DP -> Port -> list OfMsg * MgrState;
  del_port : Manager -> MgrState -> DP -> Port -> list OfMsg * MgrState;
  add_vlan : Manager -> MgrState -> DP -> VLAN -> list OfMsg * MgrState;
  update_vlan : MgrState -> DP -> VLAN -> list OfMsg * MgrState;
  reset_caches : MgrState -> VLAN -> MgrState;
  expire_port_nexthops : Z -> MgrState -> DP -> Port -> list OfMsg * MgrState;
  cold_start_port : MgrState -> DP -> Port -> list OfMsg * MgrState;
  expire_hosts_from_vlan : MgrState -> DP -> VLAN -> Q -> list HostEntry * MgrState;
  delete_host_from_vlan : MgrState -> DP -> MAC * VLAN -> list OfMsg * MgrState;
  resolve_expire_hosts : Z -> MgrState -> DP -> VLAN * Q -> list OfMsg * MgrState;
  (* the dot1x speaker *)
  dot1x_nfv_sw_port_up : MgrState -> DP -> Port -> list OfMsg * MgrState;
  dot1x_port_up : MgrState -> DP -> Port -> Port -> list OfMsg * MgrState;
  dot1x_port_down : MgrState -> DP -> Port -> Port -> list OfMsg * MgrState
}.

(** ** The Valve and the monad of its methods *)

Record Valve : Type := mkValve {
  dp : DP;
  mgr : MgrState;
  tfm : bool;                        (* a TfmValve: _pipeline_flows is overridden *)
  _last_pipeline_flows : list (list string);
  _packet_in_count_sec : Z;
  _last_packet_in_sec : Q;
  _last_advertise_sec : Q;
  _last_fast_advertise_sec : Q;
  _route_manager_by_ipv : list Z;
  acl_manager_set : bool;
  metrics : list Metric;
  notifier : list Event
}.

Definition M (A : Type) : Type := Valve -> Res (A * Valve).

Definition mret {A} (a : A) : M A := fun v => Ret (a, v).

Definition mbind {A B} (c : M A) (k : A -> M B) : M B :=
  fun v => match c v with
           | Ret (a, v') => k a v'
           | Raise e => Raise e
           end.

Definition raise {A} (e : Exn) : M A := fun _ => Raise e.

Definition gets {A} (f : Valve -> A) : M A := fun v => Ret (f v, v).

Definition modify (f : Valve -> Valve) : M unit := fun v => Ret (tt, f v).

Definition lift {A} (r : Res A) : M A :=
  fun v => match r with Ret a => Ret (a, v) | Raise e => Raise e end.

End Interface.

Arguments External MgrState : clear implicits.
Arguments Valve MgrState : clear implicits.
Arguments M MgrState A : clear implicits.

Notation "x <- c ;; k" := (mbind c (fun x => k))
  (at level 100, c at next level, right associativity).
Notation "c ;;; k" := (mbind c (fun _ => k))
  (at level 100, k at level 200, right associativity).

(** ** Attribute assignment on Port, DP and Valve *)

Definition set_port_dyn (p : Port) (phys_up : bool) (lacp_up : Z)
    (last_pkt : option LacpPkt) (updated resp : option Q)
    (st : StackState) : Port :=
  mkPort (number p) (opstatus_reconf p) (output_only p) (coprocessor p)
    (dot1x p) (receive_lldp p) (lacp p) (lacp_active p) (lacp_passthrough p)
    (lacp_resp_interval p) (stack p) (max_lldp_lost p) (tagged_vlans p)
    (native_vlan p) (loop_protect_external p)
    phys_up lacp_up last_pkt updated resp st
    (dyn_stack_probe_info p) (dyn_dot1x_native_vlan p).

Definition set_dyn_phys_up (b : bool) (p : Port) : Port :=
  set_port_dyn p b (dyn_lacp_up p) (dyn_last_lacp_pkt p)
    (dyn_lacp_updated_time p) (dyn_lacp_last_resp_time p)
    (dyn_stack_current_state p).

Definition set_dyn_lacp_up (z : Z) (p : Port) : Port :=
  set_port_dyn p (dyn_phys_up p) z (dyn_last_lacp_pkt p)
    (dyn_lacp_updated_time p) (dyn_lacp_last_resp_time p)
    (dyn_stack_current_state p).

Definition set_dyn_last_lacp_pkt (o : option LacpPkt) (p : Port) : Port :=
  set_port_dyn p (dyn_phys_up p) (dyn_lacp_up p) o
    (dyn_lacp_updated_time p) (dyn_lacp_last_resp_time p)
    (dyn_stack_current_state p).

Definition set_dyn_lacp_updated_time (o : option Q) (p : Port) : Port :=
  set_port_dyn p (dyn_phys_up p) (dyn_lacp_up p) (dyn_last_lacp_pkt p)
    o (dyn_lacp_last_resp_time p) (dyn_stack_current_state p).

Definition set_dyn_lacp_last_resp_time (o : option Q) (p : Port) : Port :=
  set_port_dyn p (dyn_phys_up p) (dyn_lacp_up p) (dyn_last_lacp_pkt p)
    (dyn_lacp_updated_time p) o (dyn_stack_current_state p).

Definition set_dyn_stack_current_state (s : StackState) (p : Port) : Port :=
  set_port_dyn p (dyn_phys_up p) (dyn_lacp_up p) (dyn_last_lacp_pkt p)
    (dyn_lacp_updated_time p) (dyn_lacp_last_resp_time p) s.

Definition set_dp_dyn (d : DP) (ps : gmap Z Port) (run : bool)
    (up : gset Z) (cs : option Q) : DP :=
  mkDP (dp_id d) ps (vlans d) (dp_stack d) (dp_dot1x d) (dp_acls d)
    (has_acls d) (has_externals d) (meters d) (group_table d) (idle_dst d)
    (fib_tables d) (global_vlan d) (cookie d) (strict_packet_in_cookie d)
    (ignore_learn_ins d) (lacp_timeout d) (lowest_priority d)
    (low_priority d) (high_priority d) (highest_priority d)
    (faucet_dp_mac d) run up cs.

Definition set_ports (ps : gmap Z Port) (d : DP) : DP :=
  set_dp_dyn d ps (dyn_running d) (dyn_up_port_nos d) (dyn_last_coldstart_time d).

Definition set_dyn_running (b : bool) (d : DP) : DP :=
  set_dp_dyn d (ports d) b (dyn_up_port_nos d) (dyn_last_coldstart_time d).

Definition set_dyn_up_port_nos (s : gset Z) (d : DP) : DP :=
  set_dp_dyn d (ports d) (dyn_running d) s (dyn_last_coldstart_time d).

Section Setters.

Context {MgrState : Type}.
Local Abbreviation Valve := (Valve MgrState).

Definition set_dp (d : DP) (v : Valve) : Valve :=
  mkValve d (mgr v) (tfm v) (_last_pipeline_flows v) (_packet_in_count_sec v)
    (_last_packet_in_sec v) (_last_advertise_sec v)
    (_last_fast_advertise_sec v) (_route_manager_by_ipv v)
    (acl_manager_set v) (metrics v) (notifier v).

Definition set_mgr (s : MgrState) (v : Valve) : Valve :=
  mkValve (dp v) s (tfm v) (_last_pipeline_flows v) (_packet_in_count_sec v)
    (_last_packet_in_sec v) (_last_advertise_sec v)
    (_last_fast_advertise_sec v) (_route_manager_by_ipv v)
    (acl_manager_set v) (metrics v) (notifier v).



Definition add_metric (m : Metric) (v : Valve) : Valve :=
  mkValve (dp v) (mgr v) (tfm v) (_last_pipeline_flows v)
    (_packet_in_count_sec v) (_last_packet_in_sec v) (_last_advertise_sec v)
    (_last_fast_advertise_sec v) (_route_manager_by_ipv v)
    (acl_manager_set v) (metrics v ++ [m]) (notifier v).

Definition add_event (e : Event) (v : Valve) : Valve :=
  mkValve (dp v) (mgr v) (tfm v) (_last_pipeline_flows v)
    (_packet_in_count_sec v) (_last_packet_in_sec v) (_last_advertise_sec v)
    (_last_fast_advertise_sec v) (_route_manager_by_ipv v)
    (acl_manager_set v) (metrics v) (notifier v ++ [e]).

End Setters.

(** ** Methods of Port used by the Valve *)

(** Modelled from the spec: the predicates of [Port] on the stack state
    (the class [Port] is not part of [valve.py]). *)
Definition is_stack_admin_down (p : Port) : bool :=
  bool_decide (dyn_stack_current_state p = STACK_STATE_ADMIN_DOWN).

Definition is_stack_init (p : Port) : bool :=
  bool_decide (dyn_stack_current_state p = STACK_STATE_INIT).

Definition is_stack_down (p : Port) : bool :=
  bool_decide (dyn_stack_current_state p = STACK_STATE_DOWN).

Definition is_stack_up (p : Port) : bool :=
  bool_decide (dyn_stack_current_state p = STACK_STATE_UP).

(** ** Stack link engine *)

(** [remote_dp.lldp_beacon.get('send_interval',
    remote_dp.DEFAULT_LLDP_SEND_INTERVAL)] *)
Definition lldp_send_interval (remote_dp : StackPeer) : Z :=
  match remote_lldp_send_interval remote_dp with
  | Some i => i
  | None => remote_DEFAULT_LLDP_SEND_INTERVAL remote_dp
  end.

(** [Valve._next_stack_link_state].  The method returns [None] or one of
    the bound methods [port.stack_init], [port.stack_down],
    [port.stack_up]; the embedding returns the state that method sets. *)
Definition _next_stack_link_state (port : Port) (now : Q)
    : Res (option StackState) :=
  if is_stack_admin_down port then Ret None else
  match last_seen_lldp_time (dyn_stack_probe_info port) with
  | None =>
      Ret (if is_stack_down port then Some STACK_STATE_INIT else None)
  | Some last_seen =>
      match stack port with
      | None => Raise TypeError
      | Some remote_dp =>
          let stack_correct := stack_correct (dyn_stack_probe_info port) in
          let send_interval := lldp_send_interval remote_dp in
          let time_since_lldp_seen := (now - last_seen)%Q in
          if send_interval =? 0 then Raise ZeroDivisionError else
          let num_lost_lldp :=
            (time_since_lldp_seen / inject_Z send_interval)%Q in
          let stack_timed_out :=
            negb (Qlt_bool num_lost_lldp (inject_Z (max_lldp_lost port))) in
          if negb (truthy_obool stack_correct) then
            Ret (if negb (is_stack_down port)
                 then Some STACK_STATE_DOWN else None)
          else if stack_timed_out then
            Ret (if negb (is_stack_down port) then
                   if truthyQ time_since_lldp_seen
                   then Some STACK_STATE_DOWN else None
                 else None)
          else
            Ret (if negb (is_stack_up port)
                 then Some STACK_STATE_UP else None)
      end
  end.

(** The state of the port after [_update_stack_link_state] has called
    the method returned by [_next_stack_link_state], if any. *)
Definition apply_next_state (port : Port) (next : option StackState) : StackState :=
  match next with
  | Some s => s
  | None => dyn_stack_current_state port
  end.

(** ** Methods of the Valve *)

Section Operations.

Context {MgrState : Type} (ext : External MgrState).
Local Abbreviation Valve := (Valve MgrState).
Local Abbreviation M := (M MgrState).

(** [self.dp.ports[n]] *)
Definition get_port (n : Z) : M Port :=
  fun v => match ports (dp v) !! n with
           | Some p => Ret (p, v)
           | None => Raise KeyError
           end.

(** Assignment to attributes of the Port object [dp.ports[n]]. *)
Definition put_port (n : Z) (p : Port) : M unit :=
  modify (fun v => set_dp (set_ports (<[n := p]> (ports (dp v))) (dp v)) v).

(** A call into a manager: it reads the DP and updates its own state. *)
Definition call {X : Type}
    (f : MgrState -> DP -> X -> list OfMsg * MgrState) (x : X)
    : M (list OfMsg) :=
  fun v => let r := f (mgr v) (dp v) x in Ret (r.1, set_mgr r.2 v).

(** [for x in l: ofmsgs.extend(f(x))] *)
Fixpoint for_msgs {X : Type} (l : list X) (f : X -> M (list OfMsg))
    : M (list OfMsg) :=
  match l with
  | [] => mret []
  | x :: l' =>
      ms <- f x ;;
      ms' <- for_msgs l' f ;;
      mret (ms ++ ms')
  end.

Definition _inc_var (var : string) : M unit :=
  modify (add_metric (inc_var var)).

Definition _set_var (var : string) (port_label : option Z) (val : Z) : M unit :=
  modify (add_metric (set_var var port_label val)).

Definition _notify (e : Event) : M unit :=
  modify (add_event e).

Definition _get_managers (v : Valve) : list Manager :=
  [pipeline; host_manager]
  ++ (if bool_decide (4 ∈ _route_manager_by_ipv v) then [route_manager 4] else [])
  ++ (if bool_decide (6 ∈ _route_manager_by_ipv v) then [route_manager 6] else [])
  ++ [flood_manager]
  ++ (if acl_manager_set v then [acl_manager] else []).

(** *** Rate limiting of packet-ins *)


(** *** LACP *)

Definition _reset_lacp_status (port : Port) : M unit :=
  _set_var "port_lacp_status" (Some (number port)) (dyn_lacp_up port).

Definition vlan_table_lacp_punt (d : DP) (n : Z) : OfMsg :=
  flowcontroller T_vlan
    (mkMatch (Some n) None (Some (ETH_TYPE_SLOW ext))
       (Some (SLOW_PROTOCOL_MULTICAST ext)) None)
    (highest_priority d) (Z.of_nat (LACP_SIZE ext)).

(** [Valve.lacp_down]; [n] is the number of [port] in [dp.ports]. *)
Definition lacp_down (n : Z) (cold_start : bool) : M (list OfMsg) :=
  port0 <- get_port n ;;
  let port :=
    set_dyn_lacp_last_resp_time None
      (set_dyn_lacp_updated_time None
         (set_dyn_last_lacp_pkt None (set_dyn_lacp_up 0 port0))) in
  put_port n port ;;;
  ms <- (if negb cold_start then
           a <- call (del_port ext host_manager) port ;;
           b <- for_msgs (port_vlans ext port)
                  (fun vlan => call (add_vlan ext flood_manager) vlan) ;;
           mret (a ++ b)
         else mret []) ;;
  d <- gets dp ;;
  _reset_lacp_status port ;;;
  mret (ms ++ [flowdrop T_vlan (match_in_port (number port)) (high_priority d);
               vlan_table_lacp_punt d (number port)]).

(** [Valve.lacp_up] *)
Definition lacp_up (n : Z) : M (list OfMsg) :=
  port0 <- get_port n ;;
  let port := set_dyn_lacp_up 1 port0 in
  put_port n port ;;;
  d <- gets dp ;;
  ms <- (if lacp_forwarding ext d port then
           b <- for_msgs (port_vlans ext port)
                  (fun vlan => call (add_vlan ext flood_manager) vlan) ;;
           mret (flowdel T_vlan (match_in_port (number port))
                   (Some (high_priority d)) true :: b)
         else mret []) ;;
  _reset_lacp_status port ;;;
  mret ms.

(** The loop over [port.lacp_passthrough] of [_lacp_actions]: [Ret true]
    when a peer's LACP link is down. *)
Fixpoint passthrough_peer_down (ps : gmap Z Port) (peers : list Z) : Res bool :=
  match peers with
  | [] => Ret false
  | peer_num :: rest =>
      match ps !! peer_num with
      | None => Raise AttributeError
      | Some lacp_peer =>
          if negb (truthyZ (dyn_lacp_up lacp_peer)) then Ret true
          else passthrough_peer_down ps rest
      end
  end.

(** [Valve._lacp_actions] *)
Definition _lacp_actions (lacp_pkt : option LacpPkt) (n : Z) : M (list OfMsg) :=
  port <- get_port n ;;
  d <- gets dp ;;
  suppressed <- lift (passthrough_peer_down (ports d) (lacp_passthrough port)) ;;
  if (suppressed : bool) then mret [] else
  let actor_state_activity := if lacp_active port then 1 else 0 in
  let lacp_forwarding := lacp_forwarding ext d port in
  let pkt :=
    lacp_reqreply (faucet_dp_mac d) (faucet_dp_mac d) (lacp port) (number port)
      1 actor_state_activity lacp_forwarding lacp_forwarding lacp_pkt in
  mret [packetout (number port) pkt].

(** The value of a [defaultdict(list)] indexed only by [self]: [None]
    is the empty dict, [Some l] is [{self: l}]. *)
Definition extend_self (o : option (list OfMsg)) (ms : list OfMsg)
    : option (list OfMsg) :=
  Some (default [] o ++ ms).

(** [Valve.lacp_handler] *)
Definition lacp_handler (now : Q) (pkt_meta : PacketMeta)
    : M (option (list OfMsg)) :=
  let n := pm_port pkt_meta in
  port <- get_port n ;;
  if bool_decide (pm_eth_dst pkt_meta = SLOW_PROTOCOL_MULTICAST ext)
     && bool_decide (pm_eth_type pkt_meta = Some (ETH_TYPE_SLOW ext))
     && truthyZ (lacp port) then
    match parse_lacp_pkt ext (take (LACP_SIZE ext) (pm_data pkt_meta)) with
    | None => mret None
    | Some lacp_pkt =>
        let age :=
          if truthy_oQ (dyn_lacp_last_resp_time port)
          then (fun t => (now - t)%Q) <$> dyn_lacp_last_resp_time port
          else None in
        let actor_up := lacp_actor_up ext lacp_pkt in
        let lacp_state_change := negb (dyn_lacp_up port =? actor_up) in
        let lacp_pkt_change :=
          match dyn_last_lacp_pkt port with
          | None => true
          | Some last => negb (bool_decide (lacp_pkt = last))
          end in
        r1 <- (if lacp_state_change then
                 ms <- (if truthyZ actor_up then lacp_up n
                        else lacp_down n false) ;;
                 mret (extend_self None ms)
               else mret None) ;;
        r2 <- (if lacp_pkt_change
                  || match age with
                     | Some a => Qlt_bool (inject_Z (lacp_resp_interval port)) a
                     | None => false
                     end
               then
                 ms <- _lacp_actions (Some lacp_pkt) n ;;
                 p <- get_port n ;;
                 put_port n (set_dyn_lacp_last_resp_time (Some now) p) ;;;
                 mret (extend_self r1 ms)
               else mret r1) ;;
        p <- get_port n ;;
        put_port n (set_dyn_lacp_updated_time (Some now)
                      (set_dyn_last_lacp_pkt (Some lacp_pkt) p)) ;;;
        mret r2
    end
  else mret None.

(** Modelled from the spec: [DP.lags_up] is not part of [valve.py].  An
    up LACP bundle is a LAG with at least one LACP-configured port whose
    LACP state is UP; the result maps each such LAG to its UP ports. *)
Definition lacp_up_ports (d : DP) : list (Z * Port) :=
  filter (fun np => truthyZ (lacp np.2) && truthyZ (dyn_lacp_up np.2) = true)
    (map_to_list (ports d)).

Definition lags_up (d : DP) : list (Z * list Z) :=
  let ups := lacp_up_ports d in
  (fun lag =>
     (lag, (fun np => np.1) <$>
             filter (fun np => lacp np.2 = lag) ups))
  <$> remove_dups ((fun np => lacp np.2) <$> ups).

(** The body of the inner loop of [_lacp_state_expire]. *)
Definition _lacp_state_expire_port (now : Q) (acc : option (list OfMsg)) (n : Z)
    : M (option (list OfMsg)) :=
  port <- get_port n ;;
  match dyn_lacp_updated_time port with
  | None => raise TypeError
  | Some updated =>
      let lacp_age := (now - updated)%Q in
      timeout <- gets (fun v => lacp_timeout (dp v)) ;;
      if Qlt_bool (inject_Z timeout) lacp_age then
        ms <- lacp_down n false ;;
        mret (extend_self acc ms)
      else mret acc
  end.

Fixpoint fold_self {X : Type} (f : option (list OfMsg) -> X -> M (option (list OfMsg)))
    (l : list X) (acc : option (list OfMsg)) : M (option (list OfMsg)) :=
  match l with
  | [] => mret acc
  | x :: l' => acc' <- f acc x ;; fold_self f l' acc'
  end.

(** [Valve._lacp_state_expire] *)
Definition _lacp_state_expire (now : Q) : M (option (list OfMsg)) :=
  lags <- gets (fun v => lags_up (dp v)) ;;
  fold_self (_lacp_state_expire_port now) (concat (snd <$> lags)) None.

(** The body of the loop over VLANs of [state_expire]. *)
Definition state_expire_vlan (now : Q) (acc : option (list OfMsg)) (vlan : VLAN)
    : M (option (list OfMsg)) :=
  expired_hosts <-
    (fun v => let r := expire_hosts_from_vlan ext (mgr v) (dp v) vlan now in
              Ret (r.1, set_mgr r.2 v)) ;;
  idle <- gets (fun v => idle_dst (dp v)) ;;
  acc1 <- (if negb idle then
             fold_self (fun a entry =>
                          ms <- call (delete_host_from_vlan ext)
                                  (entry_eth_src entry, vlan) ;;
                          mret (extend_self a ms))
               expired_hosts acc
           else mret acc) ;;
  for_msgs expired_hosts
    (fun entry =>
       _notify (L2_EXPIRE (entry_port_no entry) (vid vlan) (entry_eth_src entry)) ;;;
       mret []) ;;;
  ipvs <- gets _route_manager_by_ipv ;;
  fold_self (fun a ipv =>
               ms <- call (resolve_expire_hosts ext ipv) (vlan, now) ;;
               mret (extend_self a ms))
    ipvs acc1.

(** [Valve.state_expire] *)
Definition state_expire (now : Q) : M (option (list OfMsg)) :=
  run <- gets (fun v => dyn_running (dp v)) ;;
  if (run : bool) then
    acc <- _lacp_state_expire now ;;
    vs <- gets (fun v => (map_to_list (vlans (dp v))).*2) ;;
    fold_self (state_expire_vlan now) vs acc
  else mret None.

(** *** Ports and VLANs *)

Definition _find_forwarding_table (d : DP) (vlan : VLAN) : Table :=
  if acls_in vlan then T_vlan_acl else classification_table ext d.

(** [Valve._port_add_vlan_rules] *)
Definition _port_add_vlan_rules (d : DP) (port : Port) (vlan : VLAN)
    (mirror_act : list Action) (push_vlan : bool) : OfMsg :=
  let actions :=
    mirror_act
    ++ (if push_vlan then [push_vlan_act (vid vlan)] else [])
    ++ (if has_externals d then
          if loop_protect_external port
          then [set_no_external_forwarding_requested]
          else [set_external_forwarding_requested]
        else []) in
  let match_vlan := if push_vlan then NullVLAN else OFVLAN (vid vlan) in
  flowmod T_vlan (match_in_port_vlan (number port) match_vlan)
    (low_priority d)
    [apply_actions actions; goto (_find_forwarding_table d vlan)].

(** [Valve._port_add_vlans] *)
Definition _port_add_vlans (d : DP) (port : Port) (mirror_act : list Action)
    : list OfMsg :=
  ((fun vlan => _port_add_vlan_rules d port vlan mirror_act false)
     <$> tagged_vlans port)
  ++ match dyn_dot1x_native_vlan port with
     | Some vlan => [_port_add_vlan_rules d port vlan mirror_act true]
     | None =>
         match native_vlan port with
         | Some vlan => [_port_add_vlan_rules d port vlan mirror_act true]
         | None => []
         end
     end.

(** [Valve._delete_all_port_match_flows] *)
Definition _delete_all_port_match_flows (d : DP) (port : Port) : list OfMsg :=
  let tables :=
    if dp_acls d
    then filter (fun t => t ≠ T_port_acl) (remove_dups (in_port_tables ext d))
    else [wildcard_table] in
  (fun table => flowdel table (match_in_port (number port)) None false)
  <$> tables.

(** [Valve._port_delete_manager_state] *)
Definition _port_delete_manager_state (port : Port) : M (list OfMsg) :=
  managers <- gets _get_managers ;;
  for_msgs managers (fun manager => call (del_port ext manager) port).

(** [Valve._port_delete_flows_state] *)
Definition _port_delete_flows_state (port : Port) : M (list OfMsg) :=
  ipvs <- gets _route_manager_by_ipv ;;
  a <- for_msgs ipvs (fun ipv => call (expire_port_nexthops ext ipv) port) ;;
  d <- gets dp ;;
  c <- _port_delete_manager_state port ;;
  mret (a ++ _delete_all_port_match_flows d port ++ c).

(** [Valve._coprocessor_flows] *)
Definition _coprocessor_flows (d : DP) (port : Port) (vlan_vid_base : Z)
    : list OfMsg :=
  flowmod T_vlan (match_in_port (number port)) (low_priority d) [goto T_copro]
  :: ((fun dp_port : Z * Port =>
         let in_port_num := number dp_port.2 in
         flowmod T_copro (match_vlan (OFVLAN (vlan_vid_base + in_port_num)))
           (high_priority d)
           [apply_actions [pop_vlan; output_port in_port_num]])
      <$> map_to_list (ports d)).

(** [self.dp.ports[self.dp.dot1x['nfv_sw_port']]] *)
Definition get_nfv_sw_port : M Port :=
  d <- gets dp ;;
  match dp_dot1x d with
  | None => raise TypeError
  | Some nfv => get_port nfv
  end.

(** The body of the loop of [ports_add] for one port number: the
    messages it appends and the VLANs it adds to [vlans_with_ports_added]. *)
Definition ports_add_port (cold_start : bool) (port_num : Z)
    : M (list OfMsg * list VLAN) :=
  valid <- gets (fun v => port_no_valid ext (dp v) port_num) ;;
  if negb valid then mret ([], []) else
  port0 <- get_port port_num ;;
  let port := set_dyn_phys_up true port0 in
  put_port port_num port ;;;
  if negb (running ext port) then mret ([], []) else
  managers <- gets _get_managers ;;
  ms_mgr <- for_msgs managers (fun manager => call (add_port ext manager) port) ;;
  d <- gets dp ;;
  match coprocessor port with
  | Some vlan_vid_base =>
      mret (ms_mgr ++ _coprocessor_flows d port vlan_vid_base, [])
  | None =>
      ms_dot1x <-
        (match dp_dot1x d with
         | Some _ =>
             nfv_sw_port <- get_nfv_sw_port ;;
             if number port =? number nfv_sw_port then
               call (dot1x_nfv_sw_port_up ext) nfv_sw_port
             else if dot1x port then
               call (fun s d' p => dot1x_port_up ext s d' p nfv_sw_port) port
             else mret []
         | None => mret []
         end) ;;
      if output_only port then
        mret (ms_mgr ++ ms_dot1x
              ++ [flowdrop T_vlan (match_in_port port_num) (highest_priority d)],
              [])
      else
        let ms_lldp :=
          if receive_lldp port then
            [flowcontroller T_vlan
               (mkMatch (Some port_num) None (Some (ETH_TYPE_LLDP ext))
                  (Some (LLDP_MAC_NEAREST_BRIDGE ext))
                  (Some (BRIDGE_GROUP_MASK ext)))
               (highest_priority d) 128]
          else [] in
        ms_lacp <-
          (if truthyZ (lacp port) then
             a <- lacp_down port_num cold_start ;;
             b <- (if lacp_active port then
                     p <- get_port port_num ;;
                     _lacp_actions (dyn_last_lacp_pkt p) port_num
                   else mret []) ;;
             mret (a ++ b)
           else mret []) ;;
        d' <- gets dp ;;
        match stack port with
        | Some _ =>
            mret (ms_mgr ++ ms_dot1x ++ ms_lldp ++ ms_lacp
                  ++ [flowdrop T_vlan (match_in_port_vlan port_num NullVLAN)
                        (low_priority d' + 1);
                      flowmod T_vlan (match_in_port port_num) (low_priority d')
                        (accept_to_classification ext d')],
                  (map_to_list (vlans d')).*2)
        | None =>
            port' <- get_port port_num ;;
            let mirror_act := mirror_actions ext port' in
            mret (ms_mgr ++ ms_dot1x ++ ms_lldp ++ ms_lacp
                  ++ _port_add_vlans d' port' mirror_act,
                  port_vlans ext port')
        end
  end.

(** A loop that extends [ofmsgs] and updates a set of VLANs. *)
Fixpoint for_ports (f : Z -> M (list OfMsg * list VLAN)) (l : list Z)
    : M (list OfMsg * list VLAN) :=
  match l with
  | [] => mret ([], [])
  | n :: l' =>
      r <- f n ;;
      r' <- for_ports f l' ;;
      mret (r.1 ++ r'.1, r.2 ++ r'.2)
  end.

(** [Valve.ports_add].  The Python set [vlans_with_ports_added] is
    iterated in the order of first insertion. *)
Definition ports_add (port_nums : list Z) (cold_start : bool) : M (list OfMsg) :=
  r <- for_ports (ports_add_port cold_start) port_nums ;;
  ms <- (if negb cold_start then
           for_msgs (remove_dups r.2)
             (fun vlan => call (add_vlan ext flood_manager) vlan)
         else mret []) ;;
  mret (r.1 ++ ms).

(** [Valve.port_add] *)
Definition port_add (port_num : Z) : M (list OfMsg) :=
  ports_add [port_num] false.

(** The body of the loop of [ports_delete] for one port number. *)
Definition ports_delete_port (port_num : Z) : M (list OfMsg * list VLAN) :=
  valid <- gets (fun v => port_no_valid ext (dp v) port_num) ;;
  if negb valid then mret ([], []) else
  port0 <- get_port port_num ;;
  let port := set_dyn_phys_up false port0 in
  put_port port_num port ;;;
  if output_only port then mret ([], []) else
  ms_dot1x <-
    (if dot1x port then
       nfv_sw_port <- get_nfv_sw_port ;;
       call (fun s d' p => dot1x_port_down ext s d' p nfv_sw_port) port
     else mret []) ;;
  ms <- (if truthyZ (lacp port) then lacp_down port_num false
         else _port_delete_flows_state port) ;;
  mret (ms_dot1x ++ ms, port_vlans ext port).

(** [Valve.ports_delete] *)
Definition ports_delete (port_nums : list Z) : M (list OfMsg) :=
  r <- for_ports ports_delete_port port_nums ;;
  ms <- for_msgs (remove_dups r.2) (fun vlan => call (update_vlan ext) vlan) ;;
  mret (r.1 ++ ms).

(** [Valve.port_delete] *)
Definition port_delete (port_num : Z) : M (list OfMsg) :=
  ports_delete [port_num].

(** [Valve._add_vlan] and [_add_vlans] *)
Definition _add_vlan (vlan : VLAN) : M (list OfMsg) :=
  managers <- gets _get_managers ;;
  ms <- for_msgs managers (fun manager => call (add_vlan ext manager) vlan) ;;
  modify (fun v => set_mgr (reset_caches ext (mgr v) vlan) v) ;;;
  mret ms.

Definition _add_vlans (vs : list VLAN) : M (list OfMsg) :=
  for_msgs vs _add_vlan.

(** [Valve._del_vlan] and [_del_vlans] *)
Definition _del_vlan (vlan : VLAN) : list OfMsg :=
  [flowdel wildcard_table (match_vlan (OFVLAN (vid vlan))) None false].

Definition _del_vlans (vs : list VLAN) : list OfMsg :=
  concat (_del_vlan <$> vs).

(** *** Datapath lifecycle *)

(** Modelled from the spec: [DP.clone_dyn_state] is not part of
    [valve.py].  The dynamic sub-state of a DP (the set of up port
    numbers, the running flag, the last cold-start time) is cloned from
    the outgoing DP into the new one (sections 3 and 4.8). *)
Definition clone_dyn_state (new_dp prev_dp : DP) : DP :=
  set_dp_dyn new_dp (ports new_dp) (dyn_running prev_dp)
    (dyn_up_port_nos prev_dp) (dyn_last_coldstart_time prev_dp).

(** [Valve.dp_init]: swaps in [new_dp] when given, resets the counters
    and rebuilds the managers. *)
Definition dp_init (new_dp : option DP) : M unit :=
  modify (fun v =>
    let d := match new_dp with
             | Some nd => clone_dyn_state nd (dp v)
             | None => dp v
             end in
    mkValve d (mgr_init ext d) (tfm v) (_last_pipeline_flows v)
      0 0%Q 0%Q 0%Q
      (filter (fun ipv => ipv ∈ fib_tables d) [4; 6])
      (has_acls d) (metrics v) (notifier v)).

Definition _reset_dp_status : M unit :=
  run <- gets (fun v => dyn_running (dp v)) ;;
  _set_var "dp_status" None (if (run : bool) then 1 else 0).

(** [Valve.datapath_disconnect] *)
Definition datapath_disconnect : M unit :=
  _notify DP_CHANGE_disconnect ;;;
  modify (fun v => set_dp (set_dyn_running false (dp v)) v) ;;;
  _inc_var "of_dp_disconnections" ;;;
  _reset_dp_status.

(** *** Configuration reload *)

(** [_pipeline_flows], overridden by [TfmValve]; a table-features
    message is the list of the [str] of its body. *)
Definition _pipeline_flows (v : Valve) : list (list string) :=
  if tfm v then [load_tables ext (dp v)] else [].

(** [Valve._pipeline_change] *)
Definition _pipeline_change (v : Valve) : Res bool :=
  match _last_pipeline_flows v with
  | [] => Ret false
  | last :: _ =>
      match _pipeline_flows v with
      | [] => Raise IndexError
      | cur :: _ =>
          Ret (negb (bool_decide
                 (list_to_set last =@{gset string} list_to_set cur)))
      end
  end.

Fixpoint mmap {X Y : Type} (f : X -> M Y) (l : list X) : M (list Y) :=
  match l with
  | [] => mret []
  | x :: l' => y <- f x ;; ys <- mmap f l' ;; mret (y :: ys)
  end.

(** [self.dp.vlans[vid]] *)
Definition get_vlan (vid : Z) : M VLAN :=
  fun v => match vlans (dp v) !! vid with
           | Some vl => Ret (vl, v)
           | None => Raise KeyError
           end.

Definition is_nil {X : Type} (l : list X) : bool :=
  match l with [] => true | _ => false end.

(** The body of the loop over [changed_acl_ports]. *)
Definition reinstall_acl (port_num : Z) : M (list OfMsg) :=
  port <- get_port port_num ;;
  call (cold_start_port ext) port.

(** The warm path of [_apply_config_changes], after both cold-start
    tests have failed. *)
Definition _apply_config_changes_warm (new_dp : DP) (changes : Changes)
    : M (list OfMsg) :=
  up <- gets (fun v => dyn_up_port_nos (dp v)) ;;
  let all_up_port_nos :=
    filter (fun port => port ∈ up) (changed_ports changes) in
  m1 <- (if negb (is_nil (deleted_ports changes))
         then ports_delete (deleted_ports changes) else mret []) ;;
  m2 <- (if negb (is_nil (deleted_vids changes)) then
           deleted_vlans <- mmap get_vlan (deleted_vids changes) ;;
           mret (_del_vlans deleted_vlans)
         else mret []) ;;
  m3 <- (if negb (is_nil (changed_ports changes))
         then ports_delete (changed_ports changes) else mret []) ;;
  dp_init (Some new_dp) ;;;
  m4 <- (if negb (is_nil (changed_vids changes)) then
           changed_vlans <- mmap get_vlan (changed_vids changes) ;;
           a <- _add_vlans changed_vlans ;;
           mret (_del_vlans changed_vlans ++ a)
         else mret []) ;;
  m5 <- (if negb (is_nil (changed_ports changes))
         then ports_add all_up_port_nos false else mret []) ;;
  acl <- gets acl_manager_set ;;
  m6 <- (if (acl : bool) && negb (is_nil (changed_acl_ports changes)) then
           for_msgs (changed_acl_ports changes) reinstall_acl
         else mret []) ;;
  mret (m1 ++ m2 ++ m3 ++ m4 ++ m5 ++ m6).

(** [Valve._apply_config_changes]: returns [(cold_start, ofmsgs)]. *)
Definition _apply_config_changes (new_dp : DP) (changes : Changes)
    : M (bool * list OfMsg) :=
  pipeline_changed <- (fun v => lift (_pipeline_change v) v) ;;
  if (pipeline_changed : bool) then
    dp_init (Some new_dp) ;;; mret (true, [])
  else if all_ports_changed changes then
    dp_init (Some new_dp) ;;; mret (true, [])
  else
    ofmsgs <- _apply_config_changes_warm new_dp changes ;;
    mret (false, ofmsgs).

Definition restart_type_name (t : RestartType) : string :=
  match t with cold => "cold" | warm => "warm" end.

(** [Valve.reload_config]: the returned [ofmsgs] is [None] or a list. *)
Definition reload_config (_now : Q) (new_dp : DP) : M (option (list OfMsg)) :=
  old_dp <- gets dp ;;
  r <- _apply_config_changes new_dp (get_config_changes ext old_dp new_dp) ;;
  run <- gets (fun v => dyn_running (dp v)) ;;
  let res : option RestartType * option (list OfMsg) :=
    if r.1 then (Some cold, if (run : bool) then None else Some r.2)
    else if run && negb (is_nil r.2) then (Some warm, Some r.2)
    else (None, Some []) in
  (match res.1 with
   | Some t => _inc_var ("faucet_config_reload_" +:+ restart_type_name t)
   | None => mret tt
   end) ;;;
  _notify (CONFIG_CHANGE res.1) ;;;
  mret res.2.

(** *** Port status *)

(** [Valve._set_port_status] *)
Definition _set_port_status (port_no : Z) (port_status : bool) : M unit :=
  modify (fun v =>
    set_dp (set_dyn_up_port_nos
              (if port_status then {[port_no]} ∪ dyn_up_port_nos (dp v)
               else dyn_up_port_nos (dp v) ∖ {[port_no]})
              (dp v)) v) ;;;
  d <- gets dp ;;
  match ports d !! port_no with
  | None => mret tt
  | Some port =>
      _set_var "port_status" (Some (number port)) (Z.b2z port_status)
  end.

(** The lookup in the dict literal [port_status_codes]. *)
Definition _decode_port_status (reason : Z) : PortStatusReason :=
  if reason =? OFPPR_MODIFY ext then MODIFY
  else if reason =? OFPPR_DELETE ext then DELETE
  else if reason =? OFPPR_ADD ext then ADD
  else UNKNOWN.

(** The head of [port_status_handler]: the PORT_CHANGE notification and
    the update of the operational status. *)
Definition port_status_prologue (port_no reason state : Z) : M unit :=
  let port_status := port_status_from_state ext state in
  _notify (PORT_CHANGE port_no (_decode_port_status reason) state port_status) ;;;
  _set_port_status port_no port_status.

(** [Valve.port_status_handler]: [None] is the empty dict, [Some l] is
    [{self: l}]. *)
Definition port_status_handler (port_no reason state : Z)
    : M (option (list OfMsg)) :=
  let port_status := port_status_from_state ext state in
  port_status_prologue port_no reason state ;;;
  valid <- gets (fun v => port_no_valid ext (dp v) port_no) ;;
  if negb valid then mret None else
  port <- get_port port_no ;;
  if negb (opstatus_reconf port) then mret None else
  match _decode_port_status reason with
  | UNKNOWN => mret None
  | _ =>
      let new_port_status :=
        (reason =? OFPPR_ADD ext)
        || ((reason =? OFPPR_MODIFY ext) && port_status) in
      if new_port_status then
        a <- (if dyn_phys_up port then port_delete port_no else mret []) ;;
        b <- port_add port_no ;;
        mret (Some (a ++ b))
      else
        a <- port_delete port_no ;;
        mret (Some a)
  end.

(** *** Packet-in parsing *)

(** [Valve.parse_rcv_packet] *)
Definition parse_rcv_packet (d : DP) (in_port : Z) (vlan_vid : option Z)
    (eth_type : option Z) (data : list Byte.byte) (orig_len : Z)
    (pkt : Z) (eth_pkt : EthPkt) (vlan_pkt : option Z) : Res PacketMeta :=
  let eth_src := src eth_pkt in
  let eth_dst := dst eth_pkt in
  let vlan := vlan_vid ≫= (fun vv => vlans d !! vv) in
  match ports d !! in_port with
  | None => Raise KeyError
  | Some _ =>
      if bool_decide (vlan_vid = Some (global_vlan d)) then
        let vlan' := vlans d !! int_from_mac ext eth_dst in
        Ret (mkPacketMeta data orig_len pkt eth_pkt vlan_pkt in_port vlan'
               eth_src
               (match vlan' with Some vl => faucet_mac vl | None => eth_dst end)
               eth_type)
      else
        Ret (mkPacketMeta data orig_len pkt eth_pkt vlan_pkt in_port vlan
               eth_src eth_dst eth_type)
  end.

Definition is_Some_b {X : Type} (o : option X) : bool :=
  match o with Some _ => true | None => false end.

(** [Valve.parse_pkt_meta]: [Ret None] is the Python [None]. *)
Definition parse_pkt_meta (v : Valve) (msg : PacketIn)
    : Res (option PacketMeta) :=
  let d := dp v in
  if negb (dyn_running d) then Ret None else
  if strict_packet_in_cookie d && negb (cookie d =? msg_cookie msg)
  then Ret None else
  if negb (msg_reason msg =? OFPR_ACTION ext) then Ret None else
  match msg_match msg with
  | None => Ret None
  | Some m =>
      if bool_decide (m = ∅) then Ret None else
      match m !! "in_port" with
      | None => Raise KeyError
      | Some in_port =>
          if negb (truthyZ in_port) || negb (port_no_valid ext d in_port)
          then Ret None else
          match msg_data msg with
          | None => Ret None
          | Some [] => Ret None
          | Some msg_data =>
              let data := take (MAX_PACKET_IN_BYTES ext) msg_data in
              let parsed :=
                parse_packet_in_pkt ext data (ETH_VLAN_HEADER_SIZE ext) in
              match p_pkt parsed, p_eth_pkt parsed with
              | Some pkt, Some eth_pkt =>
                  let vlan_vid := p_vlan_vid parsed in
                  if match vlan_vid with
                     | Some vv =>
                         negb (is_Some_b (vlans d !! vv))
                         && negb (vv =? global_vlan d)
                     | None => false
                     end
                  then Ret None else
                  match parse_rcv_packet d in_port vlan_vid
                          (p_eth_type parsed) data (msg_total_len msg)
                          pkt eth_pkt (p_vlan_pkt parsed) with
                  | Raise e => Raise e
                  | Ret pkt_meta =>
                      if negb (mac_addr_is_unicast ext (pm_eth_src pkt_meta))
                      then Ret None else
                      if mac_addr_all_zeros ext (pm_eth_src pkt_meta)
                      then Ret None else
                      match ports d !! pm_port pkt_meta with
                      | None => Raise KeyError
                      | Some port =>
                          if dp_stack d
                             && negb (is_Some_b (stack port))
                             && match pm_vlan pkt_meta with
                                | Some vlan =>
                                    negb (bool_decide (vlan ∈ tagged_vlans port))
                                    && negb (bool_decide
                                               (Some vlan = native_vlan port))
                                | None => false
                                end
                          then Ret None
                          else Ret (Some pkt_meta)
                      end
                  end
              | _, _ => Ret None
              end
          end
      end
  end.

End Operations.

(** ** Invariants of the methods *)

Section Invariants.

Context {MgrState : Type}.
Local Abbreviation Valve := (Valve MgrState).
Local Abbreviation M := (M MgrState).

(** A computation preserves [P] when [P] holds after every run that
    returns from a Valve where [P] holds. *)
Definition preserves {A : Type} (P : Valve -> Prop) (c : M A) : Prop :=
  forall v a v', c v = Ret (a, v') -> P v -> P v'.

(** Predicates that do not depend on the managers, the metrics, the
    notifications or the Port objects. *)
Record stable (P : Valve -> Prop) : Prop := mkStable {
  stable_mgr : forall v s, P v -> P (set_mgr s v);
  stable_metric : forall v m, P v -> P (add_metric m v);
  stable_event : forall v e, P v -> P (add_event e v);
  stable_ports : forall v ps, P v -> P (set_dp (set_ports ps (dp v)) v)
}.

End Invariants.

(** ** A concrete instance of the collaborators

    Used to run the embedding on examples.  The private state of the
    managers is a call counter, and every manager call answers with one
    tagged message. *)

Module Example.

Definition tick {X : Type} (tag : Z) : nat -> DP -> X -> list OfMsg * nat :=
  fun s _ _ => ([ext_msg tag], S s).

Definition mgr_tag (m : Manager) : Z :=
  match m with
  | pipeline => 1
  | host_manager => 2
  | route_manager ipv => 10 + ipv
  | flood_manager => 3
  | acl_manager => 4
  end.

Definition bytes_to_Z (bs : list Byte.byte) : Z :=
  fold_left (fun acc b => acc * 256 + Z.of_N (Byte.to_N b)) bs 0.

(** Destination, source and type of an untagged Ethernet frame. *)
Definition parse_eth (data : list Byte.byte) (_ : Z) : Parsed :=
  if (length data <? 14)%nat then mkParsed None None None None None
  else mkParsed (Some 0)
         (Some (mkEthPkt (bytes_to_Z (take 6 (drop 6 data)))
                  (bytes_to_Z (take 6 data))))
         (Some (bytes_to_Z (take 2 (drop 12 data)))) None None.

(** A toy LACP PDU: after the Ethernet header, one byte for the actor
    system and one for the actor's synchronization, collecting and
    distributing bits. *)
Definition parse_lacp (data : list Byte.byte) : option LacpPkt :=
  match drop 14 data with
  | sys :: st :: _ =>
      let s := Z.of_N (Byte.to_N st) in
      Some (mkLacpPkt (Z.of_N (Byte.to_N sys)) 1 1 0 0 0 0 0 s s 1 s 1)
  | _ => None
  end.

Definition actor_up (pkt : LacpPkt) : Z :=
  if truthyZ (actor_state_synchronization pkt)
     && truthyZ (actor_state_collecting pkt)
     && truthyZ (actor_state_distributing pkt)
  then 1 else 0.

Definition vlans_of (p : Port) : list VLAN :=
  match native_vlan p with Some v => [v] | None => [] end ++ tagged_vlans p.

Definition diff (old new : DP) : Changes :=
  mkChanges
    (filter (fun n => ports new !! n = None) (map_to_list (ports old)).*1)
    (filter (fun n => ports old !! n = None) (map_to_list (ports new)).*1)
    [] [] [] false.

Definition ext0 : External nat :=
  {| OFPR_ACTION := 1;
     OFPPR_ADD := 0;
     OFPPR_DELETE := 1;
     OFPPR_MODIFY := 2;
     ETH_TYPE_SLOW := 0x8809;
     ETH_TYPE_LLDP := 0x88cc;
     MAX_PACKET_IN_BYTES := 128;
     port_status_from_state := fun st => negb (Z.testbit st 0);
     SLOW_PROTOCOL_MULTICAST := 0x0180c2000002;
     LLDP_MAC_NEAREST_BRIDGE := 0x0180c200000e;
     BRIDGE_GROUP_MASK := 0xfffffffffff0;
     LACP_SIZE := 124;
     ETH_VLAN_HEADER_SIZE := 18;
     parse_packet_in_pkt := parse_eth;
     parse_lacp_pkt := parse_lacp;
     lacp_actor_up := actor_up;
     mac_addr_is_unicast := fun m => negb (Z.testbit m 40);
     mac_addr_all_zeros := fun m => m =? 0;
     int_from_mac := fun m => Z.land m 0xffffff;
     running := dyn_phys_up;
     port_vlans := vlans_of;
     mirror_actions := fun _ => [];
     port_no_valid := fun d n => is_Some_b (ports d !! n);
     classification_table := fun _ => T_eth_src;
     in_port_tables := fun _ => [T_port_acl; T_vlan; T_eth_src];
     lacp_forwarding := fun _ _ => true;
     get_config_changes := diff;
     load_tables := fun _ => [];
     mgr_init := fun _ => 0%nat;
     accept_to_classification := fun _ => [goto T_eth_src];
     add_port := fun m => tick (100 + mgr_tag m);
     del_port := fun m => tick (200 + mgr_tag m);
     add_vlan := fun m => tick (300 + mgr_tag m);
     update_vlan := tick 400;
     reset_caches := fun s _ => s;
     expire_port_nexthops := fun ipv => tick (500 + ipv);
     cold_start_port := tick 600;
     expire_hosts_from_vlan := fun s _ _ _ => ([], s);
     delete_host_from_vlan := tick 700;
     resolve_expire_hosts := fun ipv => tick (800 + ipv);
     dot1x_nfv_sw_port_up := tick 900;
     dot1x_port_up := fun s d p _ => tick 901 s d p;
     dot1x_port_down := fun s d p _ => tick 902 s d p |}.

Definition v100 : VLAN := mkVLAN 0x100 false 0x0e0000000001.
Definition v200 : VLAN := mkVLAN 0x200 false 0x0e0000000001.

Definition no_probe : ProbeInfo := mkProbeInfo None None.

(** An access port with native VLAN [v100]. *)
Definition access_port (n : Z) (up : bool) : Port :=
  mkPort n true false None false false 0 false [] 1 None 3 [] (Some v100) false
    up 0 None None None STACK_STATE_ADMIN_DOWN no_probe None.

(** A port of LAG 1 with the given passthrough peers and LACP state. *)
Definition lacp_port (n : Z) (peers : list Z) (lacp_up : Z)
    (last : option LacpPkt) (updated resp : option Q) : Port :=
  mkPort n true false None false false 1 false peers 1 None 3 [] (Some v100)
    false true lacp_up last updated resp STACK_STATE_ADMIN_DOWN no_probe None.

(** A stack port towards a DP that sends a probe every [interval] seconds. *)
Definition stack_port (n : Z) (interval lost : Z) (st : StackState)
    (probe : ProbeInfo) : Port :=
  mkPort n true false None false false 0 false [] 1
    (Some (mkStackPeer 2 1 (Some interval) 5)) lost [] None false
    true 0 None None None st probe None.

Definition dp_full (ps : list (Z * Port)) (stacked strict : bool)
    (learn_ins : Z) (running : bool) (up : list Z) : DP :=
  mkDP 1 (list_to_map ps) (list_to_map [(0x100, v100); (0x200, v200)])
    stacked None false false false false false false [] 4095 1524372928 strict
    learn_ins 5 0 9000 9001 9099 0x0e0000000001
    running (list_to_set up) None.

Definition dp_of (ps : list (Z * Port)) (running : bool) (up : list Z) : DP :=
  dp_full ps false false 0 running up.

Definition valve_of_dp (d : DP) : Valve nat :=
  mkValve d 0%nat false [] 0 0%Q 0%Q 0%Q [] false [] [].

(** The Valve after a computation, when it returns. *)
Definition after {A : Type} (c : M nat A) (v : Valve nat) : Valve nat :=
  match c v with
  | Ret (_, v') => v'
  | Raise _ => v
  end.

(** A packet-in with the given reason and in_port carrying [frame]. *)
Definition packet_in (reason in_port : Z) (frame : list Byte.byte) : PacketIn :=
  mkPacketIn 1524372928 reason (Some {[ "in_port" := in_port ]}) (Some frame) 64.

Definition frame_of (dst src ty : list Z) (payload : list Z) : list Byte.byte :=
  (fun z => default Byte.x00 (Byte.of_N (Z.to_N z)))
  <$> (dst ++ src ++ ty ++ payload).

(** An IPv4 frame from 0e:00:00:00:00:02 to the broadcast address. *)
Definition ip_frame : list Byte.byte :=
  frame_of [255; 255; 255; 255; 255; 255] [14; 0; 0; 0; 0; 2] [8; 0] [0; 0].

(** A LACP PDU from actor system [sys] whose state bits are [st]. *)
Definition lacp_frame (sys st : Z) : list Byte.byte :=
  frame_of [1; 128; 194; 0; 0; 2] [14; 0; 0; 0; 0; 2] [136; 9] [sys; st].

Definition lacp_pkt_meta (in_port sys st : Z) : PacketMeta :=
  mkPacketMeta (lacp_frame sys st) 64 0
    (mkEthPkt 0x0e0000000002 0x0180c2000002) None in_port None
    0x0e0000000002 0x0180c2000002 (Some 0x8809).

End Example.


(** ** Further methods of the Valve *)

(** The Port object after the four assignments at the head of
    [lacp_down]. *)
Definition lacp_reset (p : Port) : Port :=
  set_dyn_lacp_last_resp_time None
    (set_dyn_lacp_updated_time None
       (set_dyn_last_lacp_pkt None (set_dyn_lacp_up 0 p))).

(** [Valve._get_ports_status] (a static method): the status of every
    configured port number and the set of those that are up. *)
Definition _get_ports_status (discovered_up_port_nos all_configured_port_nos : gset Z)
    : gmap Z bool * gset Z :=
  let port_status : gmap Z bool :=
    set_to_map (fun port_no =>
                  (port_no, bool_decide (port_no ∈ discovered_up_port_nos)))
      all_configured_port_nos in
  (port_status, dom (filter (fun kv => kv.2 = true) port_status)).

(** A LACP-configured port whose LACP state is UP: the ports listed by
    [lags_up]. *)
Definition lacp_is_up (p : Port) : bool :=
  truthyZ (lacp p) && truthyZ (dyn_lacp_up p).

(** The test of [_lacp_state_expire] on a port whose LACP state was last
    updated at [dyn_lacp_updated_time]. *)
Definition lacp_expired (now : Q) (timeout : Z) (p : Port) : bool :=
  match dyn_lacp_updated_time p with
  | Some updated => Qlt_bool (inject_Z timeout) (now - updated)
  | None => false
  end.

(** [q] is the Port object [p] after assignments to the dynamic
    attributes that [ports_add], [ports_delete], [lacp_down] and
    [lacp_up] set: the configuration of the port is untouched. *)
Definition same_port_config (p q : Port) : Prop :=
  exists phys_up lacp_up last_pkt updated resp st,
    q = set_port_dyn p phys_up lacp_up last_pkt updated resp st.

(** The Port objects [ps] are those of [config], each up to its dynamic
    attributes: no port is missing, added or replaced. *)
Definition ports_of_config (config ps : gmap Z Port) : Prop :=
  forall n, match config !! n, ps !! n with
            | Some p, Some q => same_port_config p q
            | None, None => True
            | _, _ => False
            end.

Section MoreOperations.

Context {MgrState : Type} (ext : External MgrState).
Local Abbreviation Valve := (Valve MgrState).
Local Abbreviation M := (M MgrState).

(** Computations that only call into the managers: they always return
    and change nothing but the managers' state. *)
Definition mgr_only {A : Type} (c : M A) : Prop :=
  forall v, exists a s, c v = Ret (a, set_mgr s v).

(** Computations that always return and change neither the DP nor the
    set of route managers. *)
Definition keeps_dp {A : Type} (c : M A) : Prop :=
  forall v, exists a v',
    c v = Ret (a, v') /\ dp v' = dp v /\
    _route_manager_by_ipv v' = _route_manager_by_ipv v.

(** Loop bodies that always return, change neither the DP nor the set
    of route managers, and only add messages to the dict they are given. *)
Definition extends_self {X : Type}
    (f : option (list OfMsg) -> X -> M (option (list OfMsg))) : Prop :=
  forall acc x v, exists r v' added,
    f acc x v = Ret (r, v') /\ dp v' = dp v /\
    _route_manager_by_ipv v' = _route_manager_by_ipv v /\
    default [] r = default [] acc ++ added.

(** The Valve after assigning [p] to [dp.ports[n]]. *)
Definition with_port (n : Z) (p : Port) (v : Valve) : Valve :=
  set_dp (set_ports (<[n := p]> (ports (dp v))) (dp v)) v.

(** The part of [lacp_down] that is skipped on a cold start: the host
    manager forgets the port and every VLAN of the port is re-flooded. *)
Definition lacp_down_state_msgs (port : Port) : M (list OfMsg) :=
  a <- call (del_port ext host_manager) port ;;
  b <- for_msgs (port_vlans ext port)
         (fun vlan => call (add_vlan ext flood_manager) vlan) ;;
  mret (a ++ b).

(** The LACP PDU that [_lacp_actions] sends on [port]. *)
Definition lacp_reply (d : DP) (port : Port) (lacp_pkt : option LacpPkt) : OfMsg :=
  packetout (number port)
    (lacp_reqreply (faucet_dp_mac d) (faucet_dp_mac d) (lacp port) (number port)
       1 (if lacp_active port then 1 else 0)
       (lacp_forwarding ext d port) (lacp_forwarding ext d port) lacp_pkt).

(** The condition under which [lacp_handler] answers a PDU: the PDU
    differs from the last one recorded on the port (or none is
    recorded), or the last response is older than [lacp_resp_interval]. *)
Definition lacp_reply_due (now : Q) (port : Port) (lacp_pkt : LacpPkt) : bool :=
  let age :=
    if truthy_oQ (dyn_lacp_last_resp_time port)
    then (fun t => (now - t)%Q) <$> dyn_lacp_last_resp_time port
    else None in
  match dyn_last_lacp_pkt port with
  | None => true
  | Some last => negb (bool_decide (lacp_pkt = last))
  end
  || match age with
     | Some a => Qlt_bool (inject_Z (lacp_resp_interval port)) a
     | None => false
     end.

(** The Port object after [lacp_handler] has applied the actor state of
    a PDU. *)
Definition lacp_transition (actor_up : Z) (port : Port) : Port :=
  if negb (dyn_lacp_up port =? actor_up) then
    if truthyZ actor_up then set_dyn_lacp_up 1 port else lacp_reset port
  else port.


End MoreOperations.

(** ** Further collaborators of [valve.py]

    Messages of [valve_of] that the methods below only pass on,
    attributes of the DP and of its tables that they read, and the
    advertisements of the route managers. *)

Section Interface2.

Context {MgrState : Type}.

Record External2 : Type := mkExternal2 {
  (* valve_of *)
  meterdel : OfMsg;
  controller_pps_meterdel : OfMsg;
  controller_pps_meteradd : Z -> OfMsg;
  table_features : list string -> OfMsg;
  (* valve_table: [table.goto_miss(miss_table)] *)
  goto_miss : Table -> Inst;
  (* attributes of DP *)
  groups_delete_all : DP -> OfMsg;
  packetin_pps : DP -> Z;
  meter_entry_msgs : DP -> list OfMsg;      (* [meter.entry_msg], per meter *)
  dp_tables : DP -> list (Table * option Table);
                                            (* each table with the table
                                               its [miss_goto] names *)
  advertise_interval : DP -> Z;
  (* route managers *)
  rm_advertise : Z -> MgrState -> DP -> VLAN -> list OfMsg * MgrState
}.

End Interface2.

Section Provisioning.

Context {MgrState : Type} (ext : External MgrState) (ext2 : @External2 MgrState).
Local Abbreviation Valve := (Valve MgrState).
Local Abbreviation M := (M MgrState).

Definition set_last_pipeline_flows (flows : list (list string)) (v : Valve)
    : Valve :=
  mkValve (dp v) (mgr v) (tfm v) flows (_packet_in_count_sec v)
    (_last_packet_in_sec v) (_last_advertise_sec v)
    (_last_fast_advertise_sec v) (_route_manager_by_ipv v)
    (acl_manager_set v) (metrics v) (notifier v).

Definition set_last_advertise_sec (t : Q) (v : Valve) : Valve :=
  mkValve (dp v) (mgr v) (tfm v) (_last_pipeline_flows v)
    (_packet_in_count_sec v) (_last_packet_in_sec v) t
    (_last_fast_advertise_sec v) (_route_manager_by_ipv v)
    (acl_manager_set v) (metrics v) (notifier v).

(** [Valve._delete_all_valve_flows] (the override of [ArubaValve],
    which always deletes the groups, is not covered) *)
Definition _delete_all_valve_flows (d : DP) : list OfMsg :=
  [flowdel wildcard_table match_any None false]
  ++ (if meters d then [meterdel ext2] else [])
  ++ (if group_table d then [groups_delete_all ext2 d] else []).

(** [Valve._add_default_drop_flows] *)
Definition _add_default_drop_flows (d : DP) : list OfMsg :=
  (fun table : Table * option Table =>
     match table.2 with
     | Some miss_table =>
         flowmod table.1 match_any (lowest_priority d)
           [goto_miss ext2 miss_table]
     | None => flowdrop table.1 match_any (lowest_priority d)
     end)
  <$> dp_tables ext2 d.

(** [Valve._add_packetin_meter] *)
Definition _add_packetin_meter (d : DP) : list OfMsg :=
  if truthyZ (packetin_pps ext2 d)
  then [controller_pps_meterdel ext2;
        controller_pps_meteradd ext2 (packetin_pps ext2 d)]
  else [].

(** [Valve._add_default_flows] *)
Definition Valve_add_default_flows (d : DP) : list OfMsg :=
  _delete_all_valve_flows d
  ++ _add_packetin_meter d
  ++ (if meters d then meter_entry_msgs ext2 d else [])
  ++ _add_default_drop_flows d.

(** [_add_default_flows] as dispatched on the class of the Valve:
    [TfmValve._add_default_flows] sends the pipeline flows first and
    remembers them, then calls the method of [Valve]. *)
Definition _add_default_flows : M (list OfMsg) :=
  is_tfm <- gets tfm ;;
  if (is_tfm : bool) then
    ofmsgs <- gets (_pipeline_flows ext) ;;
    modify (set_last_pipeline_flows ofmsgs) ;;;
    d <- gets dp ;;
    mret ((table_features ext2 <$> ofmsgs) ++ Valve_add_default_flows d)
  else
    d <- gets dp ;;
    mret (Valve_add_default_flows d).

(** [Valve.advertise]: [None] is the empty dict, [Some l] is
    [{self: l}]. *)
Definition advertise (now : Q) : M (option (list OfMsg)) :=
  interval <- gets (fun v => advertise_interval ext2 (dp v)) ;;
  last <- gets _last_advertise_sec ;;
  if negb (truthyZ interval) || Qlt_bool (now - last) (inject_Z interval)
  then mret None else
  modify (set_last_advertise_sec now) ;;;
  ipvs <- gets _route_manager_by_ipv ;;
  vs <- gets (fun v => (map_to_list (vlans (dp v))).*2) ;;
  ofmsgs <- for_msgs ipvs
              (fun ipv =>
                 for_msgs vs (fun vlan => call (rm_advertise ext2 ipv) vlan)) ;;
  mret (if is_nil ofmsgs then None else Some ofmsgs).

End Provisioning.

(** A concrete instance of the further collaborators, over the managers
    of [Example]. *)
Module Example2.

Definition ext2_0 : @External2 nat :=
  {| meterdel := ext_msg 1000;
     controller_pps_meterdel := ext_msg 1001;
     controller_pps_meteradd := fun pps => ext_msg (2000 + pps);
     table_features := fun body => ext_msg (3000 + Z.of_nat (length body));
     goto_miss := goto;
     groups_delete_all := fun _ => ext_msg 1002;
     packetin_pps := fun _ => 0;
     meter_entry_msgs := fun _ => [];
     dp_tables := fun _ =>
       [(T_port_acl, Some T_vlan); (T_vlan, None); (T_eth_src, Some T_eth_dst);
        (T_eth_dst, None)];
     advertise_interval := fun _ => 5;
     rm_advertise := fun ipv => Example.tick (900 + ipv) |}.

(** A [TfmValve] with an IPv4 route manager. *)
Definition tfm_valve_of_dp (d : DP) : Valve nat :=
  mkValve d 0%nat true [] 0 0%Q 0%Q 0%Q [4] false [] [].

End Example2.

(** * Verification *)

(** ** Rational comparisons *)

Lemma Qlt_bool_iff (x y : Q) : Qlt_bool x y = true <-> (x < y)%Q.
Proof.
  unfold Qlt_bool. rewrite negb_true_iff.
  split; intros H.
  - apply Qnot_le_lt. intros Hle. apply Qle_bool_iff in Hle. congruence.
  - destruct (Qle_bool y x) eqn:E; [|done].
    apply Qle_bool_iff in E. exfalso. eapply Qlt_not_le; eauto.
Qed.

Lemma Qlt_bool_false_iff (x y : Q) : Qlt_bool x y = false <-> (y <= x)%Q.
Proof.
  unfold Qlt_bool. rewrite negb_false_iff. apply Qle_bool_iff.
Qed.

Lemma truthyQ_minus (a b : Q) : truthyQ (a - b) = true <-> ~ (a == b)%Q.
Proof.
  unfold truthyQ. rewrite negb_true_iff.
  split.
  - intros H Heq. assert (Qeq_bool (a - b) 0 = true) as E.
    { apply Qeq_bool_iff. lra. }
    congruence.
  - intros H. destruct (Qeq_bool (a - b) 0) eqn:E; [|done].
    apply Qeq_bool_iff in E. exfalso. apply H. lra.
Qed.

(** ** The stack link engine *)

Ltac stack_rows :=
  repeat split; intros;
  repeat match goal with
         | H : exists _, _ |- _ => destruct H
         | H : _ /\ _ |- _ => destruct H
         | H : _ \/ _ |- _ => destruct H
         end;
  simplify_eq; try done;
  try (exfalso; eapply Qlt_not_le; eauto; fail);
  try (simpl; rewrite ?elem_of_cons in *; tauto);
  try naive_solver.

(** C1 (amended).  For a stack port that is not admin-down, whose peer
    sends probes at a non-zero interval, [_next_stack_link_state] returns
    and follows the table of section 4.7 read as follows: the next state
    is INIT exactly when no probe was ever seen and the port is DOWN; it
    is DOWN exactly when a probe was seen, the port is not DOWN and
    either [stack_correct] is false, or
    [(now - last_seen) / send_interval >= max_lldp_lost] with
    [now <> last_seen]; it is UP exactly when a probe was seen,
    [stack_correct] holds, fewer than [max_lldp_lost] probes were lost
    and the port is not UP; otherwise there is no change.  The resulting
    state is one of INIT, UP, DOWN. *)
Theorem next_stack_link_state_table
    (port : Port) (now : Q) (remote_dp : StackPeer) :
  is_stack_admin_down port = false ->
  stack port = Some remote_dp ->
  lldp_send_interval remote_dp <> 0 ->
  let probe := dyn_stack_probe_info port in
  let lost t := ((now - t) / inject_Z (lldp_send_interval remote_dp))%Q in
  exists next : option StackState,
    _next_stack_link_state port now = Ret next /\
    (next = Some STACK_STATE_INIT <->
       last_seen_lldp_time probe = None /\ is_stack_down port = true) /\
    (next = Some STACK_STATE_DOWN <->
       exists t, last_seen_lldp_time probe = Some t /\
                 is_stack_down port = false /\
                 (truthy_obool (stack_correct probe) = false \/
                  (inject_Z (max_lldp_lost port) <= lost t)%Q /\
                  ~ (now == t)%Q)) /\
    (next = Some STACK_STATE_UP <->
       exists t, last_seen_lldp_time probe = Some t /\
                 truthy_obool (stack_correct probe) = true /\
                 (lost t < inject_Z (max_lldp_lost port))%Q /\
                 is_stack_up port = false) /\
    next <> Some STACK_STATE_ADMIN_DOWN /\
    apply_next_state port next ∈
      [STACK_STATE_INIT; STACK_STATE_UP; STACK_STATE_DOWN].
Proof.
  intros Hadm Hstack Hsi probe lost.
  unfold _next_stack_link_state. rewrite Hadm, Hstack.
  fold (lldp_send_interval remote_dp). fold probe.
  assert (Hst : dyn_stack_current_state port ∈
                  [STACK_STATE_INIT; STACK_STATE_UP; STACK_STATE_DOWN]).
  { unfold is_stack_admin_down in Hadm.
    apply bool_decide_eq_false in Hadm.
    destruct (dyn_stack_current_state port); [done | | |];
      rewrite ?elem_of_cons; tauto. }
  destruct (last_seen_lldp_time probe) as [t|] eqn:Eseen.
  - apply Z.eqb_neq in Hsi as Hsi'. rewrite Hsi'. fold (lost t).
    destruct (truthy_obool (stack_correct probe)) eqn:Ec; simpl;
      [ destruct (Qlt_bool (lost t) (inject_Z (max_lldp_lost port))) eqn:El;
        simpl;
        [ apply Qlt_bool_iff in El; destruct (is_stack_up port) eqn:Eu
        | apply Qlt_bool_false_iff in El;
          destruct (is_stack_down port) eqn:Ed;
          [ | destruct (truthyQ (now - t)) eqn:Et;
              [ apply truthyQ_minus in Et
              | assert (Hz : ~ ~ (now == t)%Q)
                  by (intros H; apply truthyQ_minus in H; congruence) ] ] ]
      | destruct (is_stack_down port) eqn:Ed ];
      simpl; (eexists; split; [reflexivity|]); stack_rows.
  - destruct (is_stack_down port) eqn:Ed; simpl;
      (eexists; split; [reflexivity|]); stack_rows.
Qed.

Section Properties.

Context {MgrState : Type} (ext : External MgrState).
Local Abbreviation Valve := (Valve MgrState).
Local Abbreviation M := (M MgrState).

(** ** Rate limiting *)


(** ** The monad *)

Lemma mbind_Ret_inv {A B} (c : M A) (k : A -> M B) (v v' : Valve) (b : B) :
  mbind c k v = Ret (b, v') ->
  exists a v1, c v = Ret (a, v1) /\ k a v1 = Ret (b, v').
Proof.
  unfold mbind. destruct (c v) as [[a v1]|e]; [eauto | done].
Qed.

Lemma mbind_Ret {A B} (c : M A) (k : A -> M B) (v v1 : Valve) (a : A) :
  c v = Ret (a, v1) -> mbind c k v = k a v1.
Proof. unfold mbind. by intros ->. Qed.

Lemma mbind_Raise {A B} (c : M A) (k : A -> M B) (v : Valve) (e : Exn) :
  c v = Raise e -> mbind c k v = Raise e.
Proof. unfold mbind. by intros ->. Qed.

Lemma port_status_prologue_Ret (port_no reason state : Z) (v : Valve) :
  exists v1,
    port_status_prologue ext port_no reason state v = Ret (tt, v1) /\
    ports (dp v1) = ports (dp v) /\
    dp v1 = set_dyn_up_port_nos
              (if port_status_from_state ext state
               then {[port_no]} ∪ dyn_up_port_nos (dp v)
               else dyn_up_port_nos (dp v) ∖ {[port_no]}) (dp v).
Proof.
  unfold port_status_prologue, _set_port_status, _notify, _set_var, mbind,
    modify, gets, mret. simpl.
  destruct (ports (dp v) !! port_no); eexists; split; try reflexivity; done.
Qed.

(** C6.  A port status MODIFY with an up state, on a configured port
    with [opstatus_reconf] that is already physically up, is handled as a
    flap: the messages returned for this Valve are those of
    [port_delete] followed by those of [port_add]. *)
Theorem port_status_handler_flap (v : Valve) (port_no reason state : Z)
    (port : Port) :
  reason = OFPPR_MODIFY ext ->
  port_status_from_state ext state = true ->
  port_no_valid ext
    (set_dyn_up_port_nos ({[port_no]} ∪ dyn_up_port_nos (dp v)) (dp v))
    port_no = true ->
  ports (dp v) !! port_no = Some port ->
  opstatus_reconf port = true ->
  dyn_phys_up port = true ->
  exists v1,
    port_status_prologue ext port_no reason state v = Ret (tt, v1) /\
    port_status_handler ext port_no reason state v =
      (a <- port_delete ext port_no ;;
       b <- port_add ext port_no ;;
       mret (Some (a ++ b))) v1 /\
    forall a v2 b v3,
      port_delete ext port_no v1 = Ret (a, v2) ->
      port_add ext port_no v2 = Ret (b, v3) ->
      port_status_handler ext port_no reason state v = Ret (Some (a ++ b), v3).
Proof.
  intros Hreason Hup Hvalid Hport Hreconf Hphys.
  destruct (port_status_prologue_Ret port_no reason state v)
    as (v1 & Hpro & Hports & Hdp).
  rewrite Hup in Hdp.
  exists v1. split; [done|].
  assert (Heq : port_status_handler ext port_no reason state v =
      (a <- port_delete ext port_no ;;
       b <- port_add ext port_no ;;
       mret (Some (a ++ b))) v1).
  { unfold port_status_handler.
    rewrite (mbind_Ret _ _ _ _ _ Hpro).
    unfold mbind at 1. unfold gets at 1. rewrite Hdp, Hvalid. simpl.
    unfold mbind at 1. unfold get_port at 1.
    rewrite Hdp. simpl. rewrite Hport, Hreconf. simpl.
    unfold _decode_port_status. subst reason. rewrite Z.eqb_refl.
    rewrite Hup, Hphys. rewrite andb_true_r, orb_true_r. done. }
  split; [done|].
  intros a v2 b v3 Hd Ha. rewrite Heq.
  rewrite (mbind_Ret _ _ _ _ _ Hd). rewrite (mbind_Ret _ _ _ _ _ Ha). done.
Qed.

(** ** Packet-in validation *)

Lemma parse_rcv_packet_eth_src d in_port vlan_vid eth_type data orig_len pkt
    eth_pkt vlan_pkt pkt_meta :
  parse_rcv_packet ext d in_port vlan_vid eth_type data orig_len pkt eth_pkt
    vlan_pkt = Ret pkt_meta ->
  pm_eth_src pkt_meta = src eth_pkt /\ pm_port pkt_meta = in_port /\
  is_Some (ports d !! in_port).
Proof.
  unfold parse_rcv_packet. intros H.
  destruct (ports d !! in_port); [|done].
  case_bool_decide; simplify_eq; simpl; eauto.
Qed.

Lemma parse_pkt_meta_Some (v : Valve) (msg : PacketIn) (pkt_meta : PacketMeta) :
  parse_pkt_meta ext v msg = Ret (Some pkt_meta) ->
  let d := dp v in
  let data := take (MAX_PACKET_IN_BYTES ext) (default [] (msg_data msg)) in
  let parsed := parse_packet_in_pkt ext data (ETH_VLAN_HEADER_SIZE ext) in
  dyn_running d = true /\
  (strict_packet_in_cookie d = true -> cookie d = msg_cookie msg) /\
  msg_reason msg = OFPR_ACTION ext /\
  exists m in_port pkt eth_pkt port,
    msg_match msg = Some m /\ m ≠ ∅ /\ m !! "in_port" = Some in_port /\
    in_port <> 0 /\ port_no_valid ext d in_port = true /\
    msg_data msg <> None /\ msg_data msg <> Some [] /\
    p_pkt parsed = Some pkt /\ p_eth_pkt parsed = Some eth_pkt /\
    (forall vv, p_vlan_vid parsed = Some vv ->
                is_Some (vlans d !! vv) \/ vv = global_vlan d) /\
    parse_rcv_packet ext d in_port (p_vlan_vid parsed) (p_eth_type parsed)
      data (msg_total_len msg) pkt eth_pkt (p_vlan_pkt parsed) = Ret pkt_meta /\
    mac_addr_is_unicast ext (src eth_pkt) = true /\
    mac_addr_all_zeros ext (src eth_pkt) = false /\
    ports d !! in_port = Some port /\
    (dp_stack d = true -> stack port = None ->
     forall vlan, pm_vlan pkt_meta = Some vlan ->
                  vlan ∈ tagged_vlans port \/ native_vlan port = Some vlan).
Proof.
  intros H d data parsed. unfold parse_pkt_meta in H.
  destruct (dyn_running (dp v)) eqn:Erun; simpl in H; [|done].
  split; [done|].
  destruct (strict_packet_in_cookie (dp v) && negb (cookie (dp v) =? msg_cookie msg))
    eqn:Ecookie; [done|].
  split.
  { intros Hs. fold d in Ecookie. rewrite Hs in Ecookie. simpl in Ecookie.
    apply negb_false_iff, Z.eqb_eq in Ecookie. done. }
  destruct (msg_reason msg =? OFPR_ACTION ext) eqn:Ereason; simpl in H; [|done].
  apply Z.eqb_eq in Ereason. split; [done|].
  destruct (msg_match msg) as [m|] eqn:Ematch; [|done].
  case_bool_decide as Hempty; [done|].
  destruct (m !! "in_port") as [in_port|] eqn:Ein; [|done].
  destruct (negb (truthyZ in_port) || negb (port_no_valid ext (dp v) in_port))
    eqn:Eport; [done|].
  apply orb_false_iff in Eport as [Enz Evalid].
  apply negb_false_iff in Enz, Evalid.
  unfold truthyZ in Enz. apply negb_true_iff, Z.eqb_neq in Enz.
  destruct (msg_data msg) as [[|b bs]|] eqn:Edata; [done | | done].
  simpl in data. fold data in H. fold parsed in H.
  destruct (p_pkt parsed) as [pkt|] eqn:Epkt; [|done].
  destruct (p_eth_pkt parsed) as [eth_pkt|] eqn:Eeth; [|done].
  match type of H with
  | (if ?c then _ else _) = _ => destruct c eqn:Evlan; [done|]
  end.
  destruct (parse_rcv_packet _ _ _ _ _ _ _ _ _ _) as [pm|e] eqn:Ercv; [|done].
  destruct (parse_rcv_packet_eth_src _ _ _ _ _ _ _ _ _ _ Ercv)
    as (Hsrc & Hport & _).
  rewrite Hsrc, Hport in H.
  destruct (mac_addr_is_unicast ext (src eth_pkt)) eqn:Euni; simpl in H; [|done].
  destruct (mac_addr_all_zeros ext (src eth_pkt)) eqn:Ezero; [done|].
  destruct (ports (dp v) !! in_port) as [port|] eqn:Elook; [|done].
  match type of H with
  | (if ?c then _ else _) = _ => destruct c eqn:Estack; [done|]
  end.
  assert (pm = pkt_meta) by congruence. subst pm. clear H.
  exists m, in_port, pkt, eth_pkt, port.
  repeat split; try done.
  - intros vv Hvv. rewrite Hvv in Evlan.
    apply andb_false_iff in Evlan as [E|E]; apply negb_false_iff in E.
    + left. unfold d. destruct (vlans (dp v) !! vv); [eauto | done].
    + right. by apply Z.eqb_eq.
  - intros Hs Hns vlan Hv. fold d in Estack.
    rewrite Hs, Hns, Hv in Estack. simpl in Estack.
    apply andb_false_iff in Estack as [E|E]; apply negb_false_iff in E;
      apply bool_decide_eq_true in E; eauto.
Qed.


Lemma parse_pkt_meta_returns (v : Valve) (msg : PacketIn) :
  (forall m, msg_match msg = Some m -> m ≠ ∅ -> is_Some (m !! "in_port")) ->
  (forall n, port_no_valid ext (dp v) n = true -> is_Some (ports (dp v) !! n)) ->
  exists r, parse_pkt_meta ext v msg = Ret r.
Proof.
  intros Hin Hvalid. unfold parse_pkt_meta.
  destruct (negb (dyn_running (dp v))); [eauto|].
  destruct (strict_packet_in_cookie (dp v) && _); [eauto|].
  destruct (negb (msg_reason msg =? _)); [eauto|].
  destruct (msg_match msg) as [m|] eqn:Em; [|eauto].
  case_bool_decide; [eauto|].
  destruct (Hin m eq_refl) as [in_port Hp]; [done|]. rewrite Hp.
  destruct (negb (truthyZ in_port) || _) eqn:E; [eauto|].
  apply orb_false_iff in E as [_ E]. apply negb_false_iff in E.
  destruct (Hvalid in_port E) as [port Hport].
  destruct (msg_data msg) as [[|b bs]|]; [eauto | | eauto].
  destruct (p_pkt _); [|eauto].
  destruct (p_eth_pkt _); [|eauto].
  match goal with
  | |- context [if ?c then Ret None else _] => destruct c; [eauto|]
  end.
  unfold parse_rcv_packet. rewrite Hport.
  case_bool_decide; simpl;
    (destruct (negb (mac_addr_is_unicast ext _)); [eauto|]);
    (destruct (mac_addr_all_zeros ext _); [eauto|]);
    rewrite Hport;
    match goal with
    | |- context [if ?c then Ret None else _] => destruct c; eauto
    end.
Qed.


(** C10.  While the datapath is not marked running, which is the state
    that [datapath_disconnect] leaves, [parse_pkt_meta] returns [None]
    for every packet-in. *)
Theorem parse_pkt_meta_not_running (v : Valve) (msg : PacketIn) :
  dyn_running (dp v) = false \/
  (exists v0, datapath_disconnect v0 = Ret (tt, v)) ->
  parse_pkt_meta ext v msg = Ret None.
Proof.
  intros [Hrun | [v0 Hdis]].
  - unfold parse_pkt_meta. by rewrite Hrun.
  - unfold datapath_disconnect, _reset_dp_status, _notify, _inc_var, _set_var,
      mbind, modify, gets in Hdis. simpl in Hdis.
    injection Hdis as <-. reflexivity.
Qed.

End Properties.

(** ** Invariants preserved by the methods *)

Section Preservation.

Context {MgrState : Type} (ext : External MgrState).
Local Abbreviation Valve := (Valve MgrState).
Local Abbreviation M := (M MgrState).

Lemma preserves_mret {A} (P : Valve -> Prop) (a : A) : preserves P (mret a).
Proof. intros v a' v' H. unfold mret in H. by simplify_eq. Qed.

Lemma preserves_raise {A} (P : Valve -> Prop) (e : Exn) : preserves P (raise e : M A).
Proof. intros v a' v' H. done. Qed.

Lemma preserves_gets {A} (P : Valve -> Prop) (f : Valve -> A) : preserves P (gets f).
Proof. intros v a' v' H. unfold gets in H. by simplify_eq. Qed.

Lemma preserves_lift {A} (P : Valve -> Prop) (r : Res A) : preserves P (lift r).
Proof. intros v a' v' H. unfold lift in H. destruct r; by simplify_eq. Qed.

Lemma preserves_bind {A B} (P : Valve -> Prop) (c : M A) (k : A -> M B) :
  preserves P c -> (forall a, preserves P (k a)) -> preserves P (mbind c k).
Proof.
  intros Hc Hk v b v' H HP.
  apply mbind_Ret_inv in H as (a & v1 & H1 & H2).
  eapply Hk; eauto.
Qed.

Lemma preserves_get_port (P : Valve -> Prop) n : preserves P (get_port n).
Proof.
  intros v a' v' H. unfold get_port in H.
  destruct (ports (dp v) !! n); by simplify_eq.
Qed.

Lemma preserves_get_vlan (P : Valve -> Prop) n : preserves P (get_vlan n).
Proof.
  intros v a' v' H. unfold get_vlan in H.
  destruct (vlans (dp v) !! n); by simplify_eq.
Qed.

Lemma preserves_put_port (P : Valve -> Prop) n p : stable P -> preserves P (put_port n p).
Proof.
  intros HS v a' v' H HP. unfold put_port, modify in H. simplify_eq.
  by apply stable_ports.
Qed.

Lemma preserves_call {X} P
    (f : MgrState -> DP -> X -> list OfMsg * MgrState) (x : X) :
  stable P -> preserves P (call f x).
Proof.
  intros HS v a' v' H HP. unfold call in H. simplify_eq.
  by apply stable_mgr.
Qed.

Lemma preserves_inc_var (P : Valve -> Prop) var : stable P -> preserves P (_inc_var var).
Proof.
  intros HS v a' v' H HP. unfold _inc_var, modify in H. simplify_eq.
  by apply stable_metric.
Qed.

Lemma preserves_set_var (P : Valve -> Prop) var l val :
  stable P -> preserves P (_set_var var l val).
Proof.
  intros HS v a' v' H HP. unfold _set_var, modify in H. simplify_eq.
  by apply stable_metric.
Qed.

Lemma preserves_notify (P : Valve -> Prop) e : stable P -> preserves P (_notify e).
Proof.
  intros HS v a' v' H HP. unfold _notify, modify in H. simplify_eq.
  by apply stable_event.
Qed.

Lemma preserves_for_msgs {X} (P : Valve -> Prop) (l : list X) (f : X -> M (list OfMsg)) :
  (forall x, preserves P (f x)) -> preserves P (for_msgs l f).
Proof.
  intros Hf. induction l as [|x l IH]; simpl.
  - apply preserves_mret.
  - apply preserves_bind; [apply Hf|]. intros ms.
    apply preserves_bind; [apply IH|]. intros ms'. apply preserves_mret.
Qed.

Lemma preserves_for_ports (P : Valve -> Prop)
    (f : Z -> M (list OfMsg * list VLAN)) (l : list Z) :
  (forall n, preserves P (f n)) -> preserves P (for_ports f l).
Proof.
  intros Hf. induction l as [|x l IH]; simpl.
  - apply preserves_mret.
  - apply preserves_bind; [apply Hf|]. intros r.
    apply preserves_bind; [apply IH|]. intros r'. apply preserves_mret.
Qed.

Lemma preserves_fold_self {X} P
    (f : option (list OfMsg) -> X -> M (option (list OfMsg))) (l : list X) acc :
  (forall a x, preserves P (f a x)) -> preserves P (fold_self f l acc).
Proof.
  intros Hf. revert acc. induction l as [|x l IH]; intros acc; simpl.
  - apply preserves_mret.
  - apply preserves_bind; [apply Hf|]. intros acc'. apply IH.
Qed.

Lemma preserves_mmap {X Y} (P : Valve -> Prop) (f : X -> M Y) (l : list X) :
  (forall x, preserves P (f x)) -> preserves P (mmap f l).
Proof.
  intros Hf. induction l as [|x l IH]; simpl.
  - apply preserves_mret.
  - apply preserves_bind; [apply Hf|]. intros y.
    apply preserves_bind; [apply IH|]. intros ys. apply preserves_mret.
Qed.

End Preservation.

Create HintDb preserves discriminated.

#[export] Hint Resolve preserves_mret preserves_raise preserves_gets
  preserves_lift preserves_get_port preserves_get_vlan preserves_put_port
  preserves_call preserves_inc_var preserves_set_var preserves_notify
  : preserves.

(** Decomposes a goal [preserves P c] along the structure of [c]. *)
Ltac preserves_step :=
  lazymatch goal with
  | |- preserves _ (mbind _ _) => apply preserves_bind; [|intros ?]
  | |- preserves _ (for_msgs _ _) => apply preserves_for_msgs; intros ?
  | |- preserves _ (for_ports _ _) => apply preserves_for_ports; intros ?
  | |- preserves _ (fold_self _ _ _) => apply preserves_fold_self; intros ? ?
  | |- preserves _ (mmap _ _) => apply preserves_mmap; intros ?
  | |- preserves _ (if ?b then _ else _) => destruct b
  | |- preserves _ (match ?x with _ => _ end) => destruct x
  | |- preserves _ _ => solve [eauto with preserves]
  end.

Ltac preserves_tac := repeat preserves_step.

Section PreservationOps.

Context {MgrState : Type} (ext : External MgrState).
Local Abbreviation Valve := (Valve MgrState).
Local Abbreviation M := (M MgrState).

Variable P : Valve -> Prop.
Hypothesis HP : stable P.

Lemma preserves_lacp_down n cs : preserves P (lacp_down ext n cs).
Proof. unfold lacp_down, _reset_lacp_status. preserves_tac. Qed.

Lemma preserves_lacp_up n : preserves P (lacp_up ext n).
Proof. unfold lacp_up, _reset_lacp_status. preserves_tac. Qed.

Lemma preserves_lacp_actions pkt n : preserves P (_lacp_actions ext pkt n).
Proof. unfold _lacp_actions. preserves_tac. Qed.

Hint Resolve preserves_lacp_down preserves_lacp_up preserves_lacp_actions
  : preserves.

Lemma preserves_ports_add_port cs n : preserves P (ports_add_port ext cs n).
Proof. unfold ports_add_port, get_nfv_sw_port. preserves_tac. Qed.

Lemma preserves_ports_add l cs : preserves P (ports_add ext l cs).
Proof.
  unfold ports_add. pose proof preserves_ports_add_port. preserves_tac.
Qed.

Lemma preserves_ports_delete_port n : preserves P (ports_delete_port ext n).
Proof.
  unfold ports_delete_port, get_nfv_sw_port, _port_delete_flows_state,
    _port_delete_manager_state.
  preserves_tac.
Qed.

Lemma preserves_ports_delete l : preserves P (ports_delete ext l).
Proof.
  unfold ports_delete. pose proof preserves_ports_delete_port. preserves_tac.
Qed.

End PreservationOps.

(** ** Stack ports *)

(** Inverts a run [H : (x <- c ;; k) v = Ret _] into the runs of [c]
    and of [k]. *)
Ltac minv H :=
  let a := fresh "a" in
  let v1 := fresh "v" in
  let H1 := fresh "Hrun" in
  apply mbind_Ret_inv in H as (a & v1 & H1 & H).

(** Replaces the variables bound by a run [H : Ret _ = Ret _] by the
    values returned. *)
Ltac inj_subst H :=
  injection H; clear H; intros;
  repeat match goal with
         | Heq : _ = ?x |- _ => is_var x; subst x
         end.

(** Simplifies the runs of the state primitives. *)
Ltac mclean :=
  repeat match goal with
         | H : gets _ _ = Ret _ |- _ => unfold gets in H; inj_subst H
         | H : mret _ _ = Ret _ |- _ => unfold mret in H; inj_subst H
         | H : modify _ _ = Ret _ |- _ => unfold modify in H; inj_subst H
         | H : put_port _ _ _ = Ret _ |- _ =>
             unfold put_port, modify in H; inj_subst H
         end.

Section StackPorts.

Context {MgrState : Type} (ext : External MgrState).
Local Abbreviation Valve := (Valve MgrState).
Local Abbreviation M := (M MgrState).

Lemma stable_low_priority (c : Z) :
  stable (fun v : Valve => low_priority (dp v) = c).
Proof. by split. Qed.

(** The flows of the loop body of [ports_add] for a stack port. *)
Lemma ports_add_port_stack_flows
    (v : Valve) (cold_start : bool) (port_num : Z) (port0 : Port)
    (peer : StackPeer) (r : list OfMsg * list VLAN) (v' : Valve) :
  port_no_valid ext (dp v) port_num = true ->
  ports (dp v) !! port_num = Some port0 ->
  running ext (set_dyn_phys_up true port0) = true ->
  coprocessor port0 = None ->
  output_only port0 = false ->
  stack port0 = Some peer ->
  ports_add_port ext cold_start port_num v = Ret (r, v') ->
  let drop_untagged :=
    flowdrop T_vlan (match_in_port_vlan port_num NullVLAN)
      (low_priority (dp v) + 1) in
  let accept :=
    flowmod T_vlan (match_in_port port_num) (low_priority (dp v))
      (accept_to_classification ext (dp v')) in
  (exists pre, r.1 = pre ++ [drop_untagged; accept]) /\
  drop_untagged ∈ r.1 /\ accept ∈ r.1 /\
  low_priority (dp v) < low_priority (dp v) + 1.
Proof.
  intros Hvalid Hport Hrun Hcop Hout Hstack H drop_untagged accept.
  assert (Hlow : low_priority (dp v') = low_priority (dp v)).
  { eapply (preserves_ports_add_port ext _ (stable_low_priority _));
      [exact H | reflexivity]. }
  assert (Hpre : exists pre, r.1 = pre ++ [drop_untagged; accept]).
  { unfold ports_add_port in H.
    minv H. mclean. rewrite Hvalid in H. cbn [negb] in H.
    minv H. unfold get_port in Hrun0. rewrite Hport in Hrun0. simplify_eq.
    minv H. mclean.
    rewrite Hrun in H. cbn [negb] in H.
    minv H. mclean. minv H. minv H. mclean.
    cbn [coprocessor output_only stack set_dyn_phys_up set_port_dyn] in H.
    rewrite Hcop in H.
    minv H. rewrite Hout in H.
    minv H. minv H. mclean.
    rewrite Hstack in H. mclean. cbn [fst].
    subst drop_untagged accept. rewrite Hlow.
    match goal with
    | |- exists pre, ?a ++ ?b ++ ?c ++ ?d ++ ?e = _ =>
        exists (a ++ b ++ c ++ d)
    end.
    by rewrite <- !app_assoc. }
  split; [exact Hpre|].
  destruct Hpre as [pre ->].
  repeat split; [| | lia].
  - apply elem_of_app. right. apply elem_of_cons. by left.
  - apply elem_of_app. right. apply elem_of_cons. right.
    apply elem_of_cons. by left.
Qed.

Lemma for_ports_app_inv (f : Z -> M (list OfMsg * list VLAN))
    (before after : list Z) (n : Z) :
  forall (v v' : Valve) (r : list OfMsg * list VLAN),
    for_ports f (before ++ n :: after) v = Ret (r, v') ->
    exists r0 w r1 w' r2,
      for_ports f before v = Ret (r0, w) /\
      f n w = Ret (r1, w') /\
      for_ports f after w' = Ret (r2, v') /\
      r.1 = r0.1 ++ r1.1 ++ r2.1.
Proof.
  induction before as [|x before IH]; intros v v' r H; simpl in H.
  - apply mbind_Ret_inv in H as (r1 & w' & H1 & H). apply mbind_Ret_inv in H as (r2 & v2 & H2 & H). mclean.
    exists ([], []), v, r1, w', r2. done.
  - apply mbind_Ret_inv in H as (rx & vx & Hx & H). apply mbind_Ret_inv in H as (rr & vr & Hr & H). mclean.
    destruct (IH _ _ _ Hr) as (r0 & w & r1 & w' & r2 & H0 & H1 & H2 & Heq).
    exists (rx.1 ++ r0.1, rx.2 ++ r0.2), w, r1, w', r2.
    split; [|split; [done|split; [done|]]].
    + simpl. rewrite (mbind_Ret _ _ _ _ _ Hx).
      rewrite (mbind_Ret _ _ _ _ _ H0). done.
    + cbn [fst]. rewrite Heq. by rewrite <- app_assoc.
Qed.

Lemma for_ports_app_run (f : Z -> M (list OfMsg * list VLAN))
    (before after : list Z) :
  forall (v w v' : Valve) (r0 r1 : list OfMsg * list VLAN),
    for_ports f before v = Ret (r0, w) ->
    for_ports f after w = Ret (r1, v') ->
    exists r, for_ports f (before ++ after) v = Ret (r, v').
Proof.
  induction before as [|x before IH]; intros v w v' r0 r1 H0 H1; simpl in *.
  - unfold mret in H0. injection H0 as _ <-. eauto.
  - apply mbind_Ret_inv in H0 as (rx & vx & Hx & H0).
    apply mbind_Ret_inv in H0 as (rr & vr & Hr & H0). mclean.
    destruct (IH _ _ _ _ _ Hr H1) as [r Hall].
    rewrite (mbind_Ret _ _ _ _ _ Hx). rewrite (mbind_Ret _ _ _ _ _ Hall).
    eexists. reflexivity.
Qed.

Lemma for_msgs_call_returns {X Y} (g : X -> MgrState -> DP -> Y -> list OfMsg * MgrState)
    (y : Y) (l : list X) (v : Valve) :
  exists ms s, for_msgs l (fun x => call (g x) y) v = Ret (ms, set_mgr s v).
Proof.
  revert v. induction l as [|x l IH]; intros v; simpl.
  - exists [], (mgr v). by destruct v.
  - unfold mbind at 1. unfold call at 1. cbn [fst snd].
    destruct (IH (set_mgr (g x (mgr v) (dp v) y).2 v)) as (ms & s & Hms).
    rewrite (mbind_Ret _ _ _ _ _ Hms). eexists _, s. reflexivity.
Qed.

Lemma for_msgs_calls_return {Y} (g : MgrState -> DP -> Y -> list OfMsg * MgrState)
    (l : list Y) (v : Valve) :
  exists ms s, for_msgs l (fun y => call g y) v = Ret (ms, set_mgr s v).
Proof.
  revert v. induction l as [|y l IH]; intros v; simpl.
  - exists [], (mgr v). by destruct v.
  - unfold mbind at 1. unfold call at 1. cbn [fst snd].
    destruct (IH (set_mgr (g (mgr v) (dp v) y).2 v)) as (ms & s & Hms).
    rewrite (mbind_Ret _ _ _ _ _ Hms). eexists _, s. reflexivity.
Qed.

(** C8 (amended).  When the turn of a stack port comes in [ports_add],
    and the port is valid, running, not a coprocessor port and not
    output-only, the messages that [ports_add] returns contain a drop
    rule for untagged (NullVLAN) traffic on the port immediately
    followed by the rule that accepts the remaining traffic of the port
    into classification, and the drop rule has the strictly higher
    priority.  When moreover the DP has no 802.1X and the port no LACP,
    the loop body returns for the port, and [ports_add] returns
    whenever the loop over the ports that follow does. *)
Theorem ports_add_stack_port_drops_untagged
    (v : Valve) (cold_start : bool) (before after : list Z) (port_num : Z)
    (port0 : Port) (peer : StackPeer) (r0 : list OfMsg * list VLAN)
    (w : Valve) :
  for_ports (ports_add_port ext cold_start) before v = Ret (r0, w) ->
  port_no_valid ext (dp w) port_num = true ->
  ports (dp w) !! port_num = Some port0 ->
  running ext (set_dyn_phys_up true port0) = true ->
  coprocessor port0 = None ->
  output_only port0 = false ->
  stack port0 = Some peer ->
  let drop_untagged :=
    flowdrop T_vlan (match_in_port_vlan port_num NullVLAN)
      (low_priority (dp v) + 1) in
  (forall ms v',
     ports_add ext (before ++ port_num :: after) cold_start v = Ret (ms, v') ->
     exists pre post r1 w',
       ports_add_port ext cold_start port_num w = Ret (r1, w') /\
       ms = pre ++ [drop_untagged;
                    flowmod T_vlan (match_in_port port_num)
                      (low_priority (dp v))
                      (accept_to_classification ext (dp w'))] ++ post /\
       low_priority (dp v) < low_priority (dp v) + 1) /\
  (dp_dot1x (dp w) = None -> lacp port0 = 0 ->
   exists r1 w',
     ports_add_port ext cold_start port_num w = Ret (r1, w') /\
     forall r2 w2,
       for_ports (ports_add_port ext cold_start) after w' = Ret (r2, w2) ->
       exists ms v',
         ports_add ext (before ++ port_num :: after) cold_start v
           = Ret (ms, v')).
Proof.
  intros Hbefore Hvalid Hport Hrun Hcop Hout Hstack drop_untagged.
  assert (Hlow : low_priority (dp w) = low_priority (dp v)).
  { eapply (preserves_for_ports _ _ before
              (fun n => preserves_ports_add_port ext _
                          (stable_low_priority _) cold_start n));
      [exact Hbefore | reflexivity]. }
  split.
  - intros ms v' H. unfold ports_add in H.
    apply mbind_Ret_inv in H as (r & vr & Hr & H). apply mbind_Ret_inv in H as (tail & vt & Ht & H). mclean.
    destruct (for_ports_app_inv _ _ _ _ _ _ _ Hr)
      as (r0' & w0 & r1 & w' & r2 & H0 & H1 & H2 & Heq).
    assert (w0 = w) by congruence. subst w0.
    destruct (ports_add_port_stack_flows w cold_start port_num port0 peer
                r1 w' Hvalid Hport Hrun Hcop Hout Hstack H1)
      as ([pre Hpre] & _).
    exists (r0'.1 ++ pre), (r2.1 ++ tail), r1, w'.
    split; [exact H1|]. split; [|lia].
    rewrite Heq, Hpre. subst drop_untagged. rewrite Hlow.
    by rewrite <- !app_assoc.
  - intros Hdot Hlacp.
    assert (Hbody : exists r1 w',
              ports_add_port ext cold_start port_num w = Ret (r1, w')).
    { unfold ports_add_port. unfold mbind at 1. unfold gets at 1.
      rewrite Hvalid. cbn [negb].
      unfold mbind at 1. unfold get_port at 1. rewrite Hport.
      unfold mbind at 1. unfold put_port at 1, modify at 1.
      set (v1 := set_dp (set_ports (<[port_num := set_dyn_phys_up true port0]>
                                      (ports (dp w))) (dp w)) w).
      rewrite Hrun. cbn [negb].
      unfold mbind at 1. unfold gets at 1.
      destruct (for_msgs_call_returns (add_port ext)
                  (set_dyn_phys_up true port0) (_get_managers v1) v1)
        as (ms_mgr & s0 & Hms).
      rewrite (mbind_Ret _ _ _ _ _ Hms). clear Hms. subst v1.
      unfold mbind at 1. unfold gets at 1.
      cbn [coprocessor output_only stack lacp set_dyn_phys_up set_port_dyn].
      rewrite Hcop. cbn [dp set_mgr set_dp set_ports set_dp_dyn dp_dot1x].
      rewrite Hdot. unfold mbind at 1. unfold mret at 1.
      rewrite Hout, Hlacp. cbn [truthyZ Z.eqb negb].
      unfold mbind at 1. unfold mret at 1.
      unfold mbind at 1. unfold gets at 1.
      rewrite Hstack. eexists _, _. reflexivity. }
    destruct Hbody as (r1 & w' & Hbody). exists r1, w'.
    split; [exact Hbody|]. intros r2 w2 Hafter.
    assert (Hcons : for_ports (ports_add_port ext cold_start)
                      (port_num :: after) w
                    = Ret ((r1.1 ++ r2.1, r1.2 ++ r2.2), w2)).
    { cbn [for_ports]. rewrite (mbind_Ret _ _ _ _ _ Hbody).
      rewrite (mbind_Ret _ _ _ _ _ Hafter). reflexivity. }
    destruct (for_ports_app_run _ _ _ _ _ _ _ _ Hbefore Hcons) as [r Hall].
    unfold ports_add. rewrite (mbind_Ret _ _ _ _ _ Hall). cbn [fst snd].
    destruct cold_start; cbn [negb].
    + eexists _, _. reflexivity.
    + destruct (for_msgs_calls_return (add_vlan ext flood_manager)
                  (remove_dups r.2) w2) as (ms & s0 & Hms).
      rewrite (mbind_Ret _ _ _ _ _ Hms). eexists _, _. reflexivity.
Qed.

End StackPorts.

(** ** Configuration reload *)

Tactic Notation "minv" hyp(H) "as" ident(a) ident(v1) ident(H1) :=
  apply mbind_Ret_inv in H as (a & v1 & H1 & H).

Section Reload.

Context {MgrState : Type} (ext : External MgrState).
Local Abbreviation Valve := (Valve MgrState).
Local Abbreviation M := (M MgrState).

Lemma mmap_get_vlan_state (vids : list Z) (v v' : Valve) (vl : list VLAN) :
  mmap get_vlan vids v = Ret (vl, v') -> v' = v.
Proof.
  revert vl v'. induction vids as [|x l IH]; intros vl v' H; simpl in H.
  - mclean. done.
  - minv H as y vy Hy. unfold get_vlan in Hy.
    destruct (vlans (dp v) !! x); [|done]. inj_subst Hy.
    minv H as ys vz Hz. mclean. eauto.
Qed.

Lemma ports_delete_nil (v : Valve) : ports_delete ext [] v = Ret ([], v).
Proof. reflexivity. Qed.

Lemma ports_add_nil (v : Valve) : ports_add ext [] false v = Ret ([], v).
Proof. reflexivity. Qed.

Lemma stable_dyn_running (b : bool) :
  stable (fun v : Valve => dyn_running (dp v) = b).
Proof. by split. Qed.

Lemma preserves_modify (P : Valve -> Prop) (f : Valve -> Valve) :
  (forall v, P v -> P (f v)) -> preserves P (modify f).
Proof. intros Hf v a v' H HP. mclean. eauto. Qed.

Lemma preserves_add_vlans (P : Valve -> Prop) (vs : list VLAN) :
  stable P -> preserves P (_add_vlans ext vs).
Proof.
  intros HS. unfold _add_vlans, _add_vlan. preserves_tac.
  apply preserves_modify. intros v0. apply stable_mgr. done.
Qed.

Lemma dp_init_Ret (new_dp : DP) (v : Valve) :
  exists v', dp_init ext (Some new_dp) v = Ret (tt, v') /\
             dp v' = clone_dyn_state new_dp (dp v) /\
             acl_manager_set v' = has_acls new_dp /\
             notifier v' = notifier v /\ metrics v' = metrics v.
Proof. eexists. split; [reflexivity|]. done. Qed.

(** The warm path leaves the running flag as it was. *)
Lemma apply_config_changes_warm_running (new_dp : DP) (changes : Changes)
    (b : bool) :
  preserves (fun v : Valve => dyn_running (dp v) = b)
    (_apply_config_changes_warm ext new_dp changes).
Proof.
  pose proof (stable_dyn_running b) as HS.
  unfold _apply_config_changes_warm.
  repeat first
    [ apply preserves_ports_delete; exact HS
    | apply preserves_ports_add; exact HS
    | apply preserves_add_vlans; exact HS
    | (apply preserves_modify; intros v0 Hv0; exact Hv0)
    | progress unfold reinstall_acl
    | preserves_step ].
Qed.

(** C4.  On a warm reload (no pipeline change, not all ports changed)
    the messages are, in this order: those deleting the removed ports,
    those deleting the removed VLANs, those deleting the changed ports;
    then the new DP is swapped in with the dynamic state of the outgoing
    DP cloned into it; then the messages deleting and re-adding the
    changed VLANs, those re-adding the changed ports that were up before
    the swap, and those reinstalling the ACLs of the changed-ACL ports. *)
Theorem apply_config_changes_warm_order
    (v : Valve) (new_dp : DP) (changes : Changes)
    (cold_start : bool) (ofmsgs : list OfMsg) (v' : Valve) :
  _pipeline_change ext v = Ret false ->
  all_ports_changed changes = false ->
  _apply_config_changes ext new_dp changes v = Ret ((cold_start, ofmsgs), v') ->
  cold_start = false /\
  exists m1 v1 deleted_vlans m3 v3 v_swap changed_vlans m4 v4 m5 v5 m6,
    ports_delete ext (deleted_ports changes) v = Ret (m1, v1) /\
    mmap get_vlan (deleted_vids changes) v1 = Ret (deleted_vlans, v1) /\
    ports_delete ext (changed_ports changes) v1 = Ret (m3, v3) /\
    dp_init ext (Some new_dp) v3 = Ret (tt, v_swap) /\
    dp v_swap = clone_dyn_state new_dp (dp v3) /\
    mmap get_vlan (changed_vids changes) v_swap = Ret (changed_vlans, v_swap) /\
    _add_vlans ext changed_vlans v_swap = Ret (m4, v4) /\
    ports_add ext
      (filter (fun n => n ∈ dyn_up_port_nos (dp v)) (changed_ports changes))
      false v4 = Ret (m5, v5) /\
    (if acl_manager_set v5
     then for_msgs (changed_acl_ports changes) (reinstall_acl ext) v5
          = Ret (m6, v')
     else m6 = [] /\ v' = v5) /\
    ofmsgs =
      m1 ++ _del_vlans deleted_vlans ++ m3
      ++ (_del_vlans changed_vlans ++ m4) ++ m5 ++ m6.
Proof.
  intros Hpipe Hall H.
  unfold _apply_config_changes in H.
  minv H as pc vp Hp. unfold lift in Hp. rewrite Hpipe in Hp. inj_subst Hp.
  cbv iota in H. rewrite Hall in H. cbv iota in H.
  minv H as ms vw Hw. mclean. split; [reflexivity|].
  unfold _apply_config_changes_warm in Hw.
  minv Hw as up vu Hu. mclean.
  (* delete removed ports *)
  minv Hw as m1 v1 Hd.
  assert (H1 : ports_delete ext (deleted_ports changes) v = Ret (m1, v1)).
  { destruct (deleted_ports changes); cbn [is_nil negb] in Hd;
      [by mclean | exact Hd]. }
  clear Hd.
  (* delete removed VLANs *)
  minv Hw as m2 v2 Hd.
  assert (H2 : exists vl, mmap get_vlan (deleted_vids changes) v1 = Ret (vl, v1)
                          /\ v2 = v1 /\ m2 = _del_vlans vl).
  { destruct (deleted_vids changes) eqn:E; cbn [is_nil negb] in Hd.
    - mclean. exists []. done.
    - cbn [is_nil negb] in Hd. minv Hd as vl vv Hl. mclean.
      pose proof (mmap_get_vlan_state _ _ _ _ Hl) as ->. eauto. }
  destruct H2 as (deleted_vlans & H2 & -> & ->). clear Hd.
  (* delete changed ports *)
  minv Hw as m3 v3 Hd.
  assert (H3 : ports_delete ext (changed_ports changes) v1 = Ret (m3, v3)).
  { destruct (changed_ports changes); cbn [is_nil negb] in Hd;
      [by mclean | exact Hd]. }
  clear Hd.
  (* swap *)
  minv Hw as u vs Hs. destruct u.
  destruct (dp_init_Ret new_dp v3) as (vs' & Hs' & Hdp & _).
  assert (vs' = vs) by congruence. subst vs'.
  (* changed VLANs *)
  minv Hw as m4 v4 Hd.
  assert (H4 : exists vl m4',
             mmap get_vlan (changed_vids changes) vs = Ret (vl, vs) /\
             _add_vlans ext vl vs = Ret (m4', v4) /\
             m4 = _del_vlans vl ++ m4').
  { destruct (changed_vids changes) eqn:E; cbn [is_nil negb] in Hd.
    - mclean. exists [], []. done.
    - cbn [is_nil negb] in Hd. minv Hd as vl vv Hl. minv Hd as ma va Ha.
      mclean.
      pose proof (mmap_get_vlan_state _ _ _ _ Hl) as ->. eauto. }
  destruct H4 as (changed_vlans & m4' & H4 & H4' & ->). clear Hd.
  (* changed ports that were up *)
  minv Hw as m5 v5 Hd.
  assert (H5 : ports_add ext
                 (filter (fun n => n ∈ dyn_up_port_nos (dp v))
                    (changed_ports changes)) false v4 = Ret (m5, v5)).
  { destruct (changed_ports changes); cbn [is_nil negb] in Hd;
      [by mclean | exact Hd]. }
  clear Hd.
  (* ACLs *)
  minv Hw as acl va Ha. mclean. minv Hw as m6 v6 Hd. mclean.
  exists m1, v1, deleted_vlans, m3, v3, vs, changed_vlans, m4', v4, m5, v5, m6.
  repeat (split; [done|]).
  split; [|done].
  destruct (acl_manager_set v5); cbn [andb] in Hd.
  - destruct (changed_acl_ports changes); cbn [is_nil negb] in Hd;
      [by mclean | exact Hd].
  - by mclean.
Qed.

Lemma apply_config_changes_cold (v : Valve) (new_dp : DP) (changes : Changes)
    (pipeline_changed : bool) :
  _pipeline_change ext v = Ret pipeline_changed ->
  pipeline_changed || all_ports_changed changes = true ->
  exists v1,
    _apply_config_changes ext new_dp changes v = Ret ((true, []), v1) /\
    dp_init ext (Some new_dp) v = Ret (tt, v1).
Proof.
  intros Hpipe Hcold.
  unfold _apply_config_changes, mbind at 1, lift. rewrite Hpipe.
  destruct pipeline_changed; [eexists; split; reflexivity|].
  cbn [orb] in Hcold. rewrite Hcold. eexists; split; reflexivity.
Qed.

(** C3.  [reload_config] performs a cold start exactly when the pipeline
    changed or all ports changed; it then returns [None] as the message
    list if the datapath is running.  Otherwise, when the datapath is
    not running or the warm path produced no messages, it returns the
    empty list and notifies CONFIG_CHANGE with restart type null; and
    when the datapath is running and the warm path produced messages,
    it returns them and the restart type is warm. *)
Theorem reload_config_restart_type
    (v : Valve) (now : Q) (new_dp : DP) (pipeline_changed : bool) :
  _pipeline_change ext v = Ret pipeline_changed ->
  let changes := get_config_changes ext (dp v) new_dp in
  let cold_start := pipeline_changed || all_ports_changed changes in
  let running := dyn_running (dp v) in
  (forall cs ms v1,
     _apply_config_changes ext new_dp changes v = Ret ((cs, ms), v1) ->
     cs = cold_start) /\
  (cold_start = true ->
   exists v',
     reload_config ext now new_dp v
       = Ret (if running then None else Some [], v') /\
     last (notifier v') = Some (CONFIG_CHANGE (Some cold))) /\
  (cold_start = false ->
   forall ofmsgs v1,
     _apply_config_changes_warm ext new_dp changes v = Ret (ofmsgs, v1) ->
     exists v',
       reload_config ext now new_dp v
         = Ret (Some (if running && negb (is_nil ofmsgs) then ofmsgs else []),
                v') /\
       last (notifier v')
         = Some (CONFIG_CHANGE
                   (if running && negb (is_nil ofmsgs)
                    then Some warm else None))).
Proof.
  intros Hpipe changes cold_start running.
  split; [|split].
  - intros cs ms v1 H. subst cold_start.
    destruct (pipeline_changed || all_ports_changed changes) eqn:Hcold.
    + destruct (apply_config_changes_cold v new_dp changes _ Hpipe Hcold)
        as (v2 & H2 & _).
      congruence.
    + apply orb_false_iff in Hcold as [-> Hall].
      by destruct (apply_config_changes_warm_order _ _ _ _ _ _ Hpipe Hall H).
  - intros Hcold.
    destruct (apply_config_changes_cold v new_dp changes _ Hpipe Hcold)
      as (v1 & H1 & Hinit).
    destruct (dp_init_Ret new_dp v) as (v1' & Hinit' & Hdp & _).
    assert (v1' = v1) by congruence. subst v1'.
    assert (Hrun : dyn_running (dp v1) = running) by (by rewrite Hdp).
    unfold reload_config.
    unfold mbind at 1, gets at 1. fold changes.
    rewrite (mbind_Ret _ _ _ _ _ H1).
    unfold mbind at 1, gets at 1. rewrite Hrun. cbn [fst snd].
    unfold _inc_var, _notify, mbind, modify, mret.
    eexists. split; [reflexivity|].
    cbn [notifier add_event add_metric]. apply last_snoc.
  - intros Hcold ofmsgs v1 Hw.
    apply orb_false_iff in Hcold as [-> Hall].
    assert (H1 : _apply_config_changes ext new_dp changes v
                 = Ret ((false, ofmsgs), v1)).
    { unfold _apply_config_changes, mbind at 1, lift. rewrite Hpipe, Hall.
      by rewrite (mbind_Ret _ _ _ _ _ Hw). }
    assert (Hrun : dyn_running (dp v1) = running).
    { eapply (apply_config_changes_warm_running new_dp changes running);
        [exact Hw | reflexivity]. }
    unfold reload_config.
    unfold mbind at 1, gets at 1. fold changes.
    rewrite (mbind_Ret _ _ _ _ _ H1).
    unfold mbind at 1, gets at 1. rewrite Hrun. cbn [fst snd].
    destruct (running && negb (is_nil ofmsgs));
      unfold _inc_var, _notify, mbind, modify, mret;
      (eexists; split; [reflexivity|]);
      cbn [notifier add_event add_metric]; apply last_snoc.
Qed.

End Reload.

(** ** Instances on the example datapath *)

Import Example.

(** C1 (counterexample).  The table row "stack_correct is false and the
    port is not DOWN" does not give DOWN while no probe was ever seen: a
    port in state INIT stays in INIT.  And the timeout row does not give
    DOWN at the instant a probe is received, when [max_lldp_lost] is 0. *)
Lemma next_stack_link_state_claim_counterexample :
  ~ (forall (port : Port) (now : Q),
       is_stack_admin_down port = false ->
       truthy_obool (stack_correct (dyn_stack_probe_info port)) = false ->
       is_stack_down port = false ->
       _next_stack_link_state port now = Ret (Some STACK_STATE_DOWN)) /\
  ~ (forall (port : Port) (now t : Q) (remote_dp : StackPeer),
       is_stack_admin_down port = false ->
       stack port = Some remote_dp ->
       last_seen_lldp_time (dyn_stack_probe_info port) = Some t ->
       (inject_Z (max_lldp_lost port)
        <= (now - t) / inject_Z (lldp_send_interval remote_dp))%Q ->
       is_stack_down port = false ->
       _next_stack_link_state port now = Ret (Some STACK_STATE_DOWN)).
Proof.
  split.
  - intros H.
    specialize (H (stack_port 3 5 3 STACK_STATE_INIT no_probe) 10%Q
                  eq_refl eq_refl eq_refl).
    vm_compute in H. discriminate.
  - intros H.
    specialize (H (stack_port 3 5 0 STACK_STATE_UP
                     (mkProbeInfo (Some 10%Q) (Some true)))
                  10%Q 10%Q (mkStackPeer 2 1 (Some 5) 5)
                  eq_refl eq_refl eq_refl).
    assert (Hle : (inject_Z 0 <= (10 - 10) / inject_Z 5)%Q)
      by (vm_compute; discriminate).
    specialize (H Hle eq_refl).
    vm_compute in H. discriminate.
Qed.

Lemma next_stack_link_state_table_witness :
  let port := stack_port 3 5 3 STACK_STATE_UP
                (mkProbeInfo (Some 0%Q) (Some true)) in
  is_stack_admin_down port = false /\
  stack port = Some (mkStackPeer 2 1 (Some 5) 5) /\
  lldp_send_interval (mkStackPeer 2 1 (Some 5) 5) <> 0 /\
  exists next, _next_stack_link_state port 20%Q = Ret next /\
               next <> Some STACK_STATE_ADMIN_DOWN.
Proof.
  intros port.
  assert (H1 : is_stack_admin_down port = false) by reflexivity.
  assert (H2 : stack port = Some (mkStackPeer 2 1 (Some 5) 5)) by reflexivity.
  assert (H3 : lldp_send_interval (mkStackPeer 2 1 (Some 5) 5) <> 0)
    by (vm_compute; discriminate).
  split; [exact H1|]. split; [exact H2|]. split; [exact H3|].
  destruct (next_stack_link_state_table port 20%Q _ H1 H2 H3)
    as (next & Hn & _ & _ & _ & Hadm & _).
  exists next. split; assumption.
Defined.





Lemma parse_pkt_meta_not_running_witness :
  let v0 := valve_of_dp (dp_of [(1, access_port 1 true)] true [1]) in
  let v := after datapath_disconnect v0 in
  (dyn_running (dp v) = false \/
   exists v0, datapath_disconnect v0 = Ret (tt, v)) /\
  parse_pkt_meta ext0 v (packet_in 1 1 ip_frame) = Ret None.
Proof.
  intros v0 v.
  assert (H : dyn_running (dp v) = false \/
              exists v0, datapath_disconnect v0 = Ret (tt, v)).
  { right. exists v0. reflexivity. }
  split; [exact H|].
  apply (parse_pkt_meta_not_running ext0 v _ H).
Defined.

Lemma port_status_handler_flap_witness :
  let v := valve_of_dp (dp_of [(1, access_port 1 true)] true [1]) in
  let port := access_port 1 true in
  2 = OFPPR_MODIFY ext0 /\
  port_status_from_state ext0 0 = true /\
  port_no_valid ext0
    (set_dyn_up_port_nos ({[1]} ∪ dyn_up_port_nos (dp v)) (dp v)) 1 = true /\
  ports (dp v) !! 1 = Some port /\
  opstatus_reconf port = true /\
  dyn_phys_up port = true /\
  exists v1,
    port_status_prologue ext0 1 2 0 v = Ret (tt, v1) /\
    port_status_handler ext0 1 2 0 v =
      (a <- port_delete ext0 1 ;;
       b <- port_add ext0 1 ;;
       mret (Some (a ++ b))) v1.
Proof.
  intros v port.
  assert (H1 : 2 = OFPPR_MODIFY ext0) by reflexivity.
  assert (H2 : port_status_from_state ext0 0 = true) by reflexivity.
  assert (H3 : port_no_valid ext0
                 (set_dyn_up_port_nos ({[1]} ∪ dyn_up_port_nos (dp v)) (dp v))
                 1 = true) by reflexivity.
  assert (H4 : ports (dp v) !! 1 = Some port) by reflexivity.
  assert (H5 : opstatus_reconf port = true) by reflexivity.
  assert (H6 : dyn_phys_up port = true) by reflexivity.
  split; [exact H1|]. split; [exact H2|]. split; [exact H3|].
  split; [exact H4|]. split; [exact H5|]. split; [exact H6|].
  destruct (port_status_handler_flap ext0 v 1 2 0 port H1 H2 H3 H4 H5 H6)
    as (v1 & Hpro & Heq & _).
  exists v1. split; assumption.
Defined.

Lemma ports_add_stack_port_drops_untagged_witness :
  let probe := mkProbeInfo (Some 0%Q) (Some true) in
  let port0 := stack_port 3 5 3 STACK_STATE_UP probe in
  let v := valve_of_dp (dp_full [(3, port0)] true false 0 true [3]) in
  for_ports (ports_add_port ext0 false) [] v = Ret (([], []), v) /\
  port_no_valid ext0 (dp v) 3 = true /\
  ports (dp v) !! 3 = Some port0 /\
  running ext0 (set_dyn_phys_up true port0) = true /\
  coprocessor port0 = None /\
  output_only port0 = false /\
  stack port0 = Some (mkStackPeer 2 1 (Some 5) 5) /\
  dp_dot1x (dp v) = None /\
  lacp port0 = 0 /\
  exists ms v' pre post,
    ports_add ext0 [3] false v = Ret (ms, v') /\
    ms = pre ++ [flowdrop T_vlan (match_in_port_vlan 3 NullVLAN) 9001;
                 flowmod T_vlan (match_in_port 3) 9000 [goto T_eth_src]]
             ++ post.
Proof.
  intros probe port0 v.
  assert (H0 : for_ports (ports_add_port ext0 false) [] v = Ret (([], []), v))
    by reflexivity.
  assert (H1 : port_no_valid ext0 (dp v) 3 = true) by reflexivity.
  assert (H2 : ports (dp v) !! 3 = Some port0) by reflexivity.
  assert (H3 : running ext0 (set_dyn_phys_up true port0) = true) by reflexivity.
  assert (H4 : coprocessor port0 = None) by reflexivity.
  assert (H5 : output_only port0 = false) by reflexivity.
  assert (H6 : stack port0 = Some (mkStackPeer 2 1 (Some 5) 5)) by reflexivity.
  assert (H7 : dp_dot1x (dp v) = None) by reflexivity.
  assert (H8 : lacp port0 = 0) by reflexivity.
  split; [exact H0|]. split; [exact H1|]. split; [exact H2|].
  split; [exact H3|]. split; [exact H4|]. split; [exact H5|].
  split; [exact H6|]. split; [exact H7|]. split; [exact H8|].
  pose proof (ports_add_stack_port_drops_untagged ext0 v false [] [] 3 port0
                _ ([], []) v H0 H1 H2 H3 H4 H5 H6) as H.
  cbv zeta in H. destruct H as [Hin Hret].
  destruct (Hret H7 H8) as (r1 & w' & _ & Hall).
  destruct (Hall ([], []) w' eq_refl) as (ms & v' & Hrun).
  destruct (Hin ms v' Hrun) as (pre & post & r1' & w1 & _ & Heq & _).
  exists ms, v', pre, post. split; [exact Hrun | exact Heq].
Defined.

(** C8 (counterexample).  A valid, running stack port that is also a
    coprocessor port is processed by [ports_add], which returns for it
    the managers' flows and the coprocessor flows and then continues
    with the next port: no rule for untagged (NullVLAN) traffic on the
    port is among the messages, at any priority. *)
Lemma ports_add_claim_counterexample :
  ~ (forall (v : Valve nat) (cold_start : bool) (port_num : Z) (port0 : Port)
            (peer : StackPeer) (ms : list OfMsg) (v' : Valve nat),
       port_no_valid ext0 (dp v) port_num = true ->
       ports (dp v) !! port_num = Some port0 ->
       running ext0 (set_dyn_phys_up true port0) = true ->
       stack port0 = Some peer ->
       ports_add ext0 [port_num] cold_start v = Ret (ms, v') ->
       exists prio,
         flowdrop T_vlan (match_in_port_vlan port_num NullVLAN) prio ∈ ms).
Proof.
  intros H.
  pose (port0 := mkPort 3 true false (Some 1000) false false 0 false [] 1
                   (Some (mkStackPeer 2 1 (Some 5) 5)) 3 [] None false
                   true 0 None None None STACK_STATE_UP no_probe None).
  pose (v := valve_of_dp (dp_full [(3, port0)] true false 0 true [3])).
  destruct (ports_add ext0 [3] true v) as [[ms v']|e] eqn:Erun;
    [|vm_compute in Erun; discriminate].
  destruct (H v true 3 port0 (mkStackPeer 2 1 (Some 5) 5) ms v'
              eq_refl eq_refl eq_refl eq_refl Erun) as [prio Hin].
  vm_compute in Erun. injection Erun as <- _.
  repeat (apply elem_of_cons in Hin as [Hin|Hin]; [discriminate Hin|]).
  by apply elem_of_nil in Hin.
Qed.

Lemma apply_config_changes_warm_order_witness :
  let v := valve_of_dp
             (dp_of [(1, access_port 1 true); (2, access_port 2 true)]
                true [1; 2]) in
  let new_dp := dp_of [(1, access_port 1 false)] false [] in
  let changes := mkChanges [2] [1] [] [] [0x100] false in
  let run := _apply_config_changes ext0 new_dp changes v in
  _pipeline_change ext0 v = Ret false /\
  all_ports_changed changes = false /\
  exists cold_start ofmsgs v',
    run = Ret ((cold_start, ofmsgs), v') /\
    cold_start = false /\
    exists m1 v1 rest,
      ports_delete ext0 (deleted_ports changes) v = Ret (m1, v1) /\
      ofmsgs = m1 ++ rest.
Proof.
  intros v new_dp changes run.
  assert (H1 : _pipeline_change ext0 v = Ret false) by reflexivity.
  assert (H2 : all_ports_changed changes = false) by reflexivity.
  split; [exact H1|]. split; [exact H2|].
  destruct run as [[[cs ms] v']|e] eqn:Erun; [|vm_compute in Erun; discriminate].
  exists cs, ms, v'. split; [reflexivity|].
  destruct (apply_config_changes_warm_order ext0 v new_dp changes cs ms v'
              H1 H2 Erun)
    as (Hcs & m1 & v1 & dv & m3 & v3 & vs & cv & m4 & v4 & m5 & v5 & m6
        & Hd & _ & _ & _ & _ & _ & _ & _ & _ & Heq).
  split; [exact Hcs|].
  exists m1, v1, (_del_vlans dv ++ m3 ++ (_del_vlans cv ++ m4) ++ m5 ++ m6).
  split; [exact Hd | exact Heq].
Defined.

Lemma reload_config_restart_type_witness :
  let v := valve_of_dp
             (dp_of [(1, access_port 1 true); (2, access_port 2 true)]
                true [1; 2]) in
  let new_dp := dp_of [(1, access_port 1 true)] false [] in
  _pipeline_change ext0 v = Ret false /\
  exists ofmsgs v',
    reload_config ext0 0%Q new_dp v = Ret (Some ofmsgs, v') /\
    last (notifier v') = Some (CONFIG_CHANGE (Some warm)).
Proof.
  intros v new_dp.
  assert (H1 : _pipeline_change ext0 v = Ret false) by reflexivity.
  split; [exact H1|].
  destruct (_apply_config_changes_warm ext0 new_dp
              (get_config_changes ext0 (dp v) new_dp) v)
    as [[ms v1]|e] eqn:Ew; [|vm_compute in Ew; discriminate].
  destruct (reload_config_restart_type ext0 v 0%Q new_dp false H1)
    as (_ & _ & Hwarm).
  destruct (Hwarm eq_refl ms v1 Ew) as (v' & Hr & Hn).
  assert (Hms : dyn_running (dp v) && negb (is_nil ms) = true).
  { vm_compute in Ew. injection Ew as <- _. reflexivity. }
  rewrite Hms in Hr, Hn.
  exists ms, v'. split; [exact Hr | exact Hn].
Defined.



(** * Further properties of the Valve *)

Section Runs.

Context {MgrState : Type} (ext : External MgrState).
Local Abbreviation Valve := (Valve MgrState).
Local Abbreviation M := (M MgrState).

Lemma mgr_only_mret {A} (a : A) : mgr_only (mret a : M A).
Proof. intros v. exists a, (mgr v). by destruct v. Qed.

Lemma mgr_only_gets {A} (f : Valve -> A) :
  (forall v s, f (set_mgr s v) = f v) -> mgr_only (gets f).
Proof. intros Hf v. exists (f v), (mgr v). by destruct v. Qed.

Lemma mgr_only_call {X} (f : MgrState -> DP -> X -> list OfMsg * MgrState) x :
  mgr_only (call f x).
Proof. intros v. eexists _, _. reflexivity. Qed.

Lemma mgr_only_bind {A B} (c : M A) (k : A -> M B) :
  mgr_only c -> (forall a, mgr_only (k a)) -> mgr_only (mbind c k).
Proof.
  intros Hc Hk v. destruct (Hc v) as (a & s & Ha).
  destruct (Hk a (set_mgr s v)) as (b & s' & Hb).
  exists b, s'. unfold mbind. rewrite Ha, Hb. reflexivity.
Qed.

Lemma mgr_only_for_msgs {X} (l : list X) (f : X -> M (list OfMsg)) :
  (forall x, mgr_only (f x)) -> mgr_only (for_msgs l f).
Proof.
  intros Hf. induction l as [|x l IH]; simpl.
  - apply mgr_only_mret.
  - apply mgr_only_bind; [apply Hf|]. intros ms.
    apply mgr_only_bind; [apply IH|]. intros ms'. apply mgr_only_mret.
Qed.

Lemma get_port_run (v : Valve) (n : Z) (p : Port) :
  ports (dp v) !! n = Some p -> get_port n v = Ret (p, v).
Proof. unfold get_port. by intros ->. Qed.

Lemma get_port_raise (v : Valve) (n : Z) :
  ports (dp v) !! n = None -> get_port n v = Raise KeyError.
Proof. unfold get_port. by intros ->. Qed.

Lemma lacp_down_state_msgs_mgr_only port : mgr_only (lacp_down_state_msgs ext port).
Proof.
  unfold lacp_down_state_msgs.
  apply mgr_only_bind; [apply mgr_only_call|]. intros a.
  apply mgr_only_bind; [|intros b; apply mgr_only_mret].
  apply mgr_only_for_msgs. intros x. apply mgr_only_call.
Qed.

(** A complete description of a run of [lacp_down] on a configured port. *)
Lemma lacp_down_run (v : Valve) (n : Z) (cold_start : bool) (p : Port) :
  ports (dp v) !! n = Some p ->
  exists ms s,
    (if cold_start then mret []
     else lacp_down_state_msgs ext (lacp_reset p)) (with_port n (lacp_reset p) v)
      = Ret (ms, set_mgr s (with_port n (lacp_reset p) v)) /\
    lacp_down ext n cold_start v
      = Ret (ms ++ [flowdrop T_vlan (match_in_port (number p))
                      (high_priority (dp v));
                    vlan_table_lacp_punt ext (dp v) (number p)],
             add_metric (set_var "port_lacp_status" (Some (number p)) 0)
               (set_mgr s (with_port n (lacp_reset p) v))).
Proof.
  intros Hp.
  assert (Hm : mgr_only (if cold_start then mret []
                         else lacp_down_state_msgs ext (lacp_reset p))).
  { destruct cold_start; [apply mgr_only_mret|apply lacp_down_state_msgs_mgr_only]. }
  destruct (Hm (with_port n (lacp_reset p) v)) as (ms & s & Hms).
  exists ms, s. split; [exact Hms|].
  unfold lacp_down. rewrite (mbind_Ret _ _ _ _ _ (get_port_run _ _ _ Hp)).
  fold (lacp_reset p).
  unfold mbind at 1. unfold put_port at 1, modify at 1.
  fold (with_port n (lacp_reset p) v).
  assert (Hms' : (if negb cold_start then
                    a <- call (del_port ext host_manager) (lacp_reset p) ;;
                    b <- for_msgs (port_vlans ext (lacp_reset p))
                           (fun vlan => call (add_vlan ext flood_manager) vlan) ;;
                    mret (a ++ b)
                  else mret []) (with_port n (lacp_reset p) v)
                 = Ret (ms, set_mgr s (with_port n (lacp_reset p) v))).
  { destruct cold_start; exact Hms. }
  rewrite (mbind_Ret _ _ _ _ _ Hms').
  reflexivity.
Qed.

Lemma lacp_up_run (v : Valve) (n : Z) (p : Port) :
  ports (dp v) !! n = Some p ->
  let p1 := set_dyn_lacp_up 1 p in
  let v1 := with_port n p1 v in
  exists ms s,
    lacp_up ext n v
      = Ret (ms, add_metric (set_var "port_lacp_status" (Some (number p)) 1)
                   (set_mgr s v1)) /\
    (if lacp_forwarding ext (dp v1) p1
     then exists b, ms = flowdel T_vlan (match_in_port (number p))
                           (Some (high_priority (dp v))) true :: b
     else ms = [] /\ s = mgr v).
Proof.
  intros Hp p1 v1.
  unfold lacp_up. rewrite (mbind_Ret _ _ _ _ _ (get_port_run _ _ _ Hp)).
  fold p1. unfold mbind at 1. unfold put_port at 1, modify at 1.
  fold (with_port n p1 v). fold v1.
  unfold mbind at 1. unfold gets at 1.
  destruct (lacp_forwarding ext (dp v1) p1).
  - assert (Hm : mgr_only (for_msgs (port_vlans ext p1)
                   (fun vlan => call (add_vlan ext flood_manager) vlan))).
    { apply mgr_only_for_msgs. intros x. apply mgr_only_call. }
    destruct (Hm v1) as (b & s & Hb).
    exists (flowdel T_vlan (match_in_port (number p))
              (Some (high_priority (dp v))) true :: b), s.
    split; [|eauto].
    unfold mbind at 1. unfold mbind at 1. rewrite Hb. reflexivity.
  - exists [], (mgr v). split; [|done].
    unfold mbind, mret, _reset_lacp_status, _set_var, modify. simpl.
    by destruct v.
Qed.

(** When every passthrough peer is a port of the DP, the loop of
    [_lacp_actions] returns whether one of them has its LACP link down. *)
Lemma passthrough_peer_down_total (ps : gmap Z Port) (peers : list Z) :
  Forall (fun peer => is_Some (ps !! peer)) peers ->
  exists b, passthrough_peer_down ps peers = Ret b /\
            (b = true <->
             exists peer q, peer ∈ peers /\ ps !! peer = Some q /\
                            truthyZ (dyn_lacp_up q) = false).
Proof.
  induction 1 as [|peer peers [q Hq] _ IH]; simpl.
  - exists false. split; [done|]. split; [done|].
    intros (peer & q & Hin & _). by apply elem_of_nil in Hin.
  - rewrite Hq. destruct (truthyZ (dyn_lacp_up q)) eqn:Eq; simpl.
    + destruct IH as (b & Hb & Hiff). exists b. split; [done|].
      rewrite Hiff. split.
      * intros (peer' & q' & Hin & Hq' & Hd). exists peer', q'.
        split; [by apply elem_of_cons; right | done].
      * intros (peer' & q' & Hin & Hq' & Hd).
        apply elem_of_cons in Hin as [->|Hin]; [congruence|eauto].
    + exists true. split; [done|]. split; [|done].
      intros _. exists peer, q. split; [by apply elem_of_cons; left | done].
Qed.

(** An unknown passthrough peer makes the loop fail, unless a peer
    listed before it is down. *)
Lemma passthrough_peer_down_unknown (ps : gmap Z Port) (before after : list Z)
    (peer : Z) :
  ps !! peer = None ->
  Forall (fun b => exists q, ps !! b = Some q /\
                             truthyZ (dyn_lacp_up q) = true) before ->
  passthrough_peer_down ps (before ++ peer :: after) = Raise AttributeError.
Proof.
  intros Hnone. induction 1 as [|b before (q & Hq & Hup) _ IH]; simpl.
  - by rewrite Hnone.
  - by rewrite Hq, Hup.
Qed.

Lemma lacp_actions_run (v : Valve) (n : Z) (p : Port) (pkt : option LacpPkt)
    (b : bool) :
  ports (dp v) !! n = Some p ->
  passthrough_peer_down (ports (dp v)) (lacp_passthrough p) = Ret b ->
  _lacp_actions ext pkt n v
    = Ret (if b then [] else [lacp_reply ext (dp v) p pkt], v).
Proof.
  intros Hp Hb. unfold _lacp_actions.
  rewrite (mbind_Ret _ _ _ _ _ (get_port_run _ _ _ Hp)).
  unfold mbind at 1. unfold gets at 1.
  unfold mbind, lift. rewrite Hb. by destruct b.
Qed.

Lemma lacp_actions_raise (v : Valve) (n : Z) (p : Port) (pkt : option LacpPkt)
    (e : Exn) :
  ports (dp v) !! n = Some p ->
  passthrough_peer_down (ports (dp v)) (lacp_passthrough p) = Raise e ->
  _lacp_actions ext pkt n v = Raise e.
Proof.
  intros Hp Hb. unfold _lacp_actions.
  rewrite (mbind_Ret _ _ _ _ _ (get_port_run _ _ _ Hp)).
  unfold mbind at 1. unfold gets at 1.
  unfold mbind, lift. by rewrite Hb.
Qed.

End Runs.


Section Lacp.

Context {MgrState : Type} (ext : External MgrState).
Local Abbreviation Valve := (Valve MgrState).
Local Abbreviation M := (M MgrState).

Lemma with_port_lookup (v : Valve) (n : Z) (p : Port) :
  ports (dp (with_port n p v)) !! n = Some p.
Proof. unfold with_port. simpl. apply lookup_insert_eq. Qed.

Lemma with_port_lookup_ne (v : Valve) (n m : Z) (p : Port) :
  n <> m -> ports (dp (with_port n p v)) !! m = ports (dp v) !! m.
Proof. intros H. unfold with_port. simpl. by apply lookup_insert_ne. Qed.

(** [lacp_down] on a port of the DP always returns.  It marks the LACP
    link of that port down and forgets its last PDU and timestamps,
    leaves every other port as it was, and its messages end with the
    drop of the port's input at [high_priority] and the punt of
    slow-protocol multicast to the controller at [highest_priority],
    truncated to [LACP_SIZE]; on a cold start these two flows are the
    only messages. *)
Theorem lacp_down_effect (v : Valve) (n : Z) (cold_start : bool) (p : Port) :
  ports (dp v) !! n = Some p ->
  exists ms v',
    lacp_down ext n cold_start v = Ret (ms, v') /\
    ports (dp v') = <[n := lacp_reset p]> (ports (dp v)) /\
    (forall p', ports (dp v') !! n = Some p' ->
       dyn_lacp_up p' = 0 /\ dyn_last_lacp_pkt p' = None /\
       dyn_lacp_updated_time p' = None /\ dyn_lacp_last_resp_time p' = None /\
       dyn_phys_up p' = dyn_phys_up p) /\
    (forall m, m <> n -> ports (dp v') !! m = ports (dp v) !! m) /\
    (exists pre,
       ms = pre ++ [flowdrop T_vlan (match_in_port (number p))
                      (high_priority (dp v));
                    flowcontroller T_vlan
                      (mkMatch (Some (number p)) None (Some (ETH_TYPE_SLOW ext))
                         (Some (SLOW_PROTOCOL_MULTICAST ext)) None)
                      (highest_priority (dp v)) (Z.of_nat (LACP_SIZE ext))] /\
       (cold_start = true -> pre = [])).
Proof.
  intros Hp.
  destruct (lacp_down_run ext v n cold_start p Hp) as (ms & s & Hms & Hrun).
  eexists _, _. split; [exact Hrun|].
  split; [reflexivity|]. split; [|split].
  - intros p' Hp'. cbn in Hp'. rewrite lookup_insert_eq in Hp'.
    injection Hp' as <-. done.
  - intros m Hm. cbn. by apply lookup_insert_ne.
  - exists ms. split; [reflexivity|].
    intros ->. unfold mret in Hms. by injection Hms as <-.
Qed.

(** [lacp_up] marks the LACP link of the port up.  When the bundle is
    not selected for forwarding no flow is sent and the managers are not
    called; otherwise the first message deletes, strictly, the input
    drop of the port at [high_priority]. *)
Theorem lacp_up_effect (v : Valve) (n : Z) (p : Port) :
  ports (dp v) !! n = Some p ->
  exists ms v',
    lacp_up ext n v = Ret (ms, v') /\
    ports (dp v') = <[n := set_dyn_lacp_up 1 p]> (ports (dp v)) /\
    (lacp_forwarding ext (dp (with_port n (set_dyn_lacp_up 1 p) v))
       (set_dyn_lacp_up 1 p) = false ->
     ms = [] /\ mgr v' = mgr v) /\
    (lacp_forwarding ext (dp (with_port n (set_dyn_lacp_up 1 p) v))
       (set_dyn_lacp_up 1 p) = true ->
     exists rest,
       ms = flowdel T_vlan (match_in_port (number p))
              (Some (high_priority (dp v))) true :: rest).
Proof.
  intros Hp.
  destruct (lacp_up_run ext v n p Hp) as (ms & s & Hrun & Hfwd).
  eexists _, _. split; [exact Hrun|]. split; [reflexivity|].
  cbv zeta in Hfwd.
  destruct (lacp_forwarding ext _ _).
  - split; [done|]. intros _. exact Hfwd.
  - split; [|done]. intros _. by destruct Hfwd as [-> ->].
Qed.

(** [_lacp_actions] sends nothing when a passthrough peer of the port
    has its LACP link down; otherwise it sends exactly one packet-out, a
    LACP PDU on the port itself.  A passthrough peer that is not a port
    of the DP raises AttributeError when all peers listed before it are
    up.  The Valve is never changed. *)
Theorem lacp_actions_passthrough (v : Valve) (n : Z) (p : Port)
    (pkt : option LacpPkt) :
  ports (dp v) !! n = Some p ->
  (Forall (fun peer => is_Some (ports (dp v) !! peer)) (lacp_passthrough p) ->
   exists ms,
     _lacp_actions ext pkt n v = Ret (ms, v) /\
     ((exists peer q, peer ∈ lacp_passthrough p /\
                      ports (dp v) !! peer = Some q /\ dyn_lacp_up q = 0) ->
      ms = []) /\
     ((forall peer q, peer ∈ lacp_passthrough p ->
                      ports (dp v) !! peer = Some q -> dyn_lacp_up q <> 0) ->
      ms = [lacp_reply ext (dp v) p pkt])) /\
  (forall before peer after,
     lacp_passthrough p = before ++ peer :: after ->
     ports (dp v) !! peer = None ->
     Forall (fun b => exists q, ports (dp v) !! b = Some q /\
                                dyn_lacp_up q <> 0) before ->
     _lacp_actions ext pkt n v = Raise AttributeError).
Proof.
  intros Hp. split.
  - intros Hall.
    destruct (passthrough_peer_down_total _ _ Hall) as (b & Hb & Hiff).
    exists (if b then [] else [lacp_reply ext (dp v) p pkt]).
    split; [by apply lacp_actions_run|]. split.
    + intros (peer & q & Hin & Hq & Hd).
      assert (b = true) as ->; [|done].
      apply Hiff. exists peer, q. repeat split; try done.
      unfold truthyZ. by rewrite Hd.
    + intros Hup. destruct b; [|done].
      destruct (proj1 Hiff eq_refl) as (peer & q & Hin & Hq & Hd).
      exfalso. apply (Hup peer q Hin Hq).
      unfold truthyZ in Hd. apply negb_false_iff in Hd. by apply Z.eqb_eq.
  - intros before peer after Hl Hnone Hbefore.
    apply (lacp_actions_raise ext v n p pkt _ Hp). rewrite Hl.
    apply passthrough_peer_down_unknown; [done|].
    eapply Forall_impl; [exact Hbefore|].
    intros b (q & Hq & Hne). exists q. split; [done|].
    unfold truthyZ. apply negb_true_iff. by apply Z.eqb_neq.
Qed.

Lemma lacp_transition_passthrough (actor_up : Z) (port : Port) :
  lacp_passthrough (lacp_transition actor_up port) = lacp_passthrough port.
Proof.
  unfold lacp_transition.
  destruct (negb _); [destruct (truthyZ _)|]; reflexivity.
Qed.

(** A complete description of a run of [lacp_handler] on a LACP PDU. *)
Lemma lacp_handler_run (v : Valve) (now : Q) (pkt_meta : PacketMeta)
    (port : Port) (lacp_pkt : LacpPkt) :
  ports (dp v) !! pm_port pkt_meta = Some port ->
  pm_eth_dst pkt_meta = SLOW_PROTOCOL_MULTICAST ext ->
  pm_eth_type pkt_meta = Some (ETH_TYPE_SLOW ext) ->
  truthyZ (lacp port) = true ->
  parse_lacp_pkt ext (take (LACP_SIZE ext) (pm_data pkt_meta)) = Some lacp_pkt ->
  Forall (fun peer => is_Some (ports (dp v) !! peer)) (lacp_passthrough port) ->
  let n := pm_port pkt_meta in
  let actor_up := lacp_actor_up ext lacp_pkt in
  let change := negb (dyn_lacp_up port =? actor_up) in
  let port1 := lacp_transition actor_up port in
  let due := lacp_reply_due now port lacp_pkt in
  let port2 :=
    if due then set_dyn_lacp_last_resp_time (Some now) port1 else port1 in
  let port3 :=
    set_dyn_lacp_updated_time (Some now)
      (set_dyn_last_lacp_pkt (Some lacp_pkt) port2) in
  exists trans_ms v1 peer_down v',
    (if change
     then (if truthyZ actor_up then lacp_up ext n else lacp_down ext n false) v
          = Ret (trans_ms, v1)
     else trans_ms = [] /\ v1 = v) /\
    ports (dp v1) = <[n := port1]> (ports (dp v)) /\
    passthrough_peer_down (ports (dp v1)) (lacp_passthrough port)
      = Ret peer_down /\
    lacp_handler ext now pkt_meta v
      = Ret (if change || due
             then Some (trans_ms
                        ++ (if due && negb peer_down
                            then [lacp_reply ext (dp v1) port1 (Some lacp_pkt)]
                            else []))
             else None, v') /\
    ports (dp v') = <[n := port3]> (ports (dp v)).
Proof.
  intros Hport Hdst Htype Hlacp Hparse Hpeers n actor_up change port1 due
    port2 port3.
  (* the transition *)
  assert (Htrans : exists trans_ms v1,
    (if change
     then (if truthyZ actor_up then lacp_up ext n else lacp_down ext n false) v
          = Ret (trans_ms, v1)
     else trans_ms = [] /\ v1 = v) /\
    ports (dp v1) = <[n := port1]> (ports (dp v))).
  { subst port1. unfold lacp_transition. fold actor_up change.
    destruct change.
    - destruct (truthyZ actor_up).
      + destruct (lacp_up_run ext v n port Hport) as (ms & s & Hrun & _).
        eexists _, _. split; [exact Hrun | reflexivity].
      + destruct (lacp_down_run ext v n false port Hport)
          as (ms & s & _ & Hrun).
        eexists _, _. split; [exact Hrun | reflexivity].
    - exists [], v. split; [done|]. symmetry. by apply insert_id. }
  destruct Htrans as (trans_ms & v1 & Htrans & Hps1).
  assert (Hp1 : ports (dp v1) !! n = Some port1).
  { rewrite Hps1. apply lookup_insert_eq. }
  (* the passthrough peers *)
  assert (Hpeers1 : Forall (fun peer => is_Some (ports (dp v1) !! peer))
                      (lacp_passthrough port)).
  { eapply Forall_impl; [exact Hpeers|]. intros peer Hs. rewrite Hps1.
    destruct (decide (n = peer)) as [->|Hne].
    - rewrite lookup_insert_eq. eauto.
    - by rewrite lookup_insert_ne. }
  destruct (passthrough_peer_down_total _ _ Hpeers1) as (peer_down & Hpd & _).
  exists trans_ms, v1, peer_down.
  exists (with_port n port3 (if due then with_port n port2 v1 else v1)).
  split; [exact Htrans|]. split; [exact Hps1|]. split; [exact Hpd|].
  split.
  - unfold lacp_handler. fold n.
    rewrite (mbind_Ret _ _ _ _ _ (get_port_run _ _ _ Hport)).
    rewrite Hdst, Htype, Hlacp, !bool_decide_eq_true_2 by done.
    cbn [andb]. rewrite Hparse.
    fold actor_up. fold change. fold (lacp_reply_due now port lacp_pkt).
    fold due.
    assert (Hr1 :
      (if change then
         ms <- (if truthyZ actor_up then lacp_up ext n
                else lacp_down ext n false) ;;
         mret (extend_self None ms)
       else mret None) v
      = Ret (if change then Some trans_ms else None, v1)).
    { destruct change.
      - destruct (truthyZ actor_up);
          by rewrite (mbind_Ret _ _ _ _ _ Htrans).
      - by destruct Htrans as [-> ->]. }
    rewrite (mbind_Ret _ _ _ _ _ Hr1).
    assert (Hact : _lacp_actions ext (Some lacp_pkt) n v1
                   = Ret (if peer_down then []
                          else [lacp_reply ext (dp v1) port1 (Some lacp_pkt)],
                          v1)).
    { apply lacp_actions_run; [exact Hp1|].
      subst port1. by rewrite lacp_transition_passthrough. }
    destruct due; cbv iota.
    + assert (Hr2 :
        (ms <- _lacp_actions ext (Some lacp_pkt) n ;;
         p <- get_port n ;;
         put_port n (set_dyn_lacp_last_resp_time (Some now) p) ;;;
         mret (extend_self (if change then Some trans_ms else None) ms)) v1
        = Ret (extend_self (if change then Some trans_ms else None)
                 (if peer_down then []
                  else [lacp_reply ext (dp v1) port1 (Some lacp_pkt)]),
               with_port n port2 v1)).
      { rewrite (mbind_Ret _ _ _ _ _ Hact).
        rewrite (mbind_Ret _ _ _ _ _ (get_port_run _ _ _ Hp1)).
        reflexivity. }
      rewrite (mbind_Ret _ _ _ _ _ Hr2).
      rewrite (mbind_Ret _ _ _ _ _
                 (get_port_run _ _ _ (with_port_lookup v1 n port2))).
      unfold mbind, put_port, modify, mret. cbn [andb orb].
      rewrite orb_true_r.
      destruct change; [|destruct Htrans as [-> _]]; destruct peer_down;
        unfold extend_self; cbn [negb default];
        rewrite ?app_nil_r; reflexivity.
    + unfold mbind at 1. unfold mret at 1.
      rewrite (mbind_Ret _ _ _ _ _ (get_port_run _ _ _ Hp1)).
      unfold mbind, put_port, modify, mret. cbn [andb orb].
      rewrite orb_false_r.
      destruct change; [|destruct Htrans as [-> _]];
        rewrite ?app_nil_r; reflexivity.
  - destruct due; cbn; rewrite ?Hps1, ?insert_insert_eq; reflexivity.
Qed.

Lemma or_iff_both (A B C D : Prop) :
  (A <-> C) /\ (B <-> D) -> (A \/ B <-> C \/ D).
Proof. tauto. Qed.

Lemma lacp_reply_due_iff (now : Q) (port : Port) (lacp_pkt : LacpPkt) :
  lacp_reply_due now port lacp_pkt = true <->
  dyn_last_lacp_pkt port <> Some lacp_pkt \/
  exists t, dyn_lacp_last_resp_time port = Some t /\ ~ (t == 0)%Q /\
            (inject_Z (lacp_resp_interval port) < now - t)%Q.
Proof.
  unfold lacp_reply_due. rewrite orb_true_iff.
  apply or_iff_both. split.
  - destruct (dyn_last_lacp_pkt port) as [last|]; [|done].
    rewrite negb_true_iff, bool_decide_eq_false. split; congruence.
  - destruct (dyn_lacp_last_resp_time port) as [t|]; simpl.
    + unfold truthyQ. destruct (Qeq_bool t 0) eqn:E; simpl.
      * apply Qeq_bool_iff in E. split; [done|].
        intros (t' & Ht & Hne & _). injection Ht as <-. done.
      * rewrite Qlt_bool_iff. split.
        -- intros H. exists t. repeat split; [|done].
           intros Ht. apply Qeq_bool_iff in Ht. congruence.
        -- intros (t' & Ht & _ & Hlt). by injection Ht as <-.
    + split; [done|]. by intros (t' & Ht & _).
Qed.

Lemma lacp_handler_skip (v : Valve) (now : Q) (pkt_meta : PacketMeta)
    (port : Port) :
  ports (dp v) !! pm_port pkt_meta = Some port ->
  pm_eth_dst pkt_meta <> SLOW_PROTOCOL_MULTICAST ext \/
  pm_eth_type pkt_meta <> Some (ETH_TYPE_SLOW ext) \/
  lacp port = 0 \/
  parse_lacp_pkt ext (take (LACP_SIZE ext) (pm_data pkt_meta)) = None ->
  lacp_handler ext now pkt_meta v = Ret (None, v).
Proof.
  intros Hport H. unfold lacp_handler.
  rewrite (mbind_Ret _ _ _ _ _ (get_port_run _ _ _ Hport)).
  destruct H as [H|[H|[H|H]]].
  - by rewrite bool_decide_eq_false_2.
  - rewrite (bool_decide_eq_false_2 _ H). by rewrite andb_false_r.
  - rewrite H. cbn [truthyZ Z.eqb negb]. by rewrite andb_false_r.
  - rewrite H. by destruct (_ && _).
Qed.

(** A packet that is not a slow-protocol frame to the slow-protocol
    multicast address on a LACP port, or that does not parse as a LACP
    PDU, is ignored by [lacp_handler]: the result is the empty dict and
    the Valve is unchanged. *)
Theorem lacp_handler_ignores (v : Valve) (now : Q) (pkt_meta : PacketMeta)
    (port : Port) :
  ports (dp v) !! pm_port pkt_meta = Some port ->
  pm_eth_dst pkt_meta <> SLOW_PROTOCOL_MULTICAST ext \/
  pm_eth_type pkt_meta <> Some (ETH_TYPE_SLOW ext) \/
  lacp port = 0 \/
  parse_lacp_pkt ext (take (LACP_SIZE ext) (pm_data pkt_meta)) = None ->
  lacp_handler ext now pkt_meta v = Ret (None, v).
Proof. exact (lacp_handler_skip v now pkt_meta port). Qed.

(** After a LACP PDU the port records the PDU as its last one and [now]
    as the time of its last update; its LACP state is the actor state of
    the PDU (0 or 1) and nothing else about the port's configuration or
    any other port changes. *)
Theorem lacp_handler_records (v : Valve) (now : Q) (pkt_meta : PacketMeta)
    (port : Port) (lacp_pkt : LacpPkt) :
  ports (dp v) !! pm_port pkt_meta = Some port ->
  pm_eth_dst pkt_meta = SLOW_PROTOCOL_MULTICAST ext ->
  pm_eth_type pkt_meta = Some (ETH_TYPE_SLOW ext) ->
  lacp port <> 0 ->
  parse_lacp_pkt ext (take (LACP_SIZE ext) (pm_data pkt_meta)) = Some lacp_pkt ->
  Forall (fun peer => is_Some (ports (dp v) !! peer)) (lacp_passthrough port) ->
  lacp_actor_up ext lacp_pkt = 0 \/ lacp_actor_up ext lacp_pkt = 1 ->
  exists r v' port',
    lacp_handler ext now pkt_meta v = Ret (r, v') /\
    ports (dp v') !! pm_port pkt_meta = Some port' /\
    dyn_last_lacp_pkt port' = Some lacp_pkt /\
    dyn_lacp_updated_time port' = Some now /\
    dyn_lacp_up port' = lacp_actor_up ext lacp_pkt /\
    dyn_phys_up port' = dyn_phys_up port /\
    lacp port' = lacp port /\ number port' = number port /\
    (forall m, m <> pm_port pkt_meta ->
               ports (dp v') !! m = ports (dp v) !! m).
Proof.
  intros Hport Hdst Htype Hlacp Hparse Hpeers Hactor.
  assert (Hl : truthyZ (lacp port) = true).
  { unfold truthyZ. apply negb_true_iff. by apply Z.eqb_neq. }
  destruct (lacp_handler_run v now pkt_meta port lacp_pkt
              Hport Hdst Htype Hl Hparse Hpeers)
    as (trans_ms & v1 & pd & v' & _ & _ & _ & Hrun & Hps).
  cbv zeta in Hrun, Hps.
  eexists _, v', _. split; [exact Hrun|].
  split; [rewrite Hps; apply lookup_insert_eq|].
  split; [reflexivity|]. split; [reflexivity|].
  split; [|split; [|split; [|split]]].
  - unfold lacp_transition.
    destruct (lacp_reply_due now port lacp_pkt);
      (destruct (dyn_lacp_up port =? lacp_actor_up ext lacp_pkt) eqn:E;
       [apply Z.eqb_eq in E; exact E|]);
      destruct Hactor as [-> | ->]; reflexivity.
  - unfold lacp_transition. by repeat case_match.
  - unfold lacp_transition. by repeat case_match.
  - unfold lacp_transition. by repeat case_match.
  - intros m Hm. rewrite Hps. by apply lookup_insert_ne.
Qed.

(** The answer to a LACP PDU.  The messages of [lacp_handler] are those
    of the state change followed by at most one packet-out, the reply
    PDU.  The messages of the state change are the ones [lacp_up]
    returns when the actor state of the PDU is not zero, and the ones
    [lacp_down] returns when it is zero, each run on the Valve as the
    PDU found it; there are none when the state did not change.  The
    reply is built from the DP that run leaves.  It is sent exactly when the PDU differs from the
    last one recorded on the port (or none is recorded) or a response
    was sent more than [lacp_resp_interval] ago, and no passthrough peer
    of the port has its LACP link down.  The result is the empty dict
    exactly when the state did not change and no reply was due. *)
Theorem lacp_handler_reply (v : Valve) (now : Q) (pkt_meta : PacketMeta)
    (port : Port) (lacp_pkt : LacpPkt) :
  ports (dp v) !! pm_port pkt_meta = Some port ->
  pm_eth_dst pkt_meta = SLOW_PROTOCOL_MULTICAST ext ->
  pm_eth_type pkt_meta = Some (ETH_TYPE_SLOW ext) ->
  lacp port <> 0 ->
  parse_lacp_pkt ext (take (LACP_SIZE ext) (pm_data pkt_meta)) = Some lacp_pkt ->
  Forall (fun peer => is_Some (ports (dp v) !! peer)) (lacp_passthrough port) ->
  let n := pm_port pkt_meta in
  let port1 := lacp_transition (lacp_actor_up ext lacp_pkt) port in
  let due :=
    dyn_last_lacp_pkt port <> Some lacp_pkt \/
    exists t, dyn_lacp_last_resp_time port = Some t /\ ~ (t == 0)%Q /\
              (inject_Z (lacp_resp_interval port) < now - t)%Q in
  let peer_down :=
    exists peer q, peer ∈ lacp_passthrough port /\
                   <[n := port1]> (ports (dp v)) !! peer = Some q /\
                   dyn_lacp_up q = 0 in
  exists r v' trans_ms reply_ms (v1 : Valve),
    lacp_handler ext now pkt_meta v = Ret (r, v') /\
    default [] r = trans_ms ++ reply_ms /\
    (dyn_lacp_up port = lacp_actor_up ext lacp_pkt ->
     trans_ms = [] /\ v1 = v) /\
    (dyn_lacp_up port <> lacp_actor_up ext lacp_pkt ->
     lacp_actor_up ext lacp_pkt <> 0 ->
     lacp_up ext n v = Ret (trans_ms, v1)) /\
    (dyn_lacp_up port <> lacp_actor_up ext lacp_pkt ->
     lacp_actor_up ext lacp_pkt = 0 ->
     lacp_down ext n false v = Ret (trans_ms, v1)) /\
    ports (dp v1) = <[n := port1]> (ports (dp v)) /\
    (due /\ ~ peer_down ->
     reply_ms = [lacp_reply ext (dp v1) port1 (Some lacp_pkt)]) /\
    (~ (due /\ ~ peer_down) -> reply_ms = []) /\
    (r = None <->
     dyn_lacp_up port = lacp_actor_up ext lacp_pkt /\ ~ due).
Proof.
  intros Hport Hdst Htype Hlacp Hparse Hpeers n port1 due peer_down.
  assert (Hl : truthyZ (lacp port) = true).
  { unfold truthyZ. apply negb_true_iff. by apply Z.eqb_neq. }
  destruct (lacp_handler_run v now pkt_meta port lacp_pkt
              Hport Hdst Htype Hl Hparse Hpeers)
    as (trans_ms & v1 & pd & v' & Htrans & Hps1 & Hpd & Hrun & _).
  cbv zeta in Htrans, Hps1, Hpd, Hrun. fold n port1 in Hps1, Hrun.
  assert (Hdue : lacp_reply_due now port lacp_pkt = true <-> due)
    by apply lacp_reply_due_iff.
  assert (Hpeer : pd = true <-> peer_down).
  { assert (Hall : Forall (fun peer => is_Some (ports (dp v1) !! peer))
                     (lacp_passthrough port)).
    { eapply Forall_impl; [exact Hpeers|]. intros peer Hs. rewrite Hps1.
      destruct (decide (n = peer)) as [->|Hne].
      - rewrite lookup_insert_eq. eauto.
      - by rewrite lookup_insert_ne. }
    destruct (passthrough_peer_down_total _ _ Hall) as (b & Hb & Hiff).
    assert (b = pd) by congruence. subst b. rewrite Hiff.
    unfold peer_down. rewrite <- Hps1.
    split; intros (peer & q & Hin & Hq & Hd); exists peer, q;
      (split; [done|]); (split; [done|]).
    - unfold truthyZ in Hd. apply negb_false_iff in Hd. by apply Z.eqb_eq.
    - unfold truthyZ. by rewrite Hd. }
  assert (Hch : negb (dyn_lacp_up port =? lacp_actor_up ext lacp_pkt) = false
                <-> dyn_lacp_up port = lacp_actor_up ext lacp_pkt).
  { rewrite negb_false_iff. apply Z.eqb_eq. }
  set (reply_ms :=
         if lacp_reply_due now port lacp_pkt && negb pd
         then [lacp_reply ext (dp v1) port1 (Some lacp_pkt)] else []).
  exists (if negb (dyn_lacp_up port =? lacp_actor_up ext lacp_pkt)
             || lacp_reply_due now port lacp_pkt
          then Some (trans_ms ++ reply_ms) else None), v', trans_ms, reply_ms,
    v1.
  split; [exact Hrun|].
  assert (Hreply : lacp_reply_due now port lacp_pkt && negb pd = true
                   <-> due /\ ~ peer_down).
  { rewrite andb_true_iff, negb_true_iff, Hdue, <- Hpeer.
    by rewrite not_true_iff_false. }
  split; [|split; [|split; [|split; [|split; [exact Hps1|split; [|split]]]]]].
  - destruct (negb _ || _) eqn:E; [reflexivity|].
    apply orb_false_iff in E as [E1 E2].
    rewrite E1 in Htrans. destruct Htrans as [-> _].
    subst reply_ms. by rewrite E2.
  - intros Heq. apply Hch in Heq. by rewrite Heq in Htrans.
  - intros Hne Hup.
    assert (E : negb (dyn_lacp_up port =? lacp_actor_up ext lacp_pkt) = true)
      by (apply negb_true_iff; by apply Z.eqb_neq).
    rewrite E in Htrans.
    assert (Eu : truthyZ (lacp_actor_up ext lacp_pkt) = true)
      by (unfold truthyZ; apply negb_true_iff; by apply Z.eqb_neq).
    by rewrite Eu in Htrans.
  - intros Hne Hup.
    assert (E : negb (dyn_lacp_up port =? lacp_actor_up ext lacp_pkt) = true)
      by (apply negb_true_iff; by apply Z.eqb_neq).
    rewrite E in Htrans.
    assert (Eu : truthyZ (lacp_actor_up ext lacp_pkt) = false)
      by (unfold truthyZ; by rewrite Hup).
    by rewrite Eu in Htrans.
  - intros H. apply Hreply in H. subst reply_ms. by rewrite H.
  - intros H. rewrite <- Hreply in H. apply not_true_is_false in H.
    subst reply_ms. by rewrite H.
  - rewrite <- Hch, <- Hdue.
    destruct (negb _), (lacp_reply_due now port lacp_pkt); cbn [orb];
      split; try done; intros [? ?]; try done; exfalso; eauto.
Qed.

End Lacp.


(** ** Expiry of LACP state *)

Lemma elem_of_concat {A} (x : A) (ls : list (list A)) :
  x ∈ concat ls <-> exists l, l ∈ ls /\ x ∈ l.
Proof.
  rewrite list_elem_of_In, in_concat. split.
  - intros (l & Hl & Hx). exists l. by rewrite !list_elem_of_In.
  - intros (l & Hl & Hx). exists l. by rewrite <- !list_elem_of_In.
Qed.

Lemma elem_of_lacp_up_ports (d : DP) (n : Z) (p : Port) :
  (n, p) ∈ lacp_up_ports d <-> ports d !! n = Some p /\ lacp_is_up p = true.
Proof.
  unfold lacp_up_ports. rewrite list_elem_of_filter, elem_of_map_to_list.
  unfold lacp_is_up. simpl. tauto.
Qed.

Lemma elem_of_lags_up_ports (d : DP) (n : Z) :
  n ∈ concat (snd <$> lags_up d) <->
  exists p, ports d !! n = Some p /\ lacp_is_up p = true.
Proof.
  rewrite elem_of_concat. unfold lags_up. split.
  - intros (l & Hl & Hn).
    apply list_elem_of_fmap in Hl as ([lag l'] & -> & Hl).
    apply list_elem_of_fmap in Hl as (lag' & Heq & _).
    injection Heq as -> ->. simpl in Hn.
    apply list_elem_of_fmap in Hn as ([n' p] & -> & Hnp).
    apply list_elem_of_filter in Hnp as [_ Hnp].
    apply elem_of_lacp_up_ports in Hnp. eauto.
  - intros (p & Hp & Hup).
    assert (Hin : (n, p) ∈ lacp_up_ports d) by by apply elem_of_lacp_up_ports.
    eexists. split.
    + apply list_elem_of_fmap. eexists (lacp p, _). split; [reflexivity|].
      apply list_elem_of_fmap. exists (lacp p). split; [reflexivity|].
      apply elem_of_remove_dups. apply list_elem_of_fmap.
      exists (n, p). done.
    + simpl. apply list_elem_of_fmap. exists (n, p). split; [done|].
      apply list_elem_of_filter. done.
Qed.

Lemma NoDup_concat_groups (ups : list (Z * Port)) (lags : list Z) :
  NoDup ups.*1 ->
  NoDup lags ->
  NoDup (concat ((fun lag => (filter (fun np => lacp np.2 = lag) ups).*1) <$> lags)).
Proof.
  intros Hups. induction 1 as [|lag lags Hnin Hnd IH]; simpl; [constructor|].
  apply NoDup_app. split; [|split; [|exact IH]].
  - eapply sublist_NoDup; [exact Hups|].
    apply fmap_sublist, sublist_filter.
  - intros n Hn Hn'.
    apply list_elem_of_fmap in Hn as ([n1 p] & -> & Hp).
    apply list_elem_of_filter in Hp as [Hlag Hp]. simpl in Hlag.
    apply elem_of_concat in Hn' as (l & Hl & Hn').
    apply list_elem_of_fmap in Hl as (lag' & -> & Hlag').
    apply list_elem_of_fmap in Hn' as ([n2 p'] & Heq & Hp').
    simpl in Heq. subst n2.
    apply list_elem_of_filter in Hp' as [Hlag2 Hp']. simpl in Hlag2.
    assert (p = p').
    { pose proof (elem_of_list_to_map_1 (M := gmap Z) ups n1 p Hups Hp) as H1.
      pose proof (elem_of_list_to_map_1 (M := gmap Z) ups n1 p' Hups Hp') as H2.
      congruence. }
    subst p'. congruence.
Qed.

Lemma NoDup_lags_up_ports (d : DP) : NoDup (concat (snd <$> lags_up d)).
Proof.
  unfold lags_up. rewrite <- list_fmap_compose.
  apply (NoDup_concat_groups (lacp_up_ports d)).
  - eapply sublist_NoDup; [apply (NoDup_fst_map_to_list (ports d))|].
    apply fmap_sublist, sublist_filter.
  - apply NoDup_remove_dups.
Qed.

Section Expire.

Context {MgrState : Type} (ext : External MgrState).
Local Abbreviation Valve := (Valve MgrState).
Local Abbreviation M := (M MgrState).

Lemma set_ports_id (d : DP) : set_ports (ports d) d = d.
Proof. by destruct d. Qed.

(** One iteration of the loop of [_lacp_state_expire]. *)
Lemma lacp_state_expire_port_run (v : Valve) (now : Q)
    (acc : option (list OfMsg)) (n : Z) (p : Port) :
  ports (dp v) !! n = Some p ->
  is_Some (dyn_lacp_updated_time p) ->
  let expired := lacp_expired now (lacp_timeout (dp v)) p in
  exists ms v',
    _lacp_state_expire_port ext now acc n v
      = Ret (if expired
             then Some (default [] acc ++ ms ++
                        [flowdrop T_vlan (match_in_port (number p))
                           (high_priority (dp v));
                         vlan_table_lacp_punt ext (dp v) (number p)])
             else acc, v') /\
    dp v' = set_ports (if expired then <[n := lacp_reset p]> (ports (dp v))
                       else ports (dp v)) (dp v) /\
    (expired = false -> v' = v).
Proof.
  intros Hp [t Ht] expired. subst expired.
  unfold _lacp_state_expire_port, lacp_expired.
  rewrite (mbind_Ret _ _ _ _ _ (get_port_run _ _ _ Hp)). rewrite Ht.
  unfold mbind at 1. unfold gets at 1.
  destruct (Qlt_bool _ _).
  - destruct (lacp_down_run ext v n false p Hp) as (ms & s & _ & Hrun).
    rewrite (mbind_Ret _ _ _ _ _ Hrun).
    eexists ms, _. split; [unfold mret, extend_self; reflexivity|].
    split; [reflexivity|done].
  - exists [], v. split; [reflexivity|]. by rewrite set_ports_id.
Qed.

Lemma lacp_state_expire_fold (now : Q) (l : list Z) :
  forall (acc : option (list OfMsg)) (v : Valve),
    NoDup l ->
    (forall n, n ∈ l ->
       exists p, ports (dp v) !! n = Some p /\
                 is_Some (dyn_lacp_updated_time p)) ->
    exists r v' ps',
      fold_self (_lacp_state_expire_port ext now) l acc v = Ret (r, v') /\
      dp v' = set_ports ps' (dp v) /\
      (forall n,
         ps' !! n =
         (fun p => if bool_decide (n ∈ l)
                      && lacp_expired now (lacp_timeout (dp v)) p
                   then lacp_reset p else p) <$> ports (dp v) !! n) /\
      (exists added,
         default [] r = default [] acc ++ added /\
         forall n p, n ∈ l -> ports (dp v) !! n = Some p ->
                     lacp_expired now (lacp_timeout (dp v)) p = true ->
                     flowdrop T_vlan (match_in_port (number p))
                       (high_priority (dp v)) ∈ added) /\
      ((forall n p, n ∈ l -> ports (dp v) !! n = Some p ->
                    lacp_expired now (lacp_timeout (dp v)) p = false) ->
       r = acc /\ v' = v).
Proof.
  induction l as [|n l IH]; intros acc v Hnd Hl.
  - exists acc, v, (ports (dp v)). split; [reflexivity|].
    split; [by rewrite set_ports_id|]. split; [|split].
    + intros n. by destruct (ports (dp v) !! n).
    + exists []. split; [by rewrite app_nil_r|].
      intros n p Hn. by apply elem_of_nil in Hn.
    + done.
  - apply NoDup_cons in Hnd as [Hnin Hnd].
    destruct (Hl n) as (p & Hp & Ht); [by apply elem_of_cons; left|].
    destruct (lacp_state_expire_port_run v now acc n p Hp Ht)
      as (ms & v1 & Hrun1 & Hdp1 & Hsame1).
    cbv zeta in Hrun1, Hdp1, Hsame1.
    set (expired := lacp_expired now (lacp_timeout (dp v)) p) in *.
    assert (Hps1 : forall m, m <> n -> ports (dp v1) !! m = ports (dp v) !! m).
    { intros m Hm. rewrite Hdp1. destruct expired; simpl; [|done].
      by apply lookup_insert_ne. }
    assert (Hpn1 : ports (dp v1) !! n
                   = Some (if expired then lacp_reset p else p)).
    { rewrite Hdp1. destruct expired; simpl; [|done]. apply lookup_insert_eq. }
    assert (Hto : lacp_timeout (dp v1) = lacp_timeout (dp v))
      by (by rewrite Hdp1).
    assert (Hhp : high_priority (dp v1) = high_priority (dp v))
      by (by rewrite Hdp1).
    destruct (IH (if expired
                  then Some (default [] acc ++ ms ++
                        [flowdrop T_vlan (match_in_port (number p))
                           (high_priority (dp v));
                         vlan_table_lacp_punt ext (dp v) (number p)])
                  else acc) v1 Hnd)
      as (r & v' & ps' & Hrun & Hdp & Hps & (added & Hadded & Hdrop) & Hnone).
    { intros m Hm. rewrite Hps1; [|intros ->; done].
      apply Hl. by apply elem_of_cons; right. }
    exists r, v', ps'. split; [|split; [|split; [|split]]].
    + simpl. by rewrite (mbind_Ret _ _ _ _ _ Hrun1).
    + rewrite Hdp, Hdp1. reflexivity.
    + intros m. rewrite Hps, Hto. destruct (decide (m = n)) as [->|Hm].
      * rewrite Hpn1, Hp. simpl.
        rewrite (bool_decide_eq_false_2 _ Hnin).
        rewrite bool_decide_eq_true_2 by (by apply elem_of_cons; left).
        simpl. fold expired. reflexivity.
      * rewrite (Hps1 m Hm).
        assert (Hdec : bool_decide (m ∈ n :: l) = bool_decide (m ∈ l)).
        { apply bool_decide_ext. rewrite elem_of_cons. tauto. }
        by rewrite Hdec.
    + rewrite Hto, Hhp in Hdrop.
      destruct expired eqn:E.
      * exists ((ms ++ [flowdrop T_vlan (match_in_port (number p))
                          (high_priority (dp v));
                        vlan_table_lacp_punt ext (dp v) (number p)]) ++ added).
        split.
        { rewrite Hadded. simpl. by rewrite <- !app_assoc. }
        intros m q Hm Hq Hexp.
        apply elem_of_cons in Hm as [->|Hm].
        -- assert (q = p) by congruence. subst q.
           apply elem_of_app. left. apply elem_of_app. right.
           apply elem_of_cons. by left.
        -- apply elem_of_app. right. apply (Hdrop m q Hm); [|done].
           rewrite Hps1; [done|]. intros ->. done.
      * exists added. split; [exact Hadded|].
        intros m q Hm Hq Hexp.
        apply elem_of_cons in Hm as [->|Hm].
        -- assert (q = p) by congruence. subst q.
           unfold expired in E. congruence.
        -- apply (Hdrop m q Hm); [|done].
           rewrite Hps1; [done|]. intros ->. done.
    + intros Hno.
      assert (E : expired = false).
      { apply (Hno n p); [by apply elem_of_cons; left | done]. }
      rewrite E in Hnone. rewrite <- (Hsame1 E). apply Hnone.
      intros m q Hm Hq. rewrite Hto. apply (Hno m q).
      * by apply elem_of_cons; right.
      * rewrite <- Hps1; [done|]. intros ->. done.
Qed.

Lemma keeps_dp_mret {A} (a : A) : keeps_dp (mret a : M A).
Proof. intros v. by exists a, v. Qed.

Lemma keeps_dp_gets {A} (f : Valve -> A) : keeps_dp (gets f).
Proof. intros v. by exists (f v), v. Qed.

Lemma keeps_dp_call {X} (f : MgrState -> DP -> X -> list OfMsg * MgrState) x :
  keeps_dp (call f x).
Proof. intros v. eexists _, _. split; [reflexivity|done]. Qed.

Lemma keeps_dp_notify (e : Event) : keeps_dp (_notify e : M unit).
Proof. intros v. eexists _, _. split; [reflexivity|done]. Qed.

Lemma keeps_dp_bind {A B} (c : M A) (k : A -> M B) :
  keeps_dp c -> (forall a, keeps_dp (k a)) -> keeps_dp (mbind c k).
Proof.
  intros Hc Hk v. destruct (Hc v) as (a & v1 & Ha & Hd1 & Hr1).
  destruct (Hk a v1) as (b & v2 & Hb & Hd2 & Hr2).
  exists b, v2. unfold mbind. rewrite Ha, Hb.
  split; [reflexivity|]. split; congruence.
Qed.

Lemma keeps_dp_for_msgs {X} (l : list X) (f : X -> M (list OfMsg)) :
  (forall x, keeps_dp (f x)) -> keeps_dp (for_msgs l f).
Proof.
  intros Hf. induction l as [|x l IH]; simpl.
  - apply keeps_dp_mret.
  - apply keeps_dp_bind; [apply Hf|]. intros ms.
    apply keeps_dp_bind; [apply IH|]. intros ms'. apply keeps_dp_mret.
Qed.

Lemma extends_self_call {X} (c : X -> M (list OfMsg)) :
  (forall x, keeps_dp (c x)) ->
  extends_self (fun a x => ms <- c x ;; mret (extend_self a ms)).
Proof.
  intros Hc acc x v. destruct (Hc x v) as (ms & v' & Hrun & Hd & Hr).
  exists (extend_self acc ms), v', ms.
  unfold mbind. rewrite Hrun. done.
Qed.

Lemma fold_self_extends {X}
    (f : option (list OfMsg) -> X -> M (option (list OfMsg))) (l : list X) :
  extends_self f ->
  forall acc v, exists r v' added,
    fold_self f l acc v = Ret (r, v') /\ dp v' = dp v /\
    _route_manager_by_ipv v' = _route_manager_by_ipv v /\
    default [] r = default [] acc ++ added.
Proof.
  intros Hf. induction l as [|x l IH]; intros acc v; simpl.
  - exists acc, v, []. by rewrite app_nil_r.
  - destruct (Hf acc x v) as (r1 & v1 & e1 & Hrun1 & Hd1 & Hr1 & He1).
    destruct (IH r1 v1) as (r & v' & e & Hrun & Hd & Hr & He).
    exists r, v', (e1 ++ e). rewrite (mbind_Ret _ _ _ _ _ Hrun1).
    split; [exact Hrun|]. split; [congruence|]. split; [congruence|].
    by rewrite He, He1, <- app_assoc.
Qed.

Lemma state_expire_vlan_extends (now : Q) :
  extends_self (state_expire_vlan ext now).
Proof.
  intros acc vlan v. unfold state_expire_vlan.
  unfold mbind at 1. cbv zeta.
  set (hosts := (expire_hosts_from_vlan ext (mgr v) (dp v) vlan now).1).
  set (v0 := set_mgr (expire_hosts_from_vlan ext (mgr v) (dp v) vlan now).2 v).
  unfold mbind at 1. unfold gets at 1.
  assert (H1 : exists r1 v1 e1,
             (if negb (idle_dst (dp v0)) then
                fold_self (fun a entry =>
                             ms <- call (delete_host_from_vlan ext)
                                     (entry_eth_src entry, vlan) ;;
                             mret (extend_self a ms)) hosts acc
              else mret acc) v0 = Ret (r1, v1) /\ dp v1 = dp v0 /\
             _route_manager_by_ipv v1 = _route_manager_by_ipv v0 /\
             default [] r1 = default [] acc ++ e1).
  { destruct (negb _).
    - apply fold_self_extends.
      apply (extends_self_call
               (fun entry => call (delete_host_from_vlan ext)
                               (entry_eth_src entry, vlan))).
      intros x. apply keeps_dp_call.
    - exists acc, v0, []. by rewrite app_nil_r. }
  destruct H1 as (r1 & v1 & e1 & Hrun1 & Hd1 & Hr1 & He1).
  rewrite (mbind_Ret _ _ _ _ _ Hrun1).
  assert (H2 : keeps_dp (MgrState := MgrState) (for_msgs hosts
                 (fun entry =>
                    _notify (L2_EXPIRE (entry_port_no entry) (vid vlan)
                               (entry_eth_src entry)) ;;;
                    mret []))).
  { apply keeps_dp_for_msgs. intros x.
    apply keeps_dp_bind; [apply keeps_dp_notify|].
    intros _. apply keeps_dp_mret. }
  destruct (H2 v1) as (ms2 & v2 & Hrun2 & Hd2 & Hr2).
  rewrite (mbind_Ret _ _ _ _ _ Hrun2).
  unfold mbind at 1. unfold gets at 1.
  destruct (fold_self_extends
              (fun a ipv => ms <- call (resolve_expire_hosts ext ipv) (vlan, now) ;;
                            mret (extend_self a ms))
              (_route_manager_by_ipv v2)
              (extends_self_call
                 (fun ipv => call (resolve_expire_hosts ext ipv) (vlan, now))
                 (fun ipv => keeps_dp_call _ _)) r1 v2)
    as (r & v' & e & Hrun & Hd & Hr & He).
  exists r, v', (e1 ++ e). split; [exact Hrun|].
  split; [by rewrite Hd, Hd2, Hd1|].
  split; [by rewrite Hr, Hr2, Hr1|].
  by rewrite He, He1, <- app_assoc.
Qed.

Lemma lacp_state_expire_run (v : Valve) (now : Q) :
  (forall n p, ports (dp v) !! n = Some p -> lacp_is_up p = true ->
               is_Some (dyn_lacp_updated_time p)) ->
  let timeout := lacp_timeout (dp v) in
  exists r v',
    _lacp_state_expire ext now v = Ret (r, v') /\
    (forall n,
       ports (dp v') !! n =
       (fun p => if lacp_is_up p && lacp_expired now timeout p
                 then lacp_reset p else p) <$> ports (dp v) !! n) /\
    dp v' = set_ports (ports (dp v')) (dp v) /\
    (forall n p, ports (dp v) !! n = Some p -> lacp_is_up p = true ->
                 lacp_expired now timeout p = true ->
                 flowdrop T_vlan (match_in_port (number p))
                   (high_priority (dp v)) ∈ default [] r) /\
    ((forall n p, ports (dp v) !! n = Some p -> lacp_is_up p = true ->
                  lacp_expired now timeout p = false) ->
     r = None /\ v' = v).
Proof.
  intros Hinv timeout.
  assert (Hl : forall n, n ∈ concat (snd <$> lags_up (dp v)) ->
                 exists p, ports (dp v) !! n = Some p /\
                           is_Some (dyn_lacp_updated_time p)).
  { intros n Hn. apply elem_of_lags_up_ports in Hn as (p & Hp & Hup).
    exists p. split; [done|]. by apply (Hinv n). }
  destruct (lacp_state_expire_fold now _ None v
              (NoDup_lags_up_ports (dp v)) Hl)
    as (r & v' & ps' & Hrun & Hdp & Hps & (added & Hadded & Hdrop) & Hnone).
  exists r, v'. split; [exact Hrun|]. split; [|split; [|split]].
  - intros n. rewrite Hdp. simpl. rewrite Hps.
    destruct (ports (dp v) !! n) as [p|] eqn:Hp; [simpl|done].
    assert (Hdec : bool_decide (n ∈ concat (snd <$> lags_up (dp v)))
                   = lacp_is_up p).
    { destruct (lacp_is_up p) eqn:Hup.
      - apply bool_decide_eq_true_2. apply elem_of_lags_up_ports. eauto.
      - apply bool_decide_eq_false_2. intros Hn.
        apply elem_of_lags_up_ports in Hn as (q & Hq & Hup').
        congruence. }
    by rewrite Hdec.
  - by rewrite Hdp.
  - intros n p Hp Hup Hexp. rewrite Hadded. simpl.
    apply (Hdrop n p); [|done|done].
    apply elem_of_lags_up_ports. eauto.
  - intros Hno. apply Hnone. intros n p Hn Hp.
    apply elem_of_lags_up_ports in Hn as (q & Hq & Hup).
    apply (Hno n p Hp). congruence.
Qed.

(** [_lacp_state_expire], when every LACP port that is up has the time
    of its last update: the method returns; every up LACP port whose
    last update is older than [dp.lacp_timeout] is taken down as by
    [lacp_down], and its input drop at [high_priority] is among the
    messages; every other port, and the rest of the DP, is left as it
    was.  When no port has expired the result is the empty dict and the
    Valve is unchanged. *)
Theorem lacp_state_expire_effect (v : Valve) (now : Q) :
  (forall n p, ports (dp v) !! n = Some p -> lacp_is_up p = true ->
               is_Some (dyn_lacp_updated_time p)) ->
  let timeout := lacp_timeout (dp v) in
  exists r v',
    _lacp_state_expire ext now v = Ret (r, v') /\
    (forall n,
       ports (dp v') !! n =
       (fun p => if lacp_is_up p && lacp_expired now timeout p
                 then lacp_reset p else p) <$> ports (dp v) !! n) /\
    dp v' = set_ports (ports (dp v')) (dp v) /\
    (forall n p, ports (dp v) !! n = Some p -> lacp_is_up p = true ->
                 lacp_expired now timeout p = true ->
                 flowdrop T_vlan (match_in_port (number p))
                   (high_priority (dp v)) ∈ default [] r) /\
    ((forall n p, ports (dp v) !! n = Some p -> lacp_is_up p = true ->
                  lacp_expired now timeout p = false) ->
     r = None /\ v' = v).
Proof. exact (lacp_state_expire_run v now). Qed.

Lemma state_expire_run (v : Valve) (now : Q) :
  (forall n p, ports (dp v) !! n = Some p -> lacp_is_up p = true ->
               is_Some (dyn_lacp_updated_time p)) ->
  let timeout := lacp_timeout (dp v) in
  exists r v',
    state_expire ext now v = Ret (r, v') /\
    (dyn_running (dp v) = false -> r = None /\ v' = v) /\
    (dyn_running (dp v) = true ->
     (forall n,
        ports (dp v') !! n =
        (fun p => if lacp_is_up p && lacp_expired now timeout p
                  then lacp_reset p else p) <$> ports (dp v) !! n) /\
     (forall n p, ports (dp v) !! n = Some p -> lacp_is_up p = true ->
                  lacp_expired now timeout p = true ->
                  flowdrop T_vlan (match_in_port (number p))
                    (high_priority (dp v)) ∈ default [] r)) /\
    dp v' = set_ports (ports (dp v')) (dp v).
Proof.
  intros Hinv timeout. unfold state_expire.
  unfold mbind at 1. unfold gets at 1.
  destruct (dyn_running (dp v)) eqn:Hrun.
  - destruct (lacp_state_expire_run v now Hinv)
      as (r1 & v1 & Hrun1 & Hps1 & Hdr1 & Hdrop1 & _).
    cbv zeta in Hps1, Hdrop1. fold timeout in Hps1, Hdrop1.
    rewrite (mbind_Ret _ _ _ _ _ Hrun1).
    unfold mbind at 1. unfold gets at 1.
    destruct (fold_self_extends (state_expire_vlan ext now)
                (map_to_list (vlans (dp v1))).*2
                (state_expire_vlan_extends now) r1 v1)
      as (r & v' & added & Hfold & Hd & _ & He).
    exists r, v'. split; [exact Hfold|]. split; [done|].
    split.
    + intros _. split.
      * intros n. rewrite Hd. apply Hps1.
      * intros n p Hp Hup Hexp. rewrite He. apply elem_of_app. left.
        by apply (Hdrop1 n p).
    + rewrite Hd. exact Hdr1.
  - exists None, v. split; [reflexivity|]. split; [done|].
    split; [done|]. by rewrite set_ports_id.
Qed.

Lemma state_expire_steps (v : Valve) (now : Q) :
  (forall n p, ports (dp v) !! n = Some p -> lacp_is_up p = true ->
               is_Some (dyn_lacp_updated_time p)) ->
  let timeout := lacp_timeout (dp v) in
  (dyn_running (dp v) = false -> state_expire ext now v = Ret (None, v)) /\
  (dyn_running (dp v) = true ->
   exists r1 v1 r v' added,
     _lacp_state_expire ext now v = Ret (r1, v1) /\
     (forall n,
        ports (dp v1) !! n =
        (fun p => if lacp_is_up p && lacp_expired now timeout p
                  then lacp_reset p else p) <$> ports (dp v) !! n) /\
     fold_self (state_expire_vlan ext now)
       (map_to_list (vlans (dp v1))).*2 r1 v1 = Ret (r, v') /\
     state_expire ext now v = Ret (r, v') /\
     default [] r = default [] r1 ++ added /\
     (forall n p, ports (dp v) !! n = Some p -> lacp_is_up p = true ->
                  lacp_expired now timeout p = true ->
                  flowdrop T_vlan (match_in_port (number p))
                    (high_priority (dp v)) ∈ default [] r)).
Proof.
  intros Hinv timeout. split; intros Hrun.
  - unfold state_expire. unfold mbind at 1. unfold gets at 1.
    by rewrite Hrun.
  - destruct (lacp_state_expire_run v now Hinv)
      as (r1 & v1 & Hrun1 & Hps1 & _ & Hdrop1 & _).
    cbv zeta in Hps1, Hdrop1. fold timeout in Hps1, Hdrop1.
    destruct (fold_self_extends (state_expire_vlan ext now)
                (map_to_list (vlans (dp v1))).*2
                (state_expire_vlan_extends now) r1 v1)
      as (r & v' & added & Hfold & _ & _ & He).
    exists r1, v1, r, v', added.
    split; [exact Hrun1|]. split; [exact Hps1|]. split; [exact Hfold|].
    split; [|split; [exact He|]].
    + unfold state_expire. unfold mbind at 1. unfold gets at 1.
      rewrite Hrun. rewrite (mbind_Ret _ _ _ _ _ Hrun1).
      unfold mbind at 1. unfold gets at 1. exact Hfold.
    + intros n p Hp Hup Hexp. rewrite He. apply elem_of_app. left.
      by apply (Hdrop1 n p).
Qed.

(** [state_expire] returns the empty dict and leaves the Valve as it is
    on a DP that is not running.  On a running DP whose up LACP ports
    have the time of their last update it returns, and is
    [_lacp_state_expire] followed by the loop over the VLANs of the DP:
    after [_lacp_state_expire] exactly the up LACP ports whose last
    update is older than [dp.lacp_timeout] are down, the loop over the
    VLANs only appends to the messages of [_lacp_state_expire], and so
    the answer contains the input drop of each expired port. *)
Theorem state_expire_lacp (v : Valve) (now : Q) :
  (forall n p, ports (dp v) !! n = Some p -> lacp_is_up p = true ->
               is_Some (dyn_lacp_updated_time p)) ->
  let timeout := lacp_timeout (dp v) in
  (dyn_running (dp v) = false -> state_expire ext now v = Ret (None, v)) /\
  (dyn_running (dp v) = true ->
   exists r1 v1 r v' added,
     _lacp_state_expire ext now v = Ret (r1, v1) /\
     (forall n,
        ports (dp v1) !! n =
        (fun p => if lacp_is_up p && lacp_expired now timeout p
                  then lacp_reset p else p) <$> ports (dp v) !! n) /\
     fold_self (state_expire_vlan ext now)
       (map_to_list (vlans (dp v1))).*2 r1 v1 = Ret (r, v') /\
     state_expire ext now v = Ret (r, v') /\
     default [] r = default [] r1 ++ added /\
     (forall n p, ports (dp v) !! n = Some p -> lacp_is_up p = true ->
                  lacp_expired now timeout p = true ->
                  flowdrop T_vlan (match_in_port (number p))
                    (high_priority (dp v)) ∈ default [] r)).
Proof. exact (state_expire_steps v now). Qed.

(** [lacp_handler] keeps the invariant that the expiry of LACP state
    relies on: every LACP port that is up has the time of its last
    update.  Hence [state_expire] returns after any packet handled by
    [lacp_handler], whatever the times. *)
Theorem lacp_handler_keeps_updated_time (v : Valve) (now later : Q)
    (pkt_meta : PacketMeta) (port : Port) :
  ports (dp v) !! pm_port pkt_meta = Some port ->
  Forall (fun peer => is_Some (ports (dp v) !! peer)) (lacp_passthrough port) ->
  (forall n p, ports (dp v) !! n = Some p -> lacp_is_up p = true ->
               is_Some (dyn_lacp_updated_time p)) ->
  exists r v',
    lacp_handler ext now pkt_meta v = Ret (r, v') /\
    (forall n p, ports (dp v') !! n = Some p -> lacp_is_up p = true ->
                 is_Some (dyn_lacp_updated_time p)) /\
    exists r2 v2, state_expire ext later v' = Ret (r2, v2).
Proof.
  intros Hport Hpeers Hinv.
  assert (Hgoal : exists r v',
    lacp_handler ext now pkt_meta v = Ret (r, v') /\
    (forall n p, ports (dp v') !! n = Some p -> lacp_is_up p = true ->
                 is_Some (dyn_lacp_updated_time p))).
  { destruct (decide (pm_eth_dst pkt_meta = SLOW_PROTOCOL_MULTICAST ext))
      as [Hdst|Hdst];
      [|exists None, v; split; [|exact Hinv];
        apply (lacp_handler_skip ext v now pkt_meta port Hport); tauto].
    destruct (decide (pm_eth_type pkt_meta = Some (ETH_TYPE_SLOW ext)))
      as [Hty|Hty];
      [|exists None, v; split; [|exact Hinv];
        apply (lacp_handler_skip ext v now pkt_meta port Hport); tauto].
    destruct (decide (lacp port = 0)) as [Hl|Hl];
      [exists None, v; split; [|exact Hinv];
       apply (lacp_handler_skip ext v now pkt_meta port Hport); tauto|].
    destruct (parse_lacp_pkt ext (take (LACP_SIZE ext) (pm_data pkt_meta)))
      as [lacp_pkt|] eqn:Hparse;
      [|exists None, v; split; [|exact Hinv];
        apply (lacp_handler_skip ext v now pkt_meta port Hport); tauto].
    assert (Hl' : truthyZ (lacp port) = true).
    { unfold truthyZ. apply negb_true_iff. by apply Z.eqb_neq. }
    destruct (lacp_handler_run ext v now pkt_meta port lacp_pkt
                Hport Hdst Hty Hl' Hparse Hpeers)
      as (trans_ms & v1 & pd & v' & _ & _ & _ & Hrun & Hps).
    cbv zeta in Hrun, Hps.
    eexists _, v'. split; [exact Hrun|].
    intros n p Hp Hup. rewrite Hps in Hp.
    destruct (decide (n = pm_port pkt_meta)) as [->|Hn].
    - rewrite lookup_insert_eq in Hp. injection Hp as <-. by eexists.
    - rewrite lookup_insert_ne in Hp by done. by apply (Hinv n). }
  destruct Hgoal as (r & v' & Hrun & Hinv').
  exists r, v'. split; [exact Hrun|]. split; [exact Hinv'|].
  destruct (state_expire_run v' later Hinv') as (r2 & v2 & Hrun2 & _).
  eauto.
Qed.

End Expire.


(** ** The stack link engine settles *)

(** Once the state returned by [_next_stack_link_state] has been
    applied to the port, a second evaluation at the same time asks for
    no further change. *)
Theorem next_stack_link_state_settles (port : Port) (now : Q) (s : StackState) :
  _next_stack_link_state port now = Ret (Some s) ->
  _next_stack_link_state (set_dyn_stack_current_state s port) now = Ret None.
Proof.
  unfold _next_stack_link_state, is_stack_admin_down, is_stack_down,
    is_stack_up.
  destruct port as [? ? ? ? ? ? ? ? ? ? stk ? ? ? ? ? ? ? ? ? st [seen correct] ?].
  cbn -[Qlt_bool truthyQ].
  intros H.
  destruct st, seen as [t|], stk as [remote_dp|]; cbn -[Qlt_bool truthyQ] in *;
    try discriminate;
    repeat match type of H with
           | context [if ?c then _ else _] =>
               let E := fresh "E" in destruct c eqn:E;
               cbn -[Qlt_bool truthyQ] in H
           end;
    try discriminate;
    injection H as <-; cbn -[Qlt_bool truthyQ];
    rewrite ?E, ?E0, ?E1, ?E2; cbn -[Qlt_bool truthyQ];
    rewrite ?E, ?E0, ?E1, ?E2; reflexivity.
Qed.

(** ** Port status of a connecting datapath *)

Lemma get_ports_status_lookup (discovered configured : gset Z) (n : Z) (b : bool) :
  (_get_ports_status discovered configured).1 !! n = Some b <->
  n ∈ configured /\ b = bool_decide (n ∈ discovered).
Proof.
  unfold _get_ports_status. cbn [fst].
  rewrite lookup_set_to_map by (intros y y' _ _ Heq; exact Heq).
  split.
  - intros (y & Hy & Heq). injection Heq as -> <-. done.
  - intros [Hn ->]. exists n. done.
Qed.

(** [_get_ports_status] gives a status to exactly the configured port
    numbers, [True] exactly for those that were discovered up, and the
    set of up ports it returns is the set of configured ports that were
    discovered up: a discovered port that is not configured is dropped. *)
Theorem get_ports_status_sets (discovered configured : gset Z) :
  let r := _get_ports_status discovered configured in
  dom r.1 = configured /\
  (forall n, n ∈ configured ->
             r.1 !! n = Some (bool_decide (n ∈ discovered))) /\
  r.2 = discovered ∩ configured.
Proof.
  intros r. split; [|split].
  - apply set_eq. intros n. rewrite elem_of_dom. split.
    + intros [b Hb]. by apply get_ports_status_lookup in Hb as [? _].
    + intros Hn. exists (bool_decide (n ∈ discovered)).
      by apply get_ports_status_lookup.
  - intros n Hn. by apply get_ports_status_lookup.
  - apply set_eq. intros n. subst r. unfold _get_ports_status. cbn [snd].
    rewrite elem_of_dom, elem_of_intersection. split.
    + intros [b Hb]. apply map_lookup_filter_Some in Hb as [Hb Htrue].
      simpl in Htrue. subst b.
      apply (get_ports_status_lookup discovered configured) in Hb as [Hc Hd].
      split; [|done]. symmetry in Hd. by apply bool_decide_eq_true in Hd.
    + intros [Hd Hc]. exists true. apply map_lookup_filter_Some.
      split; [|done].
      apply (get_ports_status_lookup discovered configured). split; [done|].
      symmetry. by apply bool_decide_eq_true.
Qed.

(** ** Rate limiting over a second *)

Section RateLimit.

Context {MgrState : Type}.
Local Abbreviation Valve := (Valve MgrState).
Local Abbreviation M := (M MgrState).




End RateLimit.

(** ** Accepted packet-ins *)

Section PacketIn.

Context {MgrState : Type} (ext : External MgrState).
Local Abbreviation Valve := (Valve MgrState).
Local Abbreviation M := (M MgrState).

(** What [parse_pkt_meta] guarantees about a packet it accepts: the DP
    is running and the packet-in was sent by an action; its port is the
    non-zero in_port of the match and a valid port of the DP; its data
    is the packet-in data truncated to [MAX_PACKET_IN_BYTES] and its
    original length the total length announced; its source address is
    unicast and not all zeros; and its VLAN is absent for an untagged
    frame, the configured VLAN of the tag for a tag other than the
    global VLAN, and for the global VLAN the VLAN named by the
    destination address, whose [faucet_mac] then replaces that
    address. *)
Theorem parse_pkt_meta_accepted (v : Valve) (msg : PacketIn)
    (pkt_meta : PacketMeta) :
  parse_pkt_meta ext v msg = Ret (Some pkt_meta) ->
  let d := dp v in
  let data := take (MAX_PACKET_IN_BYTES ext) (default [] (msg_data msg)) in
  let parsed := parse_packet_in_pkt ext data (ETH_VLAN_HEADER_SIZE ext) in
  dyn_running d = true /\
  msg_reason msg = OFPR_ACTION ext /\
  (exists m, msg_match msg = Some m /\
             m !! "in_port" = Some (pm_port pkt_meta)) /\
  pm_port pkt_meta <> 0 /\
  is_Some (ports d !! pm_port pkt_meta) /\
  port_no_valid ext d (pm_port pkt_meta) = true /\
  pm_data pkt_meta = data /\
  (length (pm_data pkt_meta) <= MAX_PACKET_IN_BYTES ext)%nat /\
  pm_orig_len pkt_meta = msg_total_len msg /\
  mac_addr_is_unicast ext (pm_eth_src pkt_meta) = true /\
  mac_addr_all_zeros ext (pm_eth_src pkt_meta) = false /\
  (p_vlan_vid parsed = None -> pm_vlan pkt_meta = None) /\
  (forall vv, p_vlan_vid parsed = Some vv -> vv <> global_vlan d ->
              pm_vlan pkt_meta = vlans d !! vv /\ is_Some (pm_vlan pkt_meta)) /\
  (p_vlan_vid parsed = Some (global_vlan d) ->
   forall eth_pkt, p_eth_pkt parsed = Some eth_pkt ->
     pm_vlan pkt_meta = vlans d !! int_from_mac ext (dst eth_pkt) /\
     pm_eth_dst pkt_meta = match pm_vlan pkt_meta with
                           | Some vlan => faucet_mac vlan
                           | None => dst eth_pkt
                           end).
Proof.
  intros H d data parsed.
  apply parse_pkt_meta_Some in H. cbv zeta in H. fold d data parsed in H.
  destruct H as (Hrun & _ & Hreason & m & in_port & pkt & eth_pkt & port
                 & Hm & _ & Hin & Hnz & Hvalid & _ & _ & _ & Heth
                 & Hvlan & Hrcv & Huni & Hzero & Hport & _).
  unfold parse_rcv_packet in Hrcv. rewrite Hport in Hrcv.
  assert (Hfacts :
    pm_port pkt_meta = in_port /\ pm_data pkt_meta = data /\
    pm_orig_len pkt_meta = msg_total_len msg /\
    pm_eth_src pkt_meta = src eth_pkt /\
    (p_vlan_vid parsed = None -> pm_vlan pkt_meta = None) /\
    (forall vv, p_vlan_vid parsed = Some vv -> vv <> global_vlan d ->
                pm_vlan pkt_meta = vlans d !! vv) /\
    (p_vlan_vid parsed = Some (global_vlan d) ->
     pm_vlan pkt_meta = vlans d !! int_from_mac ext (dst eth_pkt) /\
     pm_eth_dst pkt_meta = match pm_vlan pkt_meta with
                           | Some vlan => faucet_mac vlan
                           | None => dst eth_pkt
                           end)).
  { case_bool_decide as Hg; injection Hrcv as <-; cbn;
      repeat split; try done; try congruence.
    - intros E. by rewrite E.
    - intros vv Hvv Hne. by rewrite Hvv.
  }
  destruct Hfacts as (Hp & Hdata & Hlen & Hsrc & Hnone & Hsome & Hglobal).
  rewrite Hp, Hsrc.
  split; [done|]. split; [done|]. split; [eauto|].
  split; [done|]. split; [eauto|]. split; [done|]. split; [done|].
  split; [rewrite Hdata; subst data; rewrite length_take; lia|].
  split; [done|]. split; [done|]. split; [done|]. split; [done|].
  split.
  - intros vv Hvv Hne. split; [by apply Hsome|].
    rewrite (Hsome vv Hvv Hne).
    destruct (Hvlan vv Hvv) as [Hs|Hs]; [done|done].
  - intros Hg eth_pkt' Heth'. assert (eth_pkt' = eth_pkt) by congruence.
    subst eth_pkt'. by apply Hglobal.
Qed.

End PacketIn.


(** ** Adding and deleting ports *)

Section Ports.

Context {MgrState : Type} (ext : External MgrState).
Local Abbreviation Valve := (Valve MgrState).
Local Abbreviation M := (M MgrState).

Lemma for_ports_skip (f : Z -> M (list OfMsg * list VLAN)) (l : list Z)
    (v : Valve) :
  Forall (fun n => f n v = Ret (([], []), v)) l ->
  for_ports f l v = Ret (([], []), v).
Proof.
  induction 1 as [|n l Hn _ IH]; simpl; [reflexivity|].
  rewrite (mbind_Ret _ _ _ _ _ Hn). rewrite (mbind_Ret _ _ _ _ _ IH).
  reflexivity.
Qed.

(** Port numbers that are not valid for the DP are skipped by
    [ports_add] and [ports_delete]: when none of the numbers is valid no
    message is returned, no manager is called and the Valve is
    unchanged. *)
Theorem ports_add_delete_invalid (v : Valve) (port_nums : list Z)
    (cold_start : bool) :
  Forall (fun n => port_no_valid ext (dp v) n = false) port_nums ->
  ports_add ext port_nums cold_start v = Ret ([], v) /\
  ports_delete ext port_nums v = Ret ([], v).
Proof.
  intros Hinv.
  assert (Ha : for_ports (ports_add_port ext cold_start) port_nums v
               = Ret (([], []), v)).
  { apply for_ports_skip. eapply Forall_impl; [exact Hinv|]. intros n Hn.
    unfold ports_add_port, mbind at 1, gets at 1. by rewrite Hn. }
  assert (Hd : for_ports (ports_delete_port ext) port_nums v
               = Ret (([], []), v)).
  { apply for_ports_skip. eapply Forall_impl; [exact Hinv|]. intros n Hn.
    unfold ports_delete_port, mbind at 1, gets at 1. by rewrite Hn. }
  split.
  - unfold ports_add. rewrite (mbind_Ret _ _ _ _ _ Ha). by destruct cold_start.
  - unfold ports_delete. by rewrite (mbind_Ret _ _ _ _ _ Hd).
Qed.

(** [_delete_all_port_match_flows] only sends non-strict deletes of the
    flows matching the port's number as input port, one per table and
    no table twice.  Without DP ACLs there is a single delete, on the
    wildcard table; with DP ACLs every in-port table gets one except the
    port ACL table, whose flows are never deleted. *)
Theorem delete_all_port_match_flows_tables (d : DP) (port : Port) :
  let ms := _delete_all_port_match_flows ext d port in
  NoDup ms /\
  (forall m, m ∈ ms ->
     exists t, m = flowdel t (match_in_port (number port)) None false /\
               (dp_acls d = true -> t <> T_port_acl /\ t ∈ in_port_tables ext d)) /\
  (dp_acls d = false ->
   ms = [flowdel wildcard_table (match_in_port (number port)) None false]) /\
  (dp_acls d = true ->
   forall t, t ∈ in_port_tables ext d -> t <> T_port_acl ->
             flowdel t (match_in_port (number port)) None false ∈ ms).
Proof.
  intros ms. subst ms. unfold _delete_all_port_match_flows.
  split; [|split; [|split]].
  - assert (Hinj : Inj eq eq (fun table =>
                      flowdel table (match_in_port (number port)) None false)).
    { intros t t' Heq. by injection Heq. }
    apply (NoDup_fmap_2 _).
    destruct (dp_acls d); [|apply NoDup_singleton].
    apply NoDup_filter, NoDup_remove_dups.
  - intros m Hm. apply list_elem_of_fmap in Hm as (t & -> & Ht).
    exists t. split; [done|]. intros Hacl. rewrite Hacl in Ht.
    apply list_elem_of_filter in Ht as [Hne Ht].
    rewrite elem_of_remove_dups in Ht. split; assumption.
  - by intros ->.
  - intros -> t Ht Hne. apply list_elem_of_fmap. exists t. split; [done|].
    apply list_elem_of_filter. split; [done|]. by rewrite elem_of_remove_dups.
Qed.

(** ** Port status messages *)

Lemma port_status_prologue_run (port_no reason state : Z) (v : Valve) :
  let status := port_status_from_state ext state in
  exists v1,
    port_status_prologue ext port_no reason state v = Ret (tt, v1) /\
    dp v1 = set_dyn_up_port_nos
              (if status then {[port_no]} ∪ dyn_up_port_nos (dp v)
               else dyn_up_port_nos (dp v) ∖ {[port_no]}) (dp v) /\
    mgr v1 = mgr v /\
    notifier v1
      = notifier v ++ [PORT_CHANGE port_no (_decode_port_status ext reason)
                         state status].
Proof.
  unfold port_status_prologue, _set_port_status, _notify, _set_var, mbind,
    modify, gets, mret. simpl.
  destruct (ports (dp v) !! port_no); eexists; split; try reflexivity; done.
Qed.

Lemma stable_port_status (up : gset Z) (run : bool) (events : list Event) :
  stable (fun w : Valve =>
            dyn_up_port_nos (dp w) = up /\ dyn_running (dp w) = run /\
            exists rest, notifier w = events ++ rest).
Proof.
  split; try done.
  intros w e (Hup & Hrun & rest & Hrest). split; [done|]. split; [done|].
  exists (rest ++ [e]). simpl. by rewrite Hrest, app_assoc.
Qed.

(** Whatever else a port status message causes, [port_status_handler]
    records it: afterwards the port number is in [dyn_up_port_nos]
    exactly when the reported state is up, the status of the other port
    numbers and the running flag are as before, and the first
    notification sent is the PORT_CHANGE of this message.  The port need
    not be configured. *)
Theorem port_status_handler_records (v v' : Valve) (port_no reason state : Z)
    (r : option (list OfMsg)) :
  port_status_handler ext port_no reason state v = Ret (r, v') ->
  let status := port_status_from_state ext state in
  (port_no ∈ dyn_up_port_nos (dp v') <-> status = true) /\
  (forall n, n <> port_no ->
     (n ∈ dyn_up_port_nos (dp v') <-> n ∈ dyn_up_port_nos (dp v))) /\
  dyn_running (dp v') = dyn_running (dp v) /\
  exists rest,
    notifier v'
      = notifier v ++ PORT_CHANGE port_no (_decode_port_status ext reason)
                        state status :: rest.
Proof.
  intros H status.
  destruct (port_status_prologue_run port_no reason state v)
    as (v1 & Hpro & Hdp & _ & Hev).
  cbv zeta in Hdp, Hev. fold status in Hdp, Hev.
  unfold port_status_handler in H. rewrite (mbind_Ret _ _ _ _ _ Hpro) in H.
  pose proof (stable_port_status (dyn_up_port_nos (dp v1))
                (dyn_running (dp v1)) (notifier v1)) as HS.
  match type of H with
  | ?c v1 = Ret _ =>
      assert (Hpres : preserves
                (fun w : Valve =>
                   dyn_up_port_nos (dp w) = dyn_up_port_nos (dp v1) /\
                   dyn_running (dp w) = dyn_running (dp v1) /\
                   exists rest, notifier w = notifier v1 ++ rest) c)
  end.
  { unfold port_delete, port_add.
    repeat first
      [ apply preserves_ports_delete; exact HS
      | apply preserves_ports_add; exact HS
      | preserves_step ]. }
  destruct (Hpres v1 r v' H) as (Hup & Hrun & rest & Hrest).
  { split; [done|]. split; [done|]. exists []. by rewrite app_nil_r. }
  rewrite Hup, Hrun, Hrest, Hdp, Hev. simpl.
  split; [|split; [|split]].
  - destruct status; [|rewrite elem_of_difference, elem_of_singleton; split;
                       [intros [_ ?]; done | done]].
    rewrite elem_of_union, elem_of_singleton. split; [done|]. by left.
  - intros n Hn. destruct status.
    + rewrite elem_of_union, elem_of_singleton. tauto.
    + rewrite elem_of_difference, elem_of_singleton. tauto.
  - done.
  - exists rest. by rewrite <- app_assoc.
Qed.

(** A port status message about a port number that is not valid, about
    a port without [opstatus_reconf], or with a reason other than ADD,
    DELETE and MODIFY, is only recorded: the handler returns the empty
    dict, calls no manager and touches no Port object. *)
Theorem port_status_handler_ignored (v : Valve) (port_no reason state : Z) :
  let status := port_status_from_state ext state in
  let d1 := set_dyn_up_port_nos
              (if status then {[port_no]} ∪ dyn_up_port_nos (dp v)
               else dyn_up_port_nos (dp v) ∖ {[port_no]}) (dp v) in
  port_no_valid ext d1 port_no = false \/
  (exists port, ports (dp v) !! port_no = Some port /\
                (opstatus_reconf port = false \/
                 (reason <> OFPPR_MODIFY ext /\ reason <> OFPPR_DELETE ext /\
                  reason <> OFPPR_ADD ext))) ->
  exists v',
    port_status_handler ext port_no reason state v = Ret (None, v') /\
    dp v' = d1 /\ mgr v' = mgr v.
Proof.
  intros status d1 Hcase.
  destruct (port_status_prologue_run port_no reason state v)
    as (v1 & Hpro & Hdp & Hmgr & _).
  cbv zeta in Hdp. fold status in Hdp. fold d1 in Hdp.
  exists v1. split; [|done].
  unfold port_status_handler. rewrite (mbind_Ret _ _ _ _ _ Hpro).
  unfold mbind at 1. unfold gets at 1. rewrite Hdp.
  destruct (port_no_valid ext d1 port_no) eqn:Hvalid; [|reflexivity].
  destruct Hcase as [Hcase | (port & Hport & Hcase)]; [done|].
  cbn [negb]. unfold mbind at 1. unfold get_port at 1. rewrite Hdp.
  subst d1. cbn [ports set_dyn_up_port_nos set_dp_dyn]. rewrite Hport.
  destruct Hcase as [Hre | (Hm & Hd & Ha)].
  - by rewrite Hre.
  - destruct (opstatus_reconf port); [|reflexivity]. cbn [negb].
    unfold _decode_port_status.
    apply Z.eqb_neq in Hm, Hd, Ha. by rewrite Hm, Hd, Ha.
Qed.

(** How [port_status_handler] reacts on a configured port with
    [opstatus_reconf].  A DELETE, or a MODIFY with a down state, only
    deletes the port: [port_add] is not called.  An ADD, or a MODIFY
    with an up state, on a port that was not physically up only adds
    the port: nothing is deleted first. *)
Theorem port_status_handler_dispatch (v : Valve) (port_no reason state : Z)
    (port : Port) :
  let status := port_status_from_state ext state in
  let d1 := set_dyn_up_port_nos
              (if status then {[port_no]} ∪ dyn_up_port_nos (dp v)
               else dyn_up_port_nos (dp v) ∖ {[port_no]}) (dp v) in
  OFPPR_ADD ext <> OFPPR_DELETE ext ->
  OFPPR_ADD ext <> OFPPR_MODIFY ext ->
  OFPPR_DELETE ext <> OFPPR_MODIFY ext ->
  port_no_valid ext d1 port_no = true ->
  ports (dp v) !! port_no = Some port ->
  opstatus_reconf port = true ->
  exists v1,
    port_status_prologue ext port_no reason state v = Ret (tt, v1) /\
    (reason = OFPPR_DELETE ext \/
     (reason = OFPPR_MODIFY ext /\ status = false) ->
     port_status_handler ext port_no reason state v
       = (a <- port_delete ext port_no ;; mret (Some a)) v1) /\
    (reason = OFPPR_ADD ext \/
     (reason = OFPPR_MODIFY ext /\ status = true) ->
     dyn_phys_up port = false ->
     port_status_handler ext port_no reason state v
       = (b <- port_add ext port_no ;; mret (Some b)) v1).
Proof.
  intros status d1 Had Ham Hdm Hvalid Hport Hre.
  destruct (port_status_prologue_run port_no reason state v)
    as (v1 & Hpro & Hdp & _ & _).
  cbv zeta in Hdp. fold status in Hdp. fold d1 in Hdp.
  exists v1. split; [exact Hpro|].
  assert (Hhead :
    port_status_handler ext port_no reason state v
    = (match _decode_port_status ext reason with
       | UNKNOWN => mret None
       | _ =>
           if (reason =? OFPPR_ADD ext)
              || ((reason =? OFPPR_MODIFY ext) && status)
           then a <- (if dyn_phys_up port then port_delete ext port_no
                      else mret []) ;;
                b <- port_add ext port_no ;;
                mret (Some (a ++ b))
           else a <- port_delete ext port_no ;; mret (Some a)
       end) v1).
  { unfold port_status_handler. rewrite (mbind_Ret _ _ _ _ _ Hpro).
    unfold mbind at 1. unfold gets at 1. rewrite Hdp, Hvalid. cbn [negb].
    unfold mbind at 1. unfold get_port at 1. rewrite Hdp.
    subst d1. cbn [ports set_dyn_up_port_nos set_dp_dyn].
    rewrite Hport, Hre. reflexivity. }
  assert (Hda : (OFPPR_DELETE ext =? OFPPR_ADD ext) = false)
    by (apply Z.eqb_neq; congruence).
  assert (Hma : (OFPPR_MODIFY ext =? OFPPR_ADD ext) = false)
    by (apply Z.eqb_neq; congruence).
  assert (Hmd : (OFPPR_MODIFY ext =? OFPPR_DELETE ext) = false)
    by (apply Z.eqb_neq; congruence).
  apply Z.eqb_neq in Had, Ham, Hdm.
  rewrite Hhead. unfold _decode_port_status. split.
  - intros [-> | [-> Hst]].
    + by rewrite Hdm, Hda, Z.eqb_refl.
    + by rewrite Hma, Hst, Z.eqb_refl.
  - intros Hcase Hphys. rewrite Hphys.
    assert (Hadd : forall w : Valve,
              (a <- mret [] ;; b <- port_add ext port_no ;;
               mret (Some (a ++ b))) w
              = (b <- port_add ext port_no ;; mret (Some b)) w).
    { intros w. unfold mbind, mret.
      by destruct (port_add ext port_no w) as [[b w']|e]. }
    destruct Hcase as [-> | [-> Hst]].
    + rewrite Ham, Had, Z.eqb_refl. cbn [orb]. apply Hadd.
    + rewrite Hma, Hst, Z.eqb_refl. cbn [orb andb]. apply Hadd.
Qed.

(** ** Deleting one port *)

Lemma port_delete_flows_state_run (port : Port) (v : Valve) :
  exists a c s,
    _port_delete_flows_state ext port v
      = Ret (a ++ _delete_all_port_match_flows ext (dp v) port ++ c,
             set_mgr s v).
Proof.
  unfold _port_delete_flows_state.
  unfold mbind at 1. unfold gets at 1.
  assert (H1 : mgr_only (for_msgs (_route_manager_by_ipv v)
                 (fun ipv => call (expire_port_nexthops ext ipv) port))).
  { apply mgr_only_for_msgs. intros x. apply mgr_only_call. }
  destruct (H1 v) as (a & s1 & Ha).
  rewrite (mbind_Ret _ _ _ _ _ Ha).
  unfold mbind at 1. unfold gets at 1.
  assert (H2 : mgr_only (_port_delete_manager_state ext port)).
  { unfold _port_delete_manager_state.
    apply mgr_only_bind; [by apply mgr_only_gets|]. intros ms.
    apply mgr_only_for_msgs. intros x. apply mgr_only_call. }
  destruct (H2 (set_mgr s1 v)) as (c & s2 & Hc).
  rewrite (mbind_Ret _ _ _ _ _ Hc).
  exists a, c, s2. reflexivity.
Qed.

(** [ports_delete] on one valid port without 802.1X always returns and
    marks the port physically down.  For an output-only port nothing
    else happens: no message, no manager call.  For a LACP port the
    messages and the resulting Valve are exactly those of [lacp_down]
    run on the Valve with the port marked down (the managers' messages
    for the port going down, then the input drop and the LACP punt
    rule); [_port_delete_flows_state] is not run.  For any other port
    the messages and the resulting Valve are exactly those of
    [_port_delete_flows_state], and the deletes of
    [_delete_all_port_match_flows] are among them.  No other port is
    changed. *)
Theorem ports_delete_port_effect (v : Valve) (n : Z) (p : Port) :
  port_no_valid ext (dp v) n = true ->
  ports (dp v) !! n = Some p ->
  dot1x p = false ->
  let down := set_dyn_phys_up false p in
  let v1 := with_port n down v in
  exists ms vl v',
    ports_delete_port ext n v = Ret ((ms, vl), v') /\
    ports (dp v')
      = <[n := if negb (output_only p) && truthyZ (lacp p)
               then lacp_reset down else down]> (ports (dp v)) /\
    (output_only p = true -> ms = [] /\ vl = [] /\ v' = v1) /\
    (output_only p = false -> lacp p = 0 ->
     vl = port_vlans ext down /\
     _port_delete_flows_state ext down v1 = Ret (ms, v') /\
     forall m, m ∈ _delete_all_port_match_flows ext (dp v1) down -> m ∈ ms) /\
    (output_only p = false -> lacp p <> 0 ->
     vl = port_vlans ext down /\
     lacp_down ext n false v1 = Ret (ms, v') /\
     exists pre s,
       lacp_down_state_msgs ext (lacp_reset down)
         (with_port n (lacp_reset down) v1)
         = Ret (pre, set_mgr s (with_port n (lacp_reset down) v1)) /\
       ms = pre ++ [flowdrop T_vlan (match_in_port (number p))
                      (high_priority (dp v));
                    vlan_table_lacp_punt ext (dp v) (number p)]).
Proof.
  intros Hvalid Hp Hdot down v1.
  unfold ports_delete_port. unfold mbind at 1. unfold gets at 1.
  rewrite Hvalid. cbn [negb].
  rewrite (mbind_Ret _ _ _ _ _ (get_port_run _ _ _ Hp)). fold down.
  unfold mbind at 1. unfold put_port at 1, modify at 1.
  fold (with_port n down v). fold v1.
  change (output_only down) with (output_only p).
  change (dot1x down) with (dot1x p).
  change (lacp down) with (lacp p).
  destruct (output_only p) eqn:Hout.
  - eexists [], [], v1. split; [reflexivity|]. split; [reflexivity|].
    split; [done|]. split; intros; done.
  - rewrite Hdot. unfold mbind at 1. unfold mret at 1.
    destruct (truthyZ (lacp p)) eqn:Hl.
    + assert (Hp1 : ports (dp v1) !! n = Some down)
        by apply lookup_insert_eq.
      destruct (lacp_down_run ext v1 n false down Hp1)
        as (ms & s & Hpre & Hrun).
      rewrite (mbind_Ret _ _ _ _ _ Hrun).
      eexists _, _, _. split; [reflexivity|].
      split; [cbn; by rewrite insert_insert_eq|].
      split; [done|]. split.
      * intros _ H0. rewrite H0 in Hl. done.
      * intros _ _. split; [reflexivity|]. split; [exact Hrun|].
        exists ms, s. split; [exact Hpre | reflexivity].
    + destruct (port_delete_flows_state_run down v1) as (a & c & s & Hrun).
      rewrite (mbind_Ret _ _ _ _ _ Hrun).
      eexists _, _, _. split; [reflexivity|].
      split; [reflexivity|]. split; [done|]. split.
      * intros _ _. split; [reflexivity|]. split; [exact Hrun|].
        intros m Hm. cbn [app].
        apply elem_of_app. right. apply elem_of_app. by left.
      * intros _ Hne. unfold truthyZ in Hl. apply negb_false_iff in Hl.
        apply Z.eqb_eq in Hl. done.
Qed.

End Ports.


(** ** The DP across a reload and a disconnection *)

Section Lifecycle.

Context {MgrState : Type} (ext : External MgrState).
Local Abbreviation Valve := (Valve MgrState).
Local Abbreviation M := (M MgrState).

(** Up to the Port objects, the DP is [d]. *)
Lemma stable_dp_up_to_ports (d : DP) :
  stable (fun w : Valve => exists ps, dp w = set_ports ps d).
Proof.
  split; try done.
  intros w ps' [ps Hw]. exists ps'. simpl. by rewrite Hw.
Qed.

Lemma apply_config_changes_dp (v v2 : Valve) (new_dp : DP) (changes : Changes)
    (cs : bool) (ms : list OfMsg) :
  _apply_config_changes ext new_dp changes v = Ret ((cs, ms), v2) ->
  (exists ps, dp v2 = set_ports ps (clone_dyn_state new_dp (dp v))) /\
  (cs = true -> ms = []).
Proof.
  intros H.
  assert (Hpipe : exists pc, _pipeline_change ext v = Ret pc).
  { unfold _apply_config_changes, mbind at 1, lift in H.
    destruct (_pipeline_change ext v); [eauto | done]. }
  destruct Hpipe as [pc Hpipe].
  destruct (pc || all_ports_changed changes) eqn:Hcold.
  - destruct (apply_config_changes_cold ext v new_dp changes pc Hpipe Hcold)
      as (v1 & H1 & Hinit).
    destruct (dp_init_Ret ext new_dp v) as (v1' & Hinit' & Hdp & _).
    assert (v1' = v1) by congruence. subst v1'.
    rewrite H1 in H. injection H as <- <- <-.
    split; [|done]. exists (ports new_dp). rewrite Hdp. reflexivity.
  - apply orb_false_iff in Hcold as [-> Hall].
    destruct (apply_config_changes_warm_order ext v new_dp changes cs ms v2
                Hpipe Hall H)
      as (-> & m1 & v1 & dvl & m3 & v3 & vs & cvl & m4 & v4 & m5 & v5 & m6
          & H1 & _ & H3 & _ & Hdp & _ & H4 & H5 & H6 & _).
    split; [|done].
    pose proof (stable_dp_up_to_ports (dp v)) as HSold.
    pose proof (stable_dp_up_to_ports (clone_dyn_state new_dp (dp v))) as HSnew.
    assert (P1 : exists ps, dp v1 = set_ports ps (dp v)).
    { eapply (preserves_ports_delete ext _ HSold); [exact H1|].
      exists (ports (dp v)). by destruct (dp v). }
    assert (P3 : exists ps, dp v3 = set_ports ps (dp v)).
    { eapply (preserves_ports_delete ext _ HSold); [exact H3|exact P1]. }
    assert (Ps : exists ps, dp vs = set_ports ps (clone_dyn_state new_dp (dp v))).
    { destruct P3 as [ps P3]. exists (ports new_dp). rewrite Hdp, P3.
      reflexivity. }
    assert (P4 : exists ps, dp v4 = set_ports ps (clone_dyn_state new_dp (dp v))).
    { eapply (preserves_add_vlans ext _ _ HSnew); [exact H4|exact Ps]. }
    assert (P5 : exists ps, dp v5 = set_ports ps (clone_dyn_state new_dp (dp v))).
    { eapply (preserves_ports_add ext _ HSnew); [exact H5|exact P4]. }
    destruct (acl_manager_set v5).
    + assert (Hacl : preserves
                (fun w : Valve =>
                   exists ps, dp w = set_ports ps (clone_dyn_state new_dp (dp v)))
                (for_msgs (changed_acl_ports changes) (reinstall_acl ext))).
      { unfold reinstall_acl. preserves_tac. }
      eapply Hacl; [exact H6|exact P5].
    + destruct H6 as [_ ->]. exact P5.
Qed.

Lemma reload_config_inv (v v' : Valve) (now : Q) (new_dp : DP)
    (r : option (list OfMsg)) :
  reload_config ext now new_dp v = Ret (r, v') ->
  exists cs ms v2,
    _apply_config_changes ext new_dp (get_config_changes ext (dp v) new_dp) v
      = Ret ((cs, ms), v2) /\
    dp v' = dp v2 /\
    r = (if cs then (if dyn_running (dp v2) then None else Some ms)
         else if dyn_running (dp v2) && negb (is_nil ms)
              then Some ms else Some []).
Proof.
  intros H. unfold reload_config in H.
  unfold mbind at 1, gets at 1 in H.
  minv H as r0 v2 Happ. destruct r0 as [cs ms].
  exists cs, ms, v2. split; [exact Happ|].
  unfold mbind at 1, gets at 1 in H. cbn [fst snd] in H.
  destruct cs; [|destruct (dyn_running (dp v2) && negb (is_nil ms))];
    unfold _inc_var, _notify, mbind, modify, mret in H; cbn [fst snd] in H;
    injection H as <- <-; split; try reflexivity.
Qed.

Lemma same_port_config_refl (p : Port) : same_port_config p p.
Proof.
  exists (dyn_phys_up p), (dyn_lacp_up p), (dyn_last_lacp_pkt p),
    (dyn_lacp_updated_time p), (dyn_lacp_last_resp_time p),
    (dyn_stack_current_state p).
  by destruct p.
Qed.

Lemma same_port_config_trans (p q r : Port) :
  same_port_config p q -> same_port_config q r -> same_port_config p r.
Proof.
  intros (a1 & a2 & a3 & a4 & a5 & a6 & ->) (b1 & b2 & b3 & b4 & b5 & b6 & ->).
  by exists b1, b2, b3, b4, b5, b6.
Qed.

Lemma same_port_config_phys_up (b : bool) (p : Port) :
  same_port_config p (set_dyn_phys_up b p).
Proof. unfold set_dyn_phys_up. by eexists _, _, _, _, _, _. Qed.

Lemma same_port_config_lacp_reset (p : Port) :
  same_port_config p (lacp_reset p).
Proof.
  exists (dyn_phys_up p), 0, None, None, None, (dyn_stack_current_state p).
  by destruct p.
Qed.

Lemma ports_of_config_refl (ps : gmap Z Port) : ports_of_config ps ps.
Proof.
  intros n. destruct (ps !! n); [apply same_port_config_refl | done].
Qed.

Lemma ports_of_config_insert (config ps : gmap Z Port) (n : Z) (p q : Port) :
  ports_of_config config ps -> ps !! n = Some p -> same_port_config p q ->
  ports_of_config config (<[n := q]> ps).
Proof.
  intros H Hp Hq m. specialize (H m).
  destruct (decide (n = m)) as [->|Hne].
  - rewrite lookup_insert_eq. rewrite Hp in H.
    destruct (config !! m); [|done]. by eapply same_port_config_trans.
  - by rewrite lookup_insert_ne.
Qed.

(** *** Methods that only assign dynamic attributes of Port objects *)

Section DynamicOnly.

Variable P : Valve -> Prop.
Hypothesis P_mgr : forall v s, P v -> P (set_mgr s v).
Hypothesis P_metric : forall v m, P v -> P (add_metric m v).
Hypothesis P_port : forall v n p q,
  ports (dp v) !! n = Some p -> same_port_config p q -> P v ->
  P (with_port n q v).

Lemma dyn_call {X} (f : MgrState -> DP -> X -> list OfMsg * MgrState) (x : X) :
  preserves P (call f x).
Proof.
  intros v a v' H HP. unfold call in H. simplify_eq. by apply P_mgr.
Qed.

Lemma dyn_set_var var l val : preserves P (_set_var var l val : M unit).
Proof.
  intros v a v' H HP. unfold _set_var, modify in H. simplify_eq.
  by apply P_metric.
Qed.

(** [port = self.dp.ports[n]] followed by assignments to dynamic
    attributes of [port]. *)
Lemma dyn_update_port {B} (n : Z) (f : Port -> Port) (k : Port -> M B) :
  (forall p, same_port_config p (f p)) ->
  (forall p, preserves P (k p)) ->
  preserves P (port0 <- get_port n ;; put_port n (f port0) ;;; k port0).
Proof.
  intros Hf Hk v b v' H HP.
  apply mbind_Ret_inv in H as (p & v1 & Hget & H).
  unfold get_port in Hget.
  destruct (ports (dp v) !! n) as [p0|] eqn:Hp; [|done].
  injection Hget as <- <-.
  apply mbind_Ret_inv in H as (u & v2 & Hput & H).
  unfold put_port, modify in Hput. injection Hput as _ <-.
  eapply Hk; [exact H|].
  apply (P_port v n p0 (f p0) Hp (Hf p0) HP).
Qed.

Local Hint Resolve dyn_call dyn_set_var : preserves.

Lemma dyn_lacp_down n cs : preserves P (lacp_down ext n cs).
Proof.
  unfold lacp_down.
  apply (dyn_update_port n lacp_reset); [apply same_port_config_lacp_reset|].
  intros p. unfold _reset_lacp_status. preserves_tac.
Qed.

Lemma dyn_lacp_actions pkt n : preserves P (_lacp_actions ext pkt n).
Proof. unfold _lacp_actions. preserves_tac. Qed.

Local Hint Resolve dyn_lacp_down dyn_lacp_actions : preserves.

Lemma dyn_ports_add_port cs n : preserves P (ports_add_port ext cs n).
Proof.
  unfold ports_add_port.
  apply preserves_bind; [apply preserves_gets|]. intros valid.
  destruct (negb valid); [apply preserves_mret|].
  apply (dyn_update_port n (set_dyn_phys_up true));
    [apply same_port_config_phys_up|].
  intros p. unfold get_nfv_sw_port. preserves_tac.
Qed.

Lemma dyn_ports_add l cs : preserves P (ports_add ext l cs).
Proof.
  unfold ports_add. pose proof dyn_ports_add_port. preserves_tac.
Qed.

Lemma dyn_add_vlans (vs : list VLAN) : preserves P (_add_vlans ext vs).
Proof.
  unfold _add_vlans, _add_vlan. preserves_tac.
  apply preserves_modify. intros v0. apply P_mgr.
Qed.

Lemma dyn_reinstall_acl (l : list Z) :
  preserves P (for_msgs l (reinstall_acl ext)).
Proof. unfold reinstall_acl. preserves_tac. Qed.

End DynamicOnly.

Lemma apply_config_changes_ports (v v2 : Valve) (new_dp : DP)
    (changes : Changes) (cs : bool) (ms : list OfMsg) :
  _apply_config_changes ext new_dp changes v = Ret ((cs, ms), v2) ->
  ports_of_config (ports new_dp) (ports (dp v2)) /\
  (cs = true -> ports (dp v2) = ports new_dp).
Proof.
  intros H.
  assert (Hpipe : exists pc, _pipeline_change ext v = Ret pc).
  { unfold _apply_config_changes, mbind at 1, lift in H.
    destruct (_pipeline_change ext v); [eauto | done]. }
  destruct Hpipe as [pc Hpipe].
  destruct (pc || all_ports_changed changes) eqn:Hcold.
  - destruct (apply_config_changes_cold ext v new_dp changes pc Hpipe Hcold)
      as (v1 & H1 & Hinit).
    destruct (dp_init_Ret ext new_dp v) as (v1' & Hinit' & Hdp & _).
    assert (v1' = v1) by congruence. subst v1'.
    rewrite H1 in H. injection H as <- <- <-.
    rewrite Hdp. split; [apply ports_of_config_refl | done].
  - apply orb_false_iff in Hcold as [-> Hall].
    destruct (apply_config_changes_warm_order ext v new_dp changes cs ms v2
                Hpipe Hall H)
      as (-> & m1 & v1 & dvl & m3 & v3 & vs & cvl & m4 & v4 & m5 & v5 & m6
          & _ & _ & _ & _ & Hdp & _ & H4 & H5 & H6 & _).
    split; [|done].
    set (P := fun w : Valve => ports_of_config (ports new_dp) (ports (dp w))).
    assert (P_mgr : forall w s, P w -> P (set_mgr s w)) by done.
    assert (P_metric : forall w m, P w -> P (add_metric m w)) by done.
    assert (P_port : forall w n p q,
              ports (dp w) !! n = Some p -> same_port_config p q -> P w ->
              P (with_port n q w)).
    { intros w n p q Hp Hq Hw. unfold P. cbn.
      by eapply ports_of_config_insert. }
    assert (Ps : P vs).
    { unfold P. rewrite Hdp. apply ports_of_config_refl. }
    assert (P4 : P v4) by exact (dyn_add_vlans P P_mgr _ _ _ _ H4 Ps).
    assert (P5 : P v5)
      by exact (dyn_ports_add P P_mgr P_metric P_port _ _ _ _ _ H5 P4).
    destruct (acl_manager_set v5).
    + exact (dyn_reinstall_acl P P_mgr _ _ _ _ H6 P5).
    + destruct H6 as [_ ->]. exact P5.
Qed.

(** A reload of the configuration, cold or warm, leaves as the DP of the
    Valve the new DP with the dynamic state of the outgoing DP cloned
    into it by [clone_dyn_state].  Its Port objects are those of the new
    DP: no port is missing or added, and each has the configuration it
    has in the new DP; only the dynamic attributes that the addition of
    ports assigns may differ, and after a cold start not even those. *)
Theorem reload_config_swaps_dp (v v' : Valve) (now : Q) (new_dp : DP)
    (r : option (list OfMsg)) :
  reload_config ext now new_dp v = Ret (r, v') ->
  dp v' = set_ports (ports (dp v')) (clone_dyn_state new_dp (dp v)) /\
  ports_of_config (ports new_dp) (ports (dp v')) /\
  (forall pipeline_changed,
     _pipeline_change ext v = Ret pipeline_changed ->
     pipeline_changed
     || all_ports_changed (get_config_changes ext (dp v) new_dp) = true ->
     dp v' = clone_dyn_state new_dp (dp v)).
Proof.
  intros H. apply reload_config_inv in H as (cs & ms & v2 & Happ & Hdp & _).
  pose proof (apply_config_changes_dp _ _ _ _ _ _ Happ) as [[ps Hps] _].
  pose proof (apply_config_changes_ports _ _ _ _ _ _ Happ) as [Hports _].
  split; [rewrite Hdp, Hps; reflexivity|].
  split; [by rewrite Hdp|].
  intros pc Hpipe Hcold.
  destruct (apply_config_changes_cold ext v new_dp _ pc Hpipe Hcold)
    as (v1 & H1 & Hinit).
  destruct (dp_init_Ret ext new_dp v) as (v1' & Hinit' & Hdp1 & _).
  assert (v1' = v1) by congruence. subst v1'.
  rewrite H1 in Happ. injection Happ as _ _ <-. by rewrite Hdp.
Qed.

(** While the datapath is not running, a reload of the configuration
    sends nothing, whether it is a cold or a warm one: [reload_config]
    returns the empty list, and the datapath is still not running
    afterwards (the running flag is part of the dynamic state carried
    over by [clone_dyn_state]). *)
Theorem reload_config_not_running (v v' : Valve) (now : Q) (new_dp : DP)
    (r : option (list OfMsg)) :
  dyn_running (dp v) = false ->
  reload_config ext now new_dp v = Ret (r, v') ->
  r = Some [] /\ dyn_running (dp v') = false.
Proof.
  intros Hrun H.
  apply reload_config_inv in H as (cs & ms & v2 & Happ & Hdp & ->).
  apply apply_config_changes_dp in Happ as [[ps Hps] Hcold].
  assert (Hrun2 : dyn_running (dp v2) = false) by (by rewrite Hps).
  rewrite Hdp, Hrun2. split; [|done].
  destruct cs; [by rewrite Hcold|done].
Qed.

(** [datapath_disconnect] always returns.  It clears the running flag,
    notifies the disconnection and leaves the ports, their recorded
    status and the managers as they were; afterwards [state_expire]
    expires nothing: it returns the empty dict and changes nothing. *)
Theorem datapath_disconnect_quiet (v0 : Valve) :
  exists v,
    datapath_disconnect v0 = Ret (tt, v) /\
    dp v = set_dyn_running false (dp v0) /\
    mgr v = mgr v0 /\
    notifier v = notifier v0 ++ [DP_CHANGE_disconnect] /\
    metrics v = metrics v0 ++ [inc_var "of_dp_disconnections";
                               set_var "dp_status" None 0] /\
    forall now, state_expire ext now v = Ret (None, v).
Proof.
  eexists. split; [reflexivity|].
  split; [reflexivity|]. split; [reflexivity|]. split; [reflexivity|].
  split; [cbn; by rewrite <- app_assoc|]. intros now. reflexivity.
Qed.

(** The order of the messages of a warm reload (no pipeline change, not
    all ports changed): the deletion of the removed ports, the deletion
    of the removed VLANs, the deletion of the changed ports; then the
    swap to the new DP; then the deletion and re-addition of the
    changed VLANs, the addition of the changed ports that were up
    before the swap, and, with an ACL manager, the reinstallation of
    the ACLs of the changed-ACL ports. *)
Theorem apply_config_changes_warm_sequence
    (v : Valve) (new_dp : DP) (changes : Changes)
    (cold_start : bool) (ofmsgs : list OfMsg) (v' : Valve) :
  _pipeline_change ext v = Ret false ->
  all_ports_changed changes = false ->
  _apply_config_changes ext new_dp changes v = Ret ((cold_start, ofmsgs), v') ->
  cold_start = false /\
  exists m1 v1 deleted_vlans m3 v3 v_swap changed_vlans m4 v4 m5 v5 m6,
    ports_delete ext (deleted_ports changes) v = Ret (m1, v1) /\
    mmap get_vlan (deleted_vids changes) v1 = Ret (deleted_vlans, v1) /\
    ports_delete ext (changed_ports changes) v1 = Ret (m3, v3) /\
    dp_init ext (Some new_dp) v3 = Ret (tt, v_swap) /\
    mmap get_vlan (changed_vids changes) v_swap = Ret (changed_vlans, v_swap) /\
    _add_vlans ext changed_vlans v_swap = Ret (m4, v4) /\
    ports_add ext
      (filter (fun n => n ∈ dyn_up_port_nos (dp v)) (changed_ports changes))
      false v4 = Ret (m5, v5) /\
    (if acl_manager_set v5
     then for_msgs (changed_acl_ports changes) (reinstall_acl ext) v5
          = Ret (m6, v')
     else m6 = [] /\ v' = v5) /\
    ofmsgs =
      m1 ++ _del_vlans deleted_vlans ++ m3
      ++ (_del_vlans changed_vlans ++ m4) ++ m5 ++ m6.
Proof.
  intros Hpipe Hall H.
  destruct (apply_config_changes_warm_order ext v new_dp changes cold_start
              ofmsgs v' Hpipe Hall H)
    as (Hcs & m1 & v1 & dvl & m3 & v3 & vs & cvl & m4 & v4 & m5 & v5 & m6
        & H1 & H2 & H3 & Hs & _ & H4 & H5 & H6 & H7 & Hms).
  split; [exact Hcs|].
  exists m1, v1, dvl, m3, v3, vs, cvl, m4, v4, m5, v5, m6.
  repeat (split; [assumption|]). assumption.
Qed.

End Lifecycle.


(** ** Provisioning the pipeline, and advertisements *)

Section ProvisioningProperties.

Context {MgrState : Type} (ext : External MgrState) (ext2 : @External2 MgrState).
Local Abbreviation Valve := (Valve MgrState).
Local Abbreviation M := (M MgrState).

Lemma pipeline_change_tfm (v : Valve) (last : list string)
    (rest : list (list string)) :
  _last_pipeline_flows v = last :: rest ->
  tfm v = true ->
  exists b, _pipeline_change ext v = Ret b /\
            (b = false <-> forall s, s ∈ last <-> s ∈ load_tables ext (dp v)).
Proof.
  intros Hlast Htfm. unfold _pipeline_change, _pipeline_flows.
  rewrite Hlast, Htfm. eexists. split; [reflexivity|].
  rewrite negb_false_iff, bool_decide_eq_true. rewrite set_eq.
  split; intros H s; specialize (H s);
    by rewrite !elem_of_list_to_set in *.
Qed.

(** [_pipeline_change] compares the pipeline that was last sent with
    the current one as sets of table descriptions: the order of the
    tables and repetitions do not count as a change.  A Valve that has
    sent no pipeline yet reports no change. *)
Theorem pipeline_change_as_sets (v : Valve) :
  (_last_pipeline_flows v = [] -> _pipeline_change ext v = Ret false) /\
  (forall last rest,
     _last_pipeline_flows v = last :: rest -> tfm v = true ->
     exists b, _pipeline_change ext v = Ret b /\
               (b = false <->
                forall s, s ∈ last <-> s ∈ load_tables ext (dp v))).
Proof.
  split.
  - intros H. unfold _pipeline_change. by rewrite H.
  - intros last rest. apply pipeline_change_tfm.
Qed.

(** [_add_default_flows] always returns and changes neither the DP nor
    the managers.  Its messages start with the delete of all flows, on
    a [TfmValve] preceded by the table features of the pipeline; every
    table of the DP gets its default rule at [lowest_priority], a goto
    to its miss table if it has one and a drop otherwise.  On a
    [TfmValve] the pipeline sent is remembered, so that
    [_pipeline_change] then reports no change. *)
Theorem add_default_flows_effect (v : Valve) :
  exists ms v',
    _add_default_flows ext ext2 v = Ret (ms, v') /\
    dp v' = dp v /\ mgr v' = mgr v /\ tfm v' = tfm v /\
    (exists rest,
       ms = (if tfm v then [table_features ext2 (load_tables ext (dp v))]
             else [])
            ++ flowdel wildcard_table match_any None false :: rest) /\
    (forall t miss, (t, miss) ∈ dp_tables ext2 (dp v) ->
       match miss with
       | Some m => flowmod t match_any (lowest_priority (dp v))
                     [goto_miss ext2 m]
       | None => flowdrop t match_any (lowest_priority (dp v))
       end ∈ ms) /\
    (tfm v = true \/ _last_pipeline_flows v = [] ->
     _pipeline_change ext v' = Ret false).
Proof.
  assert (Hdrop : forall t miss, (t, miss) ∈ dp_tables ext2 (dp v) ->
            match miss with
            | Some m => flowmod t match_any (lowest_priority (dp v))
                          [goto_miss ext2 m]
            | None => flowdrop t match_any (lowest_priority (dp v))
            end ∈ Valve_add_default_flows ext2 (dp v)).
  { intros t miss Hin. unfold Valve_add_default_flows.
    apply elem_of_app. right. apply elem_of_app. right.
    apply elem_of_app. right. unfold _add_default_drop_flows.
    apply list_elem_of_fmap. exists (t, miss). split; [by destruct miss|done]. }
  unfold _add_default_flows, mbind, gets, modify, mret.
  destruct (tfm v) eqn:Htfm.
  - eexists _, _. split; [reflexivity|]. cbn.
    split; [done|]. split; [done|]. split; [done|]. split; [|split].
    + unfold _pipeline_flows. rewrite Htfm. cbn. eexists. reflexivity.
    + intros t miss Hin. apply elem_of_app. right. by apply Hdrop.
    + intros _. unfold _pipeline_change, _pipeline_flows. cbn.
      rewrite ?Htfm. cbn. rewrite ?Htfm.
      by rewrite bool_decide_eq_true_2.
  - eexists _, _. split; [reflexivity|].
    split; [done|]. split; [done|]. split; [done|]. split; [|split].
    + cbn. eexists. reflexivity.
    + exact Hdrop.
    + intros [?|Hnil]; [done|]. unfold _pipeline_change. by rewrite Hnil.
Qed.

(** [advertise] sends at most once per [advertise_interval]: it does
    nothing when the interval is zero or less than the interval has
    passed since the last advertisement; otherwise it remembers [now]
    as the time of the last advertisement, so that a call less than an
    interval later does nothing.  It never changes the DP. *)
Theorem advertise_rate (v : Valve) (now : Q) :
  let interval := advertise_interval ext2 (dp v) in
  exists r v',
    advertise ext2 now v = Ret (r, v') /\
    dp v' = dp v /\
    (interval = 0 \/ (now - _last_advertise_sec v < inject_Z interval)%Q ->
     r = None /\ v' = v) /\
    (interval <> 0 ->
     (inject_Z interval <= now - _last_advertise_sec v)%Q ->
     _last_advertise_sec v' = now /\
     forall later, (later - now < inject_Z interval)%Q ->
                   advertise ext2 later v' = Ret (None, v')).
Proof.
  intros interval. unfold advertise.
  unfold mbind at 1. unfold gets at 1. fold interval.
  unfold mbind at 1. unfold gets at 1.
  destruct (negb (truthyZ interval)
            || Qlt_bool (now - _last_advertise_sec v) (inject_Z interval))
    eqn:Hskip.
  - exists None, v. split; [reflexivity|]. split; [reflexivity|].
    split; [done|]. intros Hne Hle. exfalso.
    apply orb_true_iff in Hskip as [Hz | Hlt].
    + unfold truthyZ in Hz. rewrite negb_involutive in Hz.
      by apply Z.eqb_eq in Hz.
    + apply Qlt_bool_iff in Hlt. by apply Qlt_not_le in Hlt.
  - apply orb_false_iff in Hskip as [Hz Hlt].
    unfold truthyZ in Hz. rewrite negb_involutive in Hz.
    apply Z.eqb_neq in Hz. apply Qlt_bool_false_iff in Hlt.
    unfold mbind at 1. unfold modify at 1.
    set (v1 := set_last_advertise_sec now v).
    unfold mbind at 1. unfold gets at 1.
    unfold mbind at 1. unfold gets at 1.
    assert (Hm : mgr_only
              (for_msgs (_route_manager_by_ipv v1)
                 (fun ipv =>
                    for_msgs (map_to_list (vlans (dp v1))).*2
                      (fun vlan => call (rm_advertise ext2 ipv) vlan)))).
    { apply mgr_only_for_msgs. intros ipv.
      apply mgr_only_for_msgs. intros vlan. apply mgr_only_call. }
    destruct (Hm v1) as (ms & s & Hms).
    rewrite (mbind_Ret _ _ _ _ _ Hms).
    eexists _, _. split; [reflexivity|]. split; [reflexivity|]. split.
    + intros [H0 | H1]; [done|]. exfalso. by apply Qlt_not_le in H1.
    + intros _ _. split; [reflexivity|].
      intros later Hlater.
      unfold mbind at 1. unfold gets at 1.
      unfold mbind at 1. unfold gets at 1.
      cbn [dp set_mgr set_last_advertise_sec _last_advertise_sec v1].
      fold interval.
      apply Qlt_bool_iff in Hlater. rewrite Hlater.
      by rewrite orb_true_r.
Qed.

End ProvisioningProperties.


(** ** Edge cases *)

(** A stack port that is administratively down is never given a new
    state.  On any other stack port, once a probe has been seen, a peer
    whose LLDP send interval is zero makes [_next_stack_link_state]
    fail with ZeroDivisionError, whatever the cabling: the number of
    lost probes is computed before the cabling is looked at. *)
Theorem next_stack_link_state_zero_interval (port : Port) (now : Q) :
  (is_stack_admin_down port = true ->
   _next_stack_link_state port now = Ret None) /\
  (forall remote_dp t,
     is_stack_admin_down port = false ->
     last_seen_lldp_time (dyn_stack_probe_info port) = Some t ->
     stack port = Some remote_dp ->
     lldp_send_interval remote_dp = 0 ->
     _next_stack_link_state port now = Raise ZeroDivisionError).
Proof.
  unfold _next_stack_link_state. split.
  - by intros ->.
  - intros remote_dp t -> -> -> Hz. fold (lldp_send_interval remote_dp).
    by rewrite Hz.
Qed.

Section PortsAdd.

Context {MgrState : Type} (ext : External MgrState).
Local Abbreviation Valve := (Valve MgrState).
Local Abbreviation M := (M MgrState).

(** The loop body of [ports_add] on a valid port marks it physically
    up.  If the port is then not running nothing else happens.  For a
    running output-only port (not a coprocessor port, no 802.1X on the
    DP) the messages are exactly those that [add_port] of each manager
    of [_get_managers] returns for the port, in that order, followed by
    one drop of the port's input at [highest_priority]; the Valve
    changes only by the port being up and by what the managers did to
    their own state; no VLAN is added to those to flood anew. *)
Theorem ports_add_port_output_only (v : Valve) (cold_start : bool) (n : Z)
    (p : Port) :
  port_no_valid ext (dp v) n = true ->
  ports (dp v) !! n = Some p ->
  let up := set_dyn_phys_up true p in
  let v1 := with_port n up v in
  (running ext up = false ->
   ports_add_port ext cold_start n v = Ret (([], []), v1)) /\
  (running ext up = true -> coprocessor p = None ->
   dp_dot1x (dp v) = None -> output_only p = true ->
   exists ms_mgr s,
     for_msgs (_get_managers v1)
       (fun manager => call (add_port ext manager) up) v1
       = Ret (ms_mgr, set_mgr s v1) /\
     ports_add_port ext cold_start n v
       = Ret ((ms_mgr ++ [flowdrop T_vlan (match_in_port n)
                            (highest_priority (dp v))], []),
              set_mgr s v1)).
Proof.
  intros Hvalid Hp up v1.
  split.
  - intros Hrun. unfold ports_add_port. unfold mbind at 1. unfold gets at 1.
    rewrite Hvalid. cbn [negb].
    rewrite (mbind_Ret _ _ _ _ _ (get_port_run _ _ _ Hp)). fold up.
    unfold mbind at 1. unfold put_port at 1, modify at 1.
    fold (with_port n up v). fold v1. by rewrite Hrun.
  - intros Hrun Hco Hdot Hout.
    unfold ports_add_port. unfold mbind at 1. unfold gets at 1.
    rewrite Hvalid. cbn [negb].
    rewrite (mbind_Ret _ _ _ _ _ (get_port_run _ _ _ Hp)). fold up.
    unfold mbind at 1. unfold put_port at 1, modify at 1.
    fold (with_port n up v). fold v1.
    rewrite Hrun. cbn [negb].
    unfold mbind at 1. unfold gets at 1.
    assert (Hm : mgr_only (for_msgs (_get_managers v1)
                   (fun manager => call (add_port ext manager) up))).
    { apply mgr_only_for_msgs. intros x. apply mgr_only_call. }
    destruct (Hm v1) as (ms_mgr & s & Hms).
    rewrite (mbind_Ret _ _ _ _ _ Hms).
    unfold mbind at 1. unfold gets at 1.
    change (coprocessor up) with (coprocessor p). rewrite Hco.
    change (dp (set_mgr s v1)) with (dp v1).
    change (dp_dot1x (dp v1)) with (dp_dot1x (dp v)). rewrite Hdot.
    unfold mbind at 1. unfold mret at 1.
    change (output_only up) with (output_only p). rewrite Hout.
    exists ms_mgr, s. split; [exact Hms | reflexivity].
Qed.

End PortsAdd.

Import Example2.

(** ** Instances of the further properties *)

Lemma list_to_map_Forall {A} (P : A -> Prop) (l : list (Z * A)) :
  Forall (fun np => P np.2) l ->
  forall n a, (list_to_map l : gmap Z A) !! n = Some a -> P a.
Proof.
  intros Hl n a Hn. apply elem_of_list_to_map_2 in Hn.
  rewrite Forall_forall in Hl. apply (Hl (n, a) Hn).
Qed.

Lemma lacp_down_effect_witness :
  let p := lacp_port 1 [] 1 None (Some 5%Q) None in
  let v := valve_of_dp (dp_of [(1, p)] true [1]) in
  ports (dp v) !! 1 = Some p /\
  exists ms v',
    lacp_down ext0 1 false v = Ret (ms, v') /\
    ports (dp v') = <[1 := lacp_reset p]> (ports (dp v)).
Proof.
  intros p v.
  assert (H : ports (dp v) !! 1 = Some p) by (vm_compute; reflexivity).
  split; [exact H|].
  destruct (lacp_down_effect ext0 v 1 false p H) as (ms & v' & Hrun & Hps & _).
  exists ms, v'. split; assumption.
Defined.

Lemma lacp_up_effect_witness :
  let p := lacp_port 1 [] 0 None None None in
  let v := valve_of_dp (dp_of [(1, p)] true [1]) in
  ports (dp v) !! 1 = Some p /\
  exists ms v',
    lacp_up ext0 1 v = Ret (ms, v') /\
    ports (dp v') = <[1 := set_dyn_lacp_up 1 p]> (ports (dp v)).
Proof.
  intros p v.
  assert (H : ports (dp v) !! 1 = Some p) by (vm_compute; reflexivity).
  split; [exact H|].
  destruct (lacp_up_effect ext0 v 1 p H) as (ms & v' & Hrun & Hps & _).
  exists ms, v'. split; assumption.
Defined.

Lemma lacp_actions_passthrough_witness :
  let p := lacp_port 1 [2] 1 None None None in
  let q := lacp_port 2 [] 0 None None None in
  let v := valve_of_dp (dp_of [(1, p); (2, q)] true [1; 2]) in
  ports (dp v) !! 1 = Some p /\
  _lacp_actions ext0 None 1 v = Ret ([], v).
Proof.
  intros p q v.
  assert (H : ports (dp v) !! 1 = Some p) by (vm_compute; reflexivity).
  split; [exact H|].
  destruct (lacp_actions_passthrough ext0 v 1 p None H) as [Hall _].
  destruct Hall as (ms & Hrun & Hdown & _).
  { constructor; [|constructor]. exists q. vm_compute. reflexivity. }
  rewrite Hrun. rewrite Hdown; [reflexivity|].
  exists 2, q. split; [apply elem_of_cons; by left|].
  split; vm_compute; reflexivity.
Defined.

Lemma lacp_handler_ignores_witness :
  let p := access_port 1 true in
  let v := valve_of_dp (dp_of [(1, p)] true [1]) in
  let pkt_meta := lacp_pkt_meta 1 7 1 in
  ports (dp v) !! pm_port pkt_meta = Some p /\
  lacp p = 0 /\
  lacp_handler ext0 10%Q pkt_meta v = Ret (None, v).
Proof.
  intros p v pkt_meta.
  assert (H : ports (dp v) !! pm_port pkt_meta = Some p)
    by (vm_compute; reflexivity).
  assert (H0 : lacp p = 0) by reflexivity.
  split; [exact H|]. split; [exact H0|].
  apply (lacp_handler_ignores ext0 v 10%Q pkt_meta p H).
  right. right. left. exact H0.
Defined.

Lemma lacp_handler_records_witness :
  let p := lacp_port 1 [] 0 None None None in
  let v := valve_of_dp (dp_of [(1, p)] true [1]) in
  let pkt_meta := lacp_pkt_meta 1 7 1 in
  let lacp_pkt := mkLacpPkt 7 1 1 0 0 0 0 0 1 1 1 1 1 in
  ports (dp v) !! pm_port pkt_meta = Some p /\
  parse_lacp_pkt ext0 (take (LACP_SIZE ext0) (pm_data pkt_meta))
    = Some lacp_pkt /\
  lacp_actor_up ext0 lacp_pkt = 1 /\
  exists r v' port',
    lacp_handler ext0 10%Q pkt_meta v = Ret (r, v') /\
    ports (dp v') !! 1 = Some port' /\
    dyn_last_lacp_pkt port' = Some lacp_pkt /\
    dyn_lacp_updated_time port' = Some 10%Q /\
    dyn_lacp_up port' = 1.
Proof.
  intros p v pkt_meta lacp_pkt.
  assert (H : ports (dp v) !! pm_port pkt_meta = Some p)
    by (vm_compute; reflexivity).
  assert (Hparse : parse_lacp_pkt ext0
                     (take (LACP_SIZE ext0) (pm_data pkt_meta))
                   = Some lacp_pkt) by (vm_compute; reflexivity).
  assert (Hup : lacp_actor_up ext0 lacp_pkt = 1) by reflexivity.
  split; [exact H|]. split; [exact Hparse|]. split; [exact Hup|].
  destruct (lacp_handler_records ext0 v 10%Q pkt_meta p lacp_pkt H)
    as (r & v' & port' & Hrun & Hport' & Hlast & Htime & Hstate & _).
  - reflexivity.
  - reflexivity.
  - vm_compute. discriminate.
  - exact Hparse.
  - constructor.
  - right. exact Hup.
  - exists r, v', port'. rewrite Hup in Hstate. by repeat (split; [assumption|]).
Defined.

Lemma lacp_handler_reply_witness :
  let p := lacp_port 1 [] 0 None None None in
  let v := valve_of_dp (dp_of [(1, p)] true [1]) in
  let pkt_meta := lacp_pkt_meta 1 7 1 in
  let lacp_pkt := mkLacpPkt 7 1 1 0 0 0 0 0 1 1 1 1 1 in
  ports (dp v) !! pm_port pkt_meta = Some p /\
  parse_lacp_pkt ext0 (take (LACP_SIZE ext0) (pm_data pkt_meta))
    = Some lacp_pkt /\
  exists r v',
    lacp_handler ext0 10%Q pkt_meta v = Ret (r, v') /\ r <> None.
Proof.
  intros p v pkt_meta lacp_pkt.
  assert (H : ports (dp v) !! pm_port pkt_meta = Some p)
    by (vm_compute; reflexivity).
  assert (Hparse : parse_lacp_pkt ext0
                     (take (LACP_SIZE ext0) (pm_data pkt_meta))
                   = Some lacp_pkt) by (vm_compute; reflexivity).
  split; [exact H|]. split; [exact Hparse|].
  destruct (lacp_handler_reply ext0 v 10%Q pkt_meta p lacp_pkt H)
    as (r & v' & trans_ms & reply_ms & v1 & Hrun & _ & _ & _ & _ & _ & _ & _
        & Hnone).
  - reflexivity.
  - reflexivity.
  - vm_compute. discriminate.
  - exact Hparse.
  - constructor.
  - exists r, v'. split; [exact Hrun|].
    intros Hr. apply Hnone in Hr as [Hsame _]. vm_compute in Hsame.
    discriminate.
Defined.

Lemma lacp_state_expire_effect_witness :
  let p1 := lacp_port 1 [] 1 None (Some 0%Q) None in
  let p2 := lacp_port 2 [] 1 None (Some 8%Q) None in
  let v := valve_of_dp (dp_of [(1, p1); (2, p2)] true [1; 2]) in
  (forall n p, ports (dp v) !! n = Some p -> lacp_is_up p = true ->
               is_Some (dyn_lacp_updated_time p)) /\
  exists r v',
    _lacp_state_expire ext0 10%Q v = Ret (r, v') /\
    dyn_lacp_up <$> ports (dp v') !! 1 = Some 0 /\
    dyn_lacp_up <$> ports (dp v') !! 2 = Some 1.
Proof.
  intros p1 p2 v.
  assert (H : forall n p, ports (dp v) !! n = Some p -> lacp_is_up p = true ->
                          is_Some (dyn_lacp_updated_time p)).
  { intros n p Hp _. revert n p Hp.
    apply (list_to_map_Forall (fun p => is_Some (dyn_lacp_updated_time p))
             [(1, p1); (2, p2)]).
    repeat constructor; by eexists. }
  split; [exact H|].
  destruct (lacp_state_expire_effect ext0 v 10%Q H)
    as (r & v' & Hrun & Hps & _).
  exists r, v'. split; [exact Hrun|].
  rewrite !Hps. split; vm_compute; reflexivity.
Defined.

Lemma state_expire_lacp_witness :
  let p1 := lacp_port 1 [] 1 None (Some 0%Q) None in
  let p2 := lacp_port 2 [] 1 None (Some 8%Q) None in
  let v := valve_of_dp (dp_of [(1, p1); (2, p2)] true [1; 2]) in
  (forall n p, ports (dp v) !! n = Some p -> lacp_is_up p = true ->
               is_Some (dyn_lacp_updated_time p)) /\
  exists r1 v1 r v',
    _lacp_state_expire ext0 10%Q v = Ret (r1, v1) /\
    state_expire ext0 10%Q v = Ret (r, v') /\
    dyn_lacp_up <$> ports (dp v1) !! 1 = Some 0 /\
    dyn_lacp_up <$> ports (dp v1) !! 2 = Some 1 /\
    flowdrop T_vlan (match_in_port 1) 9001 ∈ default [] r.
Proof.
  intros p1 p2 v.
  assert (H : forall n p, ports (dp v) !! n = Some p -> lacp_is_up p = true ->
                          is_Some (dyn_lacp_updated_time p)).
  { intros n p Hp _. revert n p Hp.
    apply (list_to_map_Forall (fun p => is_Some (dyn_lacp_updated_time p))
             [(1, p1); (2, p2)]).
    repeat constructor; by eexists. }
  split; [exact H|].
  destruct (state_expire_lacp ext0 v 10%Q H) as [_ Hup].
  destruct (Hup eq_refl)
    as (r1 & v1 & r & v' & added & Hrun1 & Hps & _ & Hrun & _ & Hdrop).
  exists r1, v1, r, v'. split; [exact Hrun1|]. split; [exact Hrun|].
  rewrite !Hps. split; [vm_compute; reflexivity|].
  split; [vm_compute; reflexivity|].
  apply (Hdrop 1 p1); vm_compute; reflexivity.
Defined.

Lemma lacp_handler_keeps_updated_time_witness :
  let p := lacp_port 1 [] 0 None None None in
  let v := valve_of_dp (dp_of [(1, p)] true [1]) in
  let pkt_meta := lacp_pkt_meta 1 7 1 in
  ports (dp v) !! pm_port pkt_meta = Some p /\
  (forall n q, ports (dp v) !! n = Some q -> lacp_is_up q = true ->
               is_Some (dyn_lacp_updated_time q)) /\
  exists r v' r2 v2,
    lacp_handler ext0 10%Q pkt_meta v = Ret (r, v') /\
    state_expire ext0 20%Q v' = Ret (r2, v2).
Proof.
  intros p v pkt_meta.
  assert (Hp : ports (dp v) !! pm_port pkt_meta = Some p)
    by (vm_compute; reflexivity).
  assert (H : forall n q, ports (dp v) !! n = Some q -> lacp_is_up q = true ->
                          is_Some (dyn_lacp_updated_time q)).
  { intros n q Hq. revert n q Hq.
    apply (list_to_map_Forall
             (fun q => lacp_is_up q = true -> is_Some (dyn_lacp_updated_time q))
             [(1, p)]).
    repeat constructor. simpl. discriminate. }
  split; [exact Hp|]. split; [exact H|].
  destruct (lacp_handler_keeps_updated_time ext0 v 10%Q 20%Q pkt_meta p Hp)
    as (r & v' & Hrun & _ & r2 & v2 & Hrun2).
  - constructor.
  - exact H.
  - exists r, v', r2, v2. split; assumption.
Defined.

Lemma next_stack_link_state_settles_witness :
  let port := stack_port 1 1 3 STACK_STATE_DOWN no_probe in
  _next_stack_link_state port 10%Q = Ret (Some STACK_STATE_INIT) /\
  _next_stack_link_state
    (set_dyn_stack_current_state STACK_STATE_INIT port) 10%Q = Ret None.
Proof.
  intros port.
  assert (H : _next_stack_link_state port 10%Q = Ret (Some STACK_STATE_INIT))
    by reflexivity.
  split; [exact H|].
  apply (next_stack_link_state_settles port 10%Q STACK_STATE_INIT H).
Defined.


Lemma parse_pkt_meta_accepted_witness :
  let v := valve_of_dp (dp_of [(1, access_port 1 true)] true [1]) in
  let msg := packet_in 1 1 ip_frame in
  exists pkt_meta,
    parse_pkt_meta ext0 v msg = Ret (Some pkt_meta) /\
    pm_port pkt_meta <> 0 /\
    (length (pm_data pkt_meta) <= MAX_PACKET_IN_BYTES ext0)%nat /\
    pm_orig_len pkt_meta = msg_total_len msg.
Proof.
  intros v msg.
  destruct (parse_pkt_meta ext0 v msg) as [[pkt_meta|]|e] eqn:E;
    [|vm_compute in E; discriminate|vm_compute in E; discriminate].
  exists pkt_meta. split; [reflexivity|].
  destruct (parse_pkt_meta_accepted ext0 v msg pkt_meta E)
    as (_ & _ & _ & Hnz & _ & _ & _ & Hlen & Horig & _).
  split; [exact Hnz|]. split; [exact Hlen|exact Horig].
Defined.

Lemma ports_add_delete_invalid_witness :
  let v := valve_of_dp (dp_of [(1, access_port 1 true)] true [1]) in
  Forall (fun n => port_no_valid ext0 (dp v) n = false) [7; 9] /\
  ports_add ext0 [7; 9] false v = Ret ([], v) /\
  ports_delete ext0 [7; 9] v = Ret ([], v).
Proof.
  intros v.
  assert (H : Forall (fun n => port_no_valid ext0 (dp v) n = false) [7; 9])
    by (repeat constructor).
  split; [exact H|].
  apply (ports_add_delete_invalid ext0 v [7; 9] false H).
Defined.

Lemma port_status_handler_records_witness :
  let v := valve_of_dp (dp_of [(1, access_port 1 true)] true []) in
  exists r v',
    port_status_handler ext0 1 2 0 v = Ret (r, v') /\
    1 ∈ dyn_up_port_nos (dp v') /\
    dyn_running (dp v') = true.
Proof.
  intros v.
  destruct (port_status_handler ext0 1 2 0 v) as [[r v']|e] eqn:E;
    [|vm_compute in E; discriminate].
  exists r, v'. split; [reflexivity|].
  destruct (port_status_handler_records ext0 v v' 1 2 0 r E)
    as (Hup & _ & Hrun & _).
  split; [by apply Hup|exact Hrun].
Defined.

Lemma port_status_handler_ignored_witness :
  let v := valve_of_dp (dp_of [(1, access_port 1 true)] true [1]) in
  port_no_valid ext0
    (set_dyn_up_port_nos ({[9]} ∪ dyn_up_port_nos (dp v)) (dp v)) 9 = false /\
  exists v',
    port_status_handler ext0 9 0 0 v = Ret (None, v') /\ mgr v' = mgr v.
Proof.
  intros v.
  assert (H : port_no_valid ext0
                (set_dyn_up_port_nos ({[9]} ∪ dyn_up_port_nos (dp v)) (dp v)) 9
              = false) by reflexivity.
  split; [exact H|].
  destruct (port_status_handler_ignored ext0 v 9 0 0 (or_introl H))
    as (v' & Hrun & _ & Hmgr).
  exists v'. split; assumption.
Defined.

Lemma port_status_handler_dispatch_witness :
  let v := valve_of_dp (dp_of [(1, access_port 1 true)] true [1]) in
  let port := access_port 1 true in
  ports (dp v) !! 1 = Some port /\
  opstatus_reconf port = true /\
  exists v1,
    port_status_prologue ext0 1 1 1 v = Ret (tt, v1) /\
    port_status_handler ext0 1 1 1 v
      = (a <- port_delete ext0 1 ;; mret (Some a)) v1.
Proof.
  intros v port.
  assert (H4 : ports (dp v) !! 1 = Some port) by reflexivity.
  assert (H5 : opstatus_reconf port = true) by reflexivity.
  split; [exact H4|]. split; [exact H5|].
  destruct (port_status_handler_dispatch ext0 v 1 1 1 port)
    as (v1 & Hpro & Hdown & _); try (simpl; discriminate); try reflexivity.
  exists v1. split; [exact Hpro|]. apply Hdown. by left.
Defined.

Lemma ports_delete_port_effect_witness :
  let p := access_port 1 true in
  let v := valve_of_dp (dp_of [(1, p)] true [1]) in
  port_no_valid ext0 (dp v) 1 = true /\
  ports (dp v) !! 1 = Some p /\
  dot1x p = false /\
  exists ms vl v',
    ports_delete_port ext0 1 v = Ret ((ms, vl), v') /\
    ports (dp v') = <[1 := set_dyn_phys_up false p]> (ports (dp v)).
Proof.
  intros p v.
  assert (H1 : port_no_valid ext0 (dp v) 1 = true) by reflexivity.
  assert (H2 : ports (dp v) !! 1 = Some p) by reflexivity.
  assert (H3 : dot1x p = false) by reflexivity.
  split; [exact H1|]. split; [exact H2|]. split; [exact H3|].
  destruct (ports_delete_port_effect ext0 v 1 p H1 H2 H3)
    as (ms & vl & v' & Hrun & Hps & _).
  exists ms, vl, v'. split; [exact Hrun|exact Hps].
Defined.

Lemma reload_config_swaps_dp_witness :
  let v := valve_of_dp
             (dp_of [(1, access_port 1 true); (2, access_port 2 true)]
                true [1; 2]) in
  let new_dp := dp_of [(1, access_port 1 true)] false [] in
  exists r v',
    reload_config ext0 0%Q new_dp v = Ret (r, v') /\
    dyn_running (dp v') = true /\
    dyn_up_port_nos (dp v') = dyn_up_port_nos (dp v) /\
    ports_of_config (ports new_dp) (ports (dp v')).
Proof.
  intros v new_dp.
  destruct (reload_config ext0 0%Q new_dp v) as [[r v']|e] eqn:E;
    [|vm_compute in E; discriminate].
  exists r, v'. split; [reflexivity|].
  destruct (reload_config_swaps_dp ext0 v v' 0%Q new_dp r E)
    as (Hdp & Hports & _).
  split; [by rewrite Hdp|]. split; [by rewrite Hdp | exact Hports].
Defined.

Lemma reload_config_not_running_witness :
  let v := valve_of_dp
             (dp_of [(1, access_port 1 true); (2, access_port 2 true)]
                false [1; 2]) in
  let new_dp := dp_of [(1, access_port 1 true)] true [] in
  dyn_running (dp v) = false /\
  exists v', reload_config ext0 0%Q new_dp v = Ret (Some [], v').
Proof.
  intros v new_dp.
  assert (H : dyn_running (dp v) = false) by reflexivity.
  split; [exact H|].
  destruct (reload_config ext0 0%Q new_dp v) as [[r v']|e] eqn:E;
    [|vm_compute in E; discriminate].
  destruct (reload_config_not_running ext0 v v' 0%Q new_dp r H E) as [-> _].
  exists v'. reflexivity.
Defined.

Lemma apply_config_changes_warm_sequence_witness :
  let v := valve_of_dp
             (dp_of [(1, access_port 1 true); (2, access_port 2 true)]
                true [1; 2]) in
  let new_dp := dp_of [(1, access_port 1 true)] false [] in
  let changes := get_config_changes ext0 (dp v) new_dp in
  _pipeline_change ext0 v = Ret false /\
  all_ports_changed changes = false /\
  exists ofmsgs v' m1 v1,
    _apply_config_changes ext0 new_dp changes v = Ret ((false, ofmsgs), v') /\
    ports_delete ext0 (deleted_ports changes) v = Ret (m1, v1) /\
    exists rest, ofmsgs = m1 ++ rest.
Proof.
  intros v new_dp changes.
  assert (H1 : _pipeline_change ext0 v = Ret false) by reflexivity.
  assert (H2 : all_ports_changed changes = false) by reflexivity.
  split; [exact H1|]. split; [exact H2|].
  destruct (_apply_config_changes ext0 new_dp changes v)
    as [[[cs ms] v']|e] eqn:E; [|vm_compute in E; discriminate].
  destruct (apply_config_changes_warm_sequence ext0 v new_dp changes cs ms v'
              H1 H2 E)
    as (-> & m1 & v1 & dvl & m3 & v3 & vs & cvl & m4 & v4 & m5 & v5 & m6
        & Hd & _ & _ & _ & _ & _ & _ & _ & Hms).
  exists ms, v', m1, v1. split; [reflexivity|]. split; [exact Hd|].
  eexists. exact Hms.
Defined.

Lemma add_default_flows_effect_witness :
  let v := tfm_valve_of_dp (dp_of [(1, access_port 1 true)] false []) in
  tfm v = true /\
  exists ms v',
    _add_default_flows ext0 ext2_0 v = Ret (ms, v') /\
    _pipeline_change ext0 v' = Ret false /\
    flowdrop T_vlan match_any 0 ∈ ms.
Proof.
  intros v.
  assert (H : tfm v = true) by reflexivity.
  split; [exact H|].
  destruct (add_default_flows_effect ext0 ext2_0 v)
    as (ms & v' & Hrun & _ & _ & _ & _ & Htables & Hpipe).
  exists ms, v'. split; [exact Hrun|]. split; [apply Hpipe; by left|].
  apply (Htables T_vlan None).
  apply elem_of_cons. right. apply elem_of_cons. by left.
Defined.

Lemma advertise_rate_witness :
  let v := tfm_valve_of_dp (dp_of [(1, access_port 1 true)] true [1]) in
  advertise_interval ext2_0 (dp v) <> 0 /\
  (inject_Z (advertise_interval ext2_0 (dp v)) <= 10 - _last_advertise_sec v)%Q /\
  exists r v',
    advertise ext2_0 10%Q v = Ret (r, v') /\
    _last_advertise_sec v' = 10%Q /\
    advertise ext2_0 12%Q v' = Ret (None, v').
Proof.
  intros v.
  assert (H1 : advertise_interval ext2_0 (dp v) <> 0) by (simpl; discriminate).
  assert (H2 : (inject_Z (advertise_interval ext2_0 (dp v))
                <= 10 - _last_advertise_sec v)%Q)
    by (vm_compute; discriminate).
  split; [exact H1|]. split; [exact H2|].
  destruct (advertise_rate ext2_0 v 10%Q) as (r & v' & Hrun & _ & _ & Hadv).
  destruct (Hadv H1 H2) as [Hlast Hlater].
  exists r, v'. split; [exact Hrun|]. split; [exact Hlast|].
  apply Hlater. vm_compute. reflexivity.
Defined.

Lemma next_stack_link_state_zero_interval_witness :
  let port := stack_port 1 0 3 STACK_STATE_UP
                (mkProbeInfo (Some 5%Q) (Some true)) in
  is_stack_admin_down port = false /\
  _next_stack_link_state port 10%Q = Raise ZeroDivisionError.
Proof.
  intros port.
  assert (H : is_stack_admin_down port = false) by reflexivity.
  split; [exact H|].
  destruct (next_stack_link_state_zero_interval port 10%Q) as [_ Hzero].
  apply (Hzero (mkStackPeer 2 1 (Some 0) 5) 5%Q H); reflexivity.
Defined.

Lemma ports_add_port_output_only_witness :
  let p := mkPort 1 true true None false false 0 false [] 1 None 3 []
             (Some v100) false false 0 None None None
             STACK_STATE_ADMIN_DOWN no_probe None in
  let v := valve_of_dp (dp_of [(1, p)] true [1]) in
  port_no_valid ext0 (dp v) 1 = true /\
  ports (dp v) !! 1 = Some p /\
  exists ms_mgr v',
    ports_add_port ext0 false 1 v
      = Ret ((ms_mgr ++ [flowdrop T_vlan (match_in_port 1) 9099], []), v').
Proof.
  intros p v.
  assert (H1 : port_no_valid ext0 (dp v) 1 = true) by reflexivity.
  assert (H2 : ports (dp v) !! 1 = Some p) by reflexivity.
  split; [exact H1|]. split; [exact H2|].
  destruct (ports_add_port_output_only ext0 v false 1 p H1 H2) as [_ Hout].
  destruct Hout as (ms_mgr & s & _ & Hrun); try reflexivity.
  eexists ms_mgr, _. exact Hrun.
Defined.
